(** * The Anthropic pipe of Topify-GEOAGENT (src/anthropic_api_pipe.py)

    A shallow embedding of class [Pipe]: the request builder ([pipe]), the
    streaming translator ([_stream_with_ui]) and the retry wrapper
    ([_send_request]), followed by the properties the specification states
    about them.

    Python objects that come out of [json.loads] or out of the host's
    request body are values of type [value]; a Python [dict] is an
    association list read by its first binding.  Code that can raise
    returns [result A]; generators return the list of what they yield. *)

From Stdlib Require Import ZArith QArith List String Ascii Bool Lia DecimalString.
Import ListNotations.
Local Open Scope string_scope.
Local Open Scope Z_scope.
Local Open Scope list_scope.
Set Warnings "-register-all".

(** ** Python values *)

(** A Python [float]: signed zero, a finite non-zero [(-1)^neg * m * 2^e],
    an infinity or a NaN. *)
Inductive pyfloat : Type :=
| FZero (neg : bool)
| FFinite (neg : bool) (m : positive) (e : Z)
| FInf (neg : bool)
| FNaN.

Inductive value : Type :=
| VNone
| VBool (b : bool)
| VInt (n : Z)
| VFloat (x : pyfloat)
| VStr (s : string)
| VList (xs : list value)
| VDict (kvs : list (string * value)).

Definition dict : Type := list (string * value).

(** [bool(v)] *)
Definition truthy (v : value) : bool :=
  match v with
  | VNone => false
  | VBool b => b
  | VInt n => negb (n =? 0)
  | VFloat (FZero _) => false
  | VFloat _ => true
  | VStr s => negb (s =? "")%string
  | VList xs => match xs with [] => false | _ :: _ => true end
  | VDict kvs => match kvs with [] => false | _ :: _ => true end
  end.

(** [v == "literal"] *)
Definition eq_str (v : value) (lit : string) : bool :=
  match v with
  | VStr s => (s =? lit)%string
  | _ => false
  end.

Fixpoint lookup (k : string) (d : dict) : option value :=
  match d with
  | [] => None
  | (k', v) :: rest => if (k' =? k)%string then Some v else lookup k rest
  end.

(** [d[k] = v] on a dict: an existing key keeps its place, a new one goes last. *)
Fixpoint dict_set (k : string) (v : value) (d : dict) : dict :=
  match d with
  | [] => [(k, v)]
  | (k', v') :: rest =>
      if (k' =? k)%string then (k, v) :: rest else (k', v') :: dict_set k v rest
  end.

(** ** Exceptions *)

Inductive value_error : Type :=
| UnsupportedMediaType (media_type : string)
| ImageSizeExceeded (image_size : Q)
| TotalImageSizeExceeded (total_size : Q)
| TooManyImages (image_count : Z)
| NotEnoughValuesToUnpack
| InvalidLiteral (s : string).

Inductive exn : Type :=
| KeyError (key : string)
| IndexError
| TypeError
| AttributeError
| ValueError (why : value_error)
| JSONDecodeError
| ClientError (msg : string)
| TimeoutError
| OtherException (msg : string).

Definition result (A : Type) : Type := (exn + A)%type.

Definition ok {A : Type} (a : A) : result A := inr a.
Definition raise {A : Type} (e : exn) : result A := inl e.

Definition bind {A B : Type} (m : result A) (k : A -> result B) : result B :=
  match m with
  | inl e => inl e
  | inr a => k a
  end.

Notation "x <- m ;; k" := (bind m (fun x => k))
  (at level 61, m at next level, right associativity).

(** [v[k]] with a string key: only a dict can be subscripted by a string. *)
Definition getitem (v : value) (k : string) : result value :=
  match v with
  | VDict d => match lookup k d with Some x => ok x | None => raise (KeyError k) end
  | _ => raise TypeError
  end.

(** [v.get(k, default)]: only a dict has the method. *)
Definition get (v : value) (k : string) (default : value) : result value :=
  match v with
  | VDict d => match lookup k d with Some x => ok x | None => ok default end
  | _ => raise AttributeError
  end.

(** ** Library code the pipe calls *)

Record Builtins : Type := {
  (** [json.loads] on the bytes of a line or on a response text *)
  json_loads : string -> result value;
  (** [int(s)] on a header string *)
  int_of_str : string -> result Z;
  (** [str(v)] of a float, a list or a dict *)
  py_repr : value -> string;
  (** [float(v)] and [int(v)] on a request field *)
  py_float : value -> result value;
  py_int : value -> result value;
  (** [open_webui.utils.misc.pop_system_message] *)
  pop_system_message : value -> result (value * value);
  (** [Pipe._process_messages] (lines 740-850), kept abstract *)
  process_messages : value -> result value
}.

(** ** Strings *)

Definition str_of_int (n : Z) : string := NilZero.string_of_int (Z.to_int n).

Definition len (s : string) : Z := Z.of_nat (String.length s).

Definition startswith (p s : string) : bool := String.prefix p s.

(** [s[n:]] *)
Fixpoint drop (n : nat) (s : string) : string :=
  match n, s with
  | O, _ => s
  | S _, EmptyString => EmptyString
  | S n', String _ rest => drop n' rest
  end.

(** [needle in s] *)
Fixpoint contains (needle s : string) : bool :=
  startswith needle s ||
  match s with
  | EmptyString => false
  | String _ rest => contains needle rest
  end.

(** [s.split(sep)] for a one-character separator. *)
Fixpoint split (sep : ascii) (s : string) : list string :=
  match s with
  | EmptyString => [EmptyString]
  | String c rest =>
      if (c =? sep)%char then EmptyString :: split sep rest
      else
        match split sep rest with
        | piece :: pieces => String c piece :: pieces
        | [] => [String c EmptyString]
        end
  end.

(** [s.replace(old, new)] for a non-empty [old]: leftmost occurrences, not
    overlapping.  [skip] counts the characters of a matched [old] still to
    pass over. *)
Fixpoint replace_from (skip : nat) (old new s : string) : string :=
  match s with
  | EmptyString => EmptyString
  | String c rest =>
      match skip with
      | S k => replace_from k old new rest
      | O =>
          if startswith old s
          then new ++ replace_from (String.length old - 1) old new rest
          else String c (replace_from O old new rest)
      end
  end.

Definition replace (old new s : string) : string := replace_from O old new s.

(** [s.split(sep, 1)]: at most one cut, at the first separator. *)
Fixpoint split1 (sep : ascii) (s : string) : list string :=
  match s with
  | EmptyString => [EmptyString]
  | String c rest =>
      if (c =? sep)%char then [EmptyString; rest]
      else
        match split1 sep rest with
        | piece :: pieces => String c piece :: pieces
        | [] => [String c EmptyString]
        end
  end.

(** [a, b = pieces] *)
Definition unpack2 (pieces : list string) : result (string * string) :=
  match pieces with
  | [a; b] => ok (a, b)
  | _ => raise (ValueError NotEnoughValuesToUnpack)
  end.

(** ** What the pipe yields and logs *)

(** The text of an error the pipe reports. *)
Inductive error_text : Type :=
| MissingApiKey                              (* "Error: ANTHROPIC_API_KEY is required" *)
| HttpError (status : Z) (text : string)     (* f"Error: HTTP {status}: {text}" *)
| RequestTimedOut                            (* "Request timed out" *)
| StreamError (e : exn)                      (* f"Stream error: {str(e)}" *)
| RequestFailed (e : exn)                    (* f"Request failed: {str(e)}" *)
| ErrorOf (e : exn).                         (* f"Error: {str(e)}" *)

(** One item yielded by [_stream_with_ui].  The strings themselves are not
    spelled out: the text of a chunk is ["data: "] and [json.dumps] of a
    dict, an error text starts with [Error], [Request] or [Stream], so no
    other item reads as the sentinel. *)
Inductive sse_item : Type :=
| SseData (chunk : value)                    (* f"data: {json.dumps(chunk)}\n\n" *)
| SseDone                                    (* "data: [DONE]\n\n" *)
| SseError (msg : error_text) (request_id : option string).
                                             (* error_msg [+ f" (Request ID: {request_id})"] *)

(** One call of [logging]. *)
Inductive log_record : Type :=
| LogBlockStart (block_type : value)         (* info, line 557 *)
| LogToolWanted (name : value)               (* info, line 568 *)
| LogParseFailure                            (* error, line 658 *)
| LogRateLimit (retry_after : Z) (attempt : Z)  (* warning, line 876 *)
| LogRequestFailed (e : exn)                 (* error, line 894 *)
| LogMaxRetries.                             (* error, line 897 *)

(** [if self.request_id: error_msg += ...]: the id that is appended, if any. *)
Definition request_id_suffix (request_id : option string) : option string :=
  match request_id with
  | Some s => if (s =? "")%string then None else Some s
  | None => None
  end.

(** ** The streaming translator *)

(** [current_tool_use], when it is not [None]. *)
Record tool_use : Type := {
  tu_id : value;
  tu_name : value;
  tu_index : Z
}.

(** The local variables of [_stream_with_ui]. *)
Record stream_state : Type := {
  current_tool_use : option tool_use;
  tool_use_input_json : string;
  tool_call_index : Z;
  has_tool_calls : bool
}.

Definition initial_state : stream_state :=
  {| current_tool_use := None;
     tool_use_input_json := "";
     tool_call_index := 0;
     has_tool_calls := false |}.

(** What the loop does after a line. *)
Inductive control : Type :=
| Continue (s : stream_state)
| Break.

Definition step : Type := (control * list sse_item * list log_record)%type.

(** What the upstream body hands to [async for line in response.content]:
    a line, read at the wall-clock second [now], or an exception. *)
Inductive arrival : Type :=
| Line (now : Z) (bytes : string)
| ReadRaises (e : exn).

(** How the loop over the body ended. *)
Inductive finish : Type :=
| Exhausted (s : stream_state)
| Stopped
| Failed (e : exn).

(** The upstream response to one POST. *)
Record response : Type := {
  status : Z;
  headers : string -> option string;
  text : string;
  content : list arrival
}.

Inductive post_outcome : Type :=
| Responded (r : response)
| PostRaises (e : exn).

(** [_create_openai_tool_call_chunk]; [now] stands for [int(time.time())],
    which the two readings taken for a chunk are assumed to agree on. *)
Definition create_openai_tool_call_chunk
    (now : Z) (model tool_calls content finish_reason : value) : value :=
  let delta :=
    (if truthy tool_calls then [("tool_calls", tool_calls)] else []) ++
    (if truthy content then [("content", content)] else []) in
  VDict [("id", VStr ("chatcmpl-" ++ str_of_int now));
         ("object", VStr "chat.completion.chunk");
         ("created", VInt now);
         ("model", model);
         ("choices", VList [VDict [("index", VInt 0);
                                   ("delta", VDict delta);
                                   ("finish_reason", finish_reason)]])].

(** The chunk that opens a tool call (lines 571-582). *)
Definition initial_tool_chunk (now : Z) (model : value) (t : tool_use) : value :=
  create_openai_tool_call_chunk now model
    (VList [VDict [("index", VInt (tu_index t));
                   ("id", tu_id t);
                   ("type", VStr "function");
                   ("function", VDict [("name", tu_name t);
                                       ("arguments", VStr "")])]])
    VNone VNone.

(** The chunk that carries one fragment of the arguments (lines 601-609). *)
Definition argument_chunk (now : Z) (model : value) (index : Z) (partial_json : value)
    : value :=
  create_openai_tool_call_chunk now model
    (VList [VDict [("index", VInt index);
                   ("function", VDict [("arguments", partial_json)])]])
    VNone VNone.

Definition content_chunk (now : Z) (model content : value) : value :=
  create_openai_tool_call_chunk now model VNone content VNone.

Definition finish_chunk (now : Z) (model : value) (finish_reason : string) : value :=
  create_openai_tool_call_chunk now model VNone VNone (VStr finish_reason).

(** The chunk of a [thinking_delta] (lines 617-626). *)
Definition reasoning_chunk (now : Z) (model thinking_text : value) : value :=
  VDict [("id", VStr ("chatcmpl-" ++ str_of_int now));
         ("object", VStr "chat.completion.chunk");
         ("model", model);
         ("choices", VList [VDict [("index", VInt 0);
                                   ("delta", VDict [("reasoning_content", thinking_text)]);
                                   ("finish_reason", VNone)]])].

(** ** Class attributes of [Pipe] *)

Definition API_VERSION : string := "2023-06-01".
Definition SUPPORTED_IMAGE_TYPES : list string :=
  ["image/jpeg"; "image/png"; "image/gif"; "image/webp"].
Definition MAX_IMAGE_SIZE : Z := 5 * 1024 * 1024.
Definition TOTAL_MAX_IMAGE_SIZE : Z := 100 * 1024 * 1024.
Definition MAX_IMAGES_PER_REQUEST : Z := 100.

Definition MODEL_MAX_TOKENS : list (string * Z) :=
  [("claude-opus-4-5-20250514", 32000);
   ("claude-4-5-opus-20250514", 32000);
   ("claude-opus-4-20250514", 32000);
   ("claude-opus-4-0", 32000);
   ("claude-sonnet-4-20250514", 64000);
   ("claude-sonnet-4-0", 64000);
   ("claude-3-7-sonnet-20250219", 128000);
   ("claude-3-7-sonnet-latest", 128000);
   ("claude-3-5-sonnet-20241022", 8192);
   ("claude-3-5-sonnet-20240620", 8192);
   ("claude-3-5-sonnet-latest", 8192)].

Definition PDF_HEADER : string := "pdfs-2024-09-25".
Definition PROMPT_CACHE_HEADER : string := "prompt-caching-2024-07-31".
Definition OUTPUT128K_HEADER : string := "output-128k-2025-02-19".
Definition EXTENDED_CACHE_HEADER : string := "extended-cache-ttl-2025-04-11".
Definition INTERLEAVED_THINKING_HEADER : string := "interleaved-thinking-2025-05-14".
Definition FILES_API_HEADER : string := "files-api-2025-04-14".

(** [self.valves] *)
Record Valves : Type := {
  ANTHROPIC_API_KEY : string;
  THINKING_BUDGET_TOKENS : Z
}.

(** ** The retry wrapper: what it does and returns *)

Inductive effect : Type :=
| Posted                                     (* session.post(...) *)
| Slept (seconds : Z)                        (* asyncio.sleep(seconds) *)
| Logged (r : log_record).

(** The [SimpleNamespace] that [_send_request] returns; [wrapped_json] is
    what calling its [json] gives. *)
Record response_wrapper : Type := {
  status_code : Z;
  wrapped_headers : string -> option string;
  wrapped_text : string;
  wrapped_json : result value
}.

Record send_run : Type := {
  returned : result response_wrapper;
  send_request_id : option string;
  effects : list effect
}.

Definition base_delay : Z := 1.
Definition max_retries : nat := 3.

(** ** Upstream events, as the translator tells them apart *)

(** The tagged union [StreamEvent] of the specification: what a decoded
    line is to the translator. *)
Inductive stream_event : Type :=
| ToolUseStart (block_type : value) (content_block : dict)
| OtherBlockStart (block_type : value)
| TextDelta (text : value)
| InputJsonDelta (partial_json : value)
| ThinkingDelta (thinking : value)
| CitationsDelta (doc_index doc_title : value)
| OtherDelta
| BlockStop
| MessageStop
| OtherEvent.

(** What a line of the body is to the loop. *)
Inductive decoded : Type :=
| Skipped                       (* empty, or not starting with "data: " *)
| Malformed                     (* json.loads raises JSONDecodeError *)
| Raising (e : exn)             (* reading the event raises something else *)
| Event (ev : stream_event).

Section Pipe.

Context (B : Builtins).

(** [str(v)], as an f-string formats a value. *)
Definition py_str (v : value) : string :=
  match v with
  | VNone => "None"
  | VBool true => "True"
  | VBool false => "False"
  | VInt n => str_of_int n
  | VStr s => s
  | VFloat _ | VList _ | VDict _ => py_repr B v
  end.

(** Lines 555-583. *)
Definition on_content_block_start
    (model_name : value) (s : stream_state) (now : Z) (data : value) : result step :=
  content_block <- get data "content_block" (VDict []) ;;
  block_type <- get content_block "type" VNone ;;
  if eq_str block_type "tool_use" then
    id <- get content_block "id" (VStr ("call_" ++ str_of_int (tool_call_index s))) ;;
    name <- get content_block "name" (VStr "") ;;
    let t := {| tu_id := id; tu_name := name; tu_index := tool_call_index s |} in
    ok (Continue {| current_tool_use := Some t;
                    tool_use_input_json := "";
                    tool_call_index := tool_call_index s;
                    has_tool_calls := true |},
        [SseData (initial_tool_chunk now model_name t)],
        [LogBlockStart block_type; LogToolWanted name])
  else
    ok (Continue s, [], [LogBlockStart block_type]).

(** Line 635: the citation marker. *)
Definition cite_text (doc_index doc_title : value) : string :=
  if truthy doc_title
  then " [" ++ py_str doc_index ++ ": " ++ py_str doc_title ++ "]"
  else " [" ++ py_str doc_index ++ "]".

(** Lines 585-637. *)
Definition on_content_block_delta
    (model_name : value) (s : stream_state) (now : Z) (data : value) : result step :=
  delta <- get data "delta" (VDict []) ;;
  delta_type <- get delta "type" VNone ;;
  if eq_str delta_type "text_delta" then
    text <- get delta "text" (VStr "") ;;
    if truthy text
    then ok (Continue s, [SseData (content_chunk now model_name text)], [])
    else ok (Continue s, [], [])
  else if eq_str delta_type "input_json_delta" then
    partial_json <- get delta "partial_json" (VStr "") ;;
    match truthy partial_json, current_tool_use s with
    | true, Some t =>
        match partial_json with
        | VStr fragment =>
            ok (Continue {| current_tool_use := Some t;
                            tool_use_input_json := tool_use_input_json s ++ fragment;
                            tool_call_index := tool_call_index s;
                            has_tool_calls := has_tool_calls s |},
                [SseData (argument_chunk now model_name (tu_index t) partial_json)],
                [])
        | _ => raise TypeError          (* str += a value that is no str *)
        end
    | _, _ => ok (Continue s, [], [])
    end
  else if eq_str delta_type "thinking_delta" then
    thinking_text <- get delta "thinking" (VStr "") ;;
    if truthy thinking_text
    then ok (Continue s, [SseData (reasoning_chunk now model_name thinking_text)], [])
    else ok (Continue s, [], [])
  else if eq_str delta_type "citations_delta" then
    citation <- get delta "citation" (VDict []) ;;
    if truthy citation then
      doc_index <- get citation "document_index" (VInt 0) ;;
      doc_title <- get citation "document_title" (VStr "") ;;
      ok (Continue s,
          [SseData (content_chunk now model_name (VStr (cite_text doc_index doc_title)))],
          [])
    else ok (Continue s, [], [])
  else ok (Continue s, [], []).

(** Lines 640-644. *)
Definition on_content_block_stop (s : stream_state) : step :=
  match current_tool_use s with
  | Some _ =>
      (Continue {| current_tool_use := None;
                   tool_use_input_json := "";
                   tool_call_index := tool_call_index s + 1;
                   has_tool_calls := has_tool_calls s |}, [], [])
  | None => (Continue s, [], [])
  end.

(** Lines 646-655. *)
Definition on_message_stop (model_name : value) (s : stream_state) (now : Z) : step :=
  let finish_reason := if has_tool_calls s then "tool_calls" else "stop" in
  (Break, [SseData (finish_chunk now model_name finish_reason); SseDone], []).

(** The body of the [try] of lines 551-655, after [json.loads]. *)
Definition handle_data
    (model_name : value) (s : stream_state) (now : Z) (data : value) : result step :=
  type <- getitem data "type" ;;
  if eq_str type "content_block_start" then on_content_block_start model_name s now data
  else if eq_str type "content_block_delta" then on_content_block_delta model_name s now data
  else if eq_str type "content_block_stop" then ok (on_content_block_stop s)
  else if eq_str type "message_stop" then ok (on_message_stop model_name s now)
  else ok (Continue s, [], []).

(** One turn of the loop of lines 549-661. *)
Definition handle_line
    (model_name : value) (s : stream_state) (now : Z) (line : string) : result step :=
  if negb (line =? "")%string && startswith "data: " line then
    match (data <- json_loads B (drop 6 line) ;; handle_data model_name s now data) with
    | inl JSONDecodeError => ok (Continue s, [], [LogParseFailure])
    | r => r
    end
  else ok (Continue s, [], []).

(** The loop of lines 549-661 over what the body delivers. *)
Fixpoint consume (model_name : value) (s : stream_state) (items : list arrival)
    : finish * list sse_item * list log_record :=
  match items with
  | [] => (Exhausted s, [], [])
  | ReadRaises e :: _ => (Failed e, [], [])
  | Line now line :: rest =>
      match handle_line model_name s now line with
      | inl e => (Failed e, [], [])
      | inr (Break, out, logs) => (Stopped, out, logs)
      | inr (Continue s', out, logs) =>
          let '(fin, out', logs') := consume model_name s' rest in
          (fin, out ++ out', logs ++ logs')
      end
  end.

(** The handlers of lines 663-672. *)
Definition stream_failure (e : exn) (request_id : option string) : sse_item :=
  match e with
  | TimeoutError => SseError RequestTimedOut (request_id_suffix request_id)
  | _ => SseError (StreamError e) (request_id_suffix request_id)
  end.

(** What a run of the generator leaves behind: the items it yielded, the
    value of [self.request_id] at the end, and the log. *)
Record stream_run : Type := {
  yielded : list sse_item;
  request_id_after : option string;
  logged : list log_record
}.

(** Line 529: [payload.get("model", "claude")]. *)
Definition model_name_of (payload : dict) : value :=
  match lookup "model" payload with
  | Some m => m
  | None => VStr "claude"
  end.

(** [_stream_with_ui], consumed to its end.  [request_id] is
    [self.request_id] on entry, [upstream] what the POST brings. *)
Definition stream_with_ui
    (request_id : option string) (payload : dict) (upstream : post_outcome) : stream_run :=
  let model_name := model_name_of payload in
  match upstream with
  | PostRaises e =>
      {| yielded := [stream_failure e request_id];
         request_id_after := request_id;
         logged := [] |}
  | Responded r =>
      let rid := headers r "x-request-id" in
      if negb (status r =? 200) then
        {| yielded := [SseError (HttpError (status r) (text r)) (request_id_suffix rid)];
           request_id_after := rid;
           logged := [] |}
      else
        let '(fin, out, logs) := consume model_name initial_state (content r) in
        {| yielded := out ++
                      match fin with
                      | Failed e => [stream_failure e rid]
                      | _ => []
                      end;
           request_id_after := rid;
           logged := logs |}
  end.

(** ** The retry wrapper *)

(** Lines 871-875: [int(response.headers.get("retry-after", base_delay * 2**retry_count))]. *)
Definition retry_after (r : response) (retry_count : nat) : result Z :=
  match headers r "retry-after" with
  | Some s => int_of_str B s
  | None => ok (base_delay * 2 ^ Z.of_nat retry_count)
  end.

(** Lines 885-890. *)
Definition wrap (r : response) : response_wrapper :=
  {| status_code := status r;
     wrapped_headers := headers r;
     wrapped_text := text r;
     wrapped_json := json_loads B (text r) |}.

(** Lines 898-903. *)
Definition max_retries_exceeded : response_wrapper :=
  {| status_code := 429;
     wrapped_headers := fun _ => None;
     wrapped_text := "Max retries exceeded";
     wrapped_json := ok (VDict [("error", VDict [("message", VStr "Max retries exceeded")])]) |}.

(** Lines 893-895: an [aiohttp.ClientError] is logged on its way out; any
    other exception passes unlogged. *)
Definition caught_client_error (e : exn) : list effect :=
  match e with
  | ClientError _ => [Logged (LogRequestFailed e)]
  | _ => []
  end.

(** The loop of lines 860-895 and what follows it.  [server n] is what the
    POST of attempt [n] brings; [left] is [max_retries - retry_count], so
    the loop condition [retry_count < max_retries] is [left <> 0]. *)
Fixpoint attempts
    (server : nat -> post_outcome) (left retry_count : nat) (request_id : option string)
    : send_run :=
  match left with
  | O =>
      {| returned := ok max_retries_exceeded;
         send_request_id := request_id;
         effects := [Logged LogMaxRetries] |}
  | S left' =>
      match server retry_count with
      | PostRaises e =>
          {| returned := raise e;
             send_request_id := request_id;
             effects := Posted :: caught_client_error e |}
      | Responded r =>
          let rid := headers r "x-request-id" in
          if status r =? 429 then
            match retry_after r retry_count with
            | inl e =>
                {| returned := raise e;
                   send_request_id := rid;
                   effects := Posted :: caught_client_error e |}
            | inr seconds =>
                let run := attempts server left' (S retry_count) rid in
                {| returned := returned run;
                   send_request_id := send_request_id run;
                   effects := Posted ::
                              Logged (LogRateLimit seconds (Z.of_nat retry_count + 1)) ::
                              Slept seconds :: effects run |}
            end
          else
            {| returned := ok (wrap r);
               send_request_id := rid;
               effects := [Posted] |}
      end
  end.

(** [_send_request] *)
Definition send_request (server : nat -> post_outcome) (request_id : option string)
    : send_run :=
  attempts server max_retries 0 request_id.

(** ** The request builder *)

(** [for x in v] *)
Definition py_iter (v : value) : result (list value) :=
  match v with
  | VList xs => ok xs
  | VDict kvs => ok (map (fun kv => VStr (fst kv)) kvs)
  | VStr s => ok (map (fun c => VStr (String c EmptyString)) (list_ascii_of_string s))
  | _ => raise TypeError
  end.

(** [v[0]] *)
Definition first_item (v : value) : result value :=
  match v with
  | VList (x :: _) => ok x
  | VList [] => raise IndexError
  | VStr (String c _) => ok (VStr (String c EmptyString))
  | VStr EmptyString => raise IndexError
  | VDict _ => raise (KeyError "0")
  | _ => raise TypeError
  end.

(** Line 312: [len(base64_data) * 3 / 4].  The quotient is a Python float;
    it is exact (a multiple of 1/4) for every length below 2^51, and so are
    the sums of line 313, hence the rationals. *)
Definition image_size_of (base64_data : string) : Q :=
  (inject_Z (len base64_data * 3) / inject_Z 4)%Q.

(** [pieces[n]] *)
Definition piece (pieces : list string) (n : nat) : result string :=
  match nth_error pieces n with
  | Some p => ok p
  | None => raise IndexError
  end.

(** [process_image], which [_process_messages] reaches through
    [process_content] for each [image_url] item. *)
Definition process_image (image_data : value) : result value :=
  image_url <- getitem image_data "image_url" ;;
  url <- getitem image_url "url" ;;
  match url with
  | VStr u =>
      if startswith "data:image" u then
        parts <- unpack2 (split1 "," u) ;;
        let '(mime_type, base64_data) := parts in
        after_colon <- piece (split ":" mime_type) 1 ;;
        media_type <- piece (split ";" after_colon) 0 ;;
        if negb (existsb (String.eqb media_type) SUPPORTED_IMAGE_TYPES) then
          raise (ValueError (UnsupportedMediaType media_type))
        else
          let image_size := image_size_of base64_data in
          if negb (Qle_bool image_size (inject_Z MAX_IMAGE_SIZE)) then
            raise (ValueError (ImageSizeExceeded image_size))
          else
            ok (VDict [("type", VStr "image");
                       ("source", VDict [("type", VStr "base64");
                                         ("media_type", VStr media_type);
                                         ("data", VStr base64_data)])])
      else
        ok (VDict [("type", VStr "image");
                   ("source", VDict [("type", VStr "url"); ("url", url)])])
  | _ => raise AttributeError
  end.

(** Lines 308-314, for one item of a message's content. *)
Definition count_image (acc : Q * Z) (item : value) : result (Q * Z) :=
  item_type <- get item "type" VNone ;;
  if eq_str item_type "image_url" then
    image_url <- getitem item "image_url" ;;
    url <- getitem image_url "url" ;;
    match url with
    | VStr u =>
        if startswith "data:image" u then
          parts <- unpack2 (split1 "," u) ;;
          let base64_data := snd parts in
          let image_size := image_size_of base64_data in
          ok ((fst acc + image_size)%Q, snd acc + 1)
        else ok acc
    | _ => raise AttributeError
    end
  else ok acc.

(** A [for] loop that threads an accumulator and stops at the first raise. *)
Fixpoint for_each {A : Type} (f : A -> value -> result A) (acc : A) (xs : list value)
    : result A :=
  match xs with
  | [] => ok acc
  | x :: rest => acc' <- f acc x ;; for_each f acc' rest
  end.

(** Lines 306-314, for one message. *)
Definition count_images_of (acc : Q * Z) (message : value) : result (Q * Z) :=
  c <- get message "content" VNone ;;
  match c with
  | VList items => for_each count_image acc items
  | _ => ok acc
  end.

(** Lines 302-314: [(total_size, image_count)] after the loops. *)
Definition image_totals (messages : value) : result (Q * Z) :=
  ms <- py_iter messages ;;
  for_each count_images_of (0%Q, 0) ms.

(** [validate_total_image_size] *)
Definition validate_total_image_size (messages : value) : result unit :=
  totals <- image_totals messages ;;
  let total_size := fst totals in
  let image_count := snd totals in
  if negb (Qle_bool total_size (inject_Z TOTAL_MAX_IMAGE_SIZE)) then
    raise (ValueError (TotalImageSizeExceeded total_size))
  else if image_count >? MAX_IMAGES_PER_REQUEST then
    raise (ValueError (TooManyImages image_count))
  else ok tt.

(** [convert_openai_tools_to_anthropic], one tool. *)
Definition convert_tool (acc : list value) (tool : value) : result (list value) :=
  tool_type <- get tool "type" VNone ;;
  if eq_str tool_type "function" then
    function <- get tool "function" (VDict []) ;;
    name <- get function "name" VNone ;;
    description <- get function "description" VNone ;;
    parameters <- get function "parameters" (VDict []) ;;
    ok (acc ++ [VDict [("name", name);
                       ("description", description);
                       ("input_schema", parameters)]])
  else ok acc.

(** [convert_openai_tools_to_anthropic] *)
Definition convert_openai_tools_to_anthropic (tools : value) : result (list value) :=
  ts <- py_iter tools ;;
  for_each convert_tool [] ts.

(** Lines 337-341: [(model_name, is_thinking_mode)]. *)
Definition resolve_model (model : string) : string * bool :=
  let model_name := last (split "/" model) EmptyString in
  let is_thinking_mode := contains "-thinking" model in
  (if is_thinking_mode then replace "-thinking" "" model_name else model_name,
   is_thinking_mode).

(** Line 343: [self.MODEL_MAX_TOKENS.get(model_name, 4096)]. *)
Fixpoint table_get (k : string) (t : list (string * Z)) : option Z :=
  match t with
  | [] => None
  | (k', n) :: rest => if (k' =? k)%string then Some n else table_get k rest
  end.

Definition max_tokens_limit (model_name : string) : Z :=
  match table_get model_name MODEL_MAX_TOKENS with
  | Some n => n
  | None => 4096
  end.

(** [limit < x] for an int [limit] and a float [x], exact as Python compares. *)
Definition int_lt_float (limit : Z) (x : pyfloat) : bool :=
  match x with
  | FZero _ => limit <? 0
  | FFinite neg m e =>
      let signed := if neg then Z.neg m else Z.pos m in
      if 0 <=? e then limit <? signed * 2 ^ e else limit * 2 ^ (- e) <? signed
  | FInf neg => negb neg
  | FNaN => false
  end.

(** Lines 348-350: [min(requested, limit)], which is [limit] when
    [limit < requested] and [requested] otherwise; the comparison raises
    on a value that is no number. *)
Definition min_with_limit (requested : value) (limit : Z) : result value :=
  match requested with
  | VInt n => ok (if limit <? n then VInt limit else requested)
  | VBool b => ok (if limit <? (if b then 1 else 0) then VInt limit else requested)
  | VFloat x => ok (if int_lt_float limit x then VInt limit else requested)
  | _ => raise TypeError
  end.

(** [conv(body.get(k)) if body.get(k) is not None else None] *)
Definition optional (conv : value -> result value) (body : dict) (k : string)
    : result value :=
  match lookup k body with
  | None | Some VNone => ok VNone
  | Some v => conv v
  end.

Definition get_or (body : dict) (k : string) (default : value) : value :=
  match lookup k body with
  | Some v => v
  | None => default
  end.

Definition is_none (v : value) : bool :=
  match v with
  | VNone => true
  | _ => false
  end.

(** Lines 382-391: the entry [tool_choice] adds to the payload, if any. *)
Definition convert_tool_choice (tool_choice : value) : result (option value) :=
  if eq_str tool_choice "none" then ok (Some (VDict [("type", VStr "none")]))
  else if eq_str tool_choice "auto" then ok (Some (VDict [("type", VStr "auto")]))
  else
    match tool_choice with
    | VDict d =>
        function <- get tool_choice "function" VNone ;;
        if truthy function then
          name <- getitem function "name" ;;
          ok (Some (VDict [("type", VStr "tool"); ("name", name)]))
        else ok None
    | _ => ok None
    end.

(** Lines 343-366: the payload's first fields, those that are [None] dropped. *)
Definition initial_payload
    (body : dict) (messages : value) (model_name : string) : result dict :=
  let max_tokens_limit := max_tokens_limit model_name in
  processed <- process_messages B messages ;;
  max_tokens <-
    min_with_limit (get_or body "max_tokens" (VInt max_tokens_limit)) max_tokens_limit ;;
  temperature <- optional (py_float B) body "temperature" ;;
  top_k <- optional (py_int B) body "top_k" ;;
  top_p <- optional (py_float B) body "top_p" ;;
  ok (filter (fun kv => negb (is_none (snd kv)))
        [("model", VStr model_name);
         ("messages", processed);
         ("max_tokens", max_tokens);
         ("temperature", temperature);
         ("top_k", top_k);
         ("top_p", top_p);
         ("stream", get_or body "stream" (VBool true));
         ("metadata", get_or body "metadata" (VDict []))]).

(** Lines 368-369. *)
Definition add_system (system_message : value) (payload : dict) : dict :=
  if truthy system_message
  then dict_set "system" (VStr (py_str system_message)) payload
  else payload.

(** Lines 372-391. *)
Definition add_tools (body : dict) (payload : dict) : result dict :=
  match lookup "tools" body with
  | Some tools =>
      anthropic_tools <- convert_openai_tools_to_anthropic tools ;;
      let payload := dict_set "tools" (VList anthropic_tools) payload in
      choice <- convert_tool_choice (get_or body "tool_choice" (VStr "auto")) ;;
      ok match choice with
         | Some c => dict_set "tool_choice" c payload
         | None => payload
         end
  | None => ok payload
  end.

(** Lines 397-400. *)
Definition add_response_format (body : dict) (payload : dict) : result dict :=
  match lookup "response_format" body with
  | Some response_format =>
      format_type <- get response_format "type" VNone ;;
      ok (dict_set "response_format" (VDict [("type", format_type)]) payload)
  | None => ok payload
  end.

(** Lines 403-407. *)
Definition add_thinking (valves : Valves) (is_thinking_mode : bool) (payload : dict)
    : dict :=
  if is_thinking_mode
  then dict_set "thinking"
         (VDict [("type", VStr "enabled");
                 ("budget_tokens", VInt (THINKING_BUDGET_TOKENS valves))])
         payload
  else payload.

(** Lines 343-407: the payload, once the model is resolved. *)
Definition build_payload
    (valves : Valves) (body : dict) (system_message messages : value)
    (model_name : string) (is_thinking_mode : bool) : result dict :=
  payload <- initial_payload body messages model_name ;;
  let payload := add_system system_message payload in
  payload <- add_tools body payload ;;
  payload <- add_response_format body payload ;;
  ok (add_thinking valves is_thinking_mode payload).

(** Lines 418-429. *)
Definition has_128k_output (model_name : string) : bool :=
  existsb (String.eqb model_name)
    ["claude-3-7-sonnet-20250219"; "claude-3-7-sonnet-latest";
     "claude-opus-4-5-20250514"; "claude-4-5-opus-20250514";
     "claude-opus-4-20250514"; "claude-opus-4-0";
     "claude-sonnet-4-20250514"; "claude-sonnet-4-0"].

Record beta_flags : Type := {
  has_pdf : bool;
  has_cache : bool;
  has_1h_cache : bool;
  has_files : bool
}.

(** Lines 441-448, for one item of a message's content. *)
Definition flag_item (f : beta_flags) (item : value) : result beta_flags :=
  item_type <- get item "type" VNone ;;
  cache_control <- get item "cache_control" VNone ;;
  ttl <- (if truthy cache_control then get cache_control "ttl" VNone else ok VNone) ;;
  ok {| has_pdf := has_pdf f || eq_str item_type "pdf_url";
        has_cache := has_cache f || truthy cache_control;
        has_1h_cache := has_1h_cache f || (truthy cache_control && eq_str ttl "1h");
        has_files := has_files f || eq_str item_type "file_reference" |}.

(** Lines 438-448, for one message. *)
Definition flag_message (f : beta_flags) (msg : value) : result beta_flags :=
  c <- getitem msg "content" ;;
  match c with
  | VList items => for_each flag_item f items
  | _ => ok f
  end.

Fixpoint join (sep : string) (parts : list string) : string :=
  match parts with
  | [] => EmptyString
  | [x] => x
  | x :: rest => x ++ sep ++ join sep rest
  end.

(** Lines 409-467: the headers. *)
Definition build_headers
    (valves : Valves) (body : dict) (model_name : string) (is_thinking_mode : bool)
    : result (list (string * string)) :=
  msgs <- py_iter (get_or body "messages" (VList [])) ;;
  f <- for_each flag_message
         {| has_pdf := false; has_cache := false;
            has_1h_cache := false; has_files := false |} msgs ;;
  let beta_headers :=
    (if has_128k_output model_name then [OUTPUT128K_HEADER] else []) ++
    (if has_pdf f then [PDF_HEADER] else []) ++
    (if has_cache f then [PROMPT_CACHE_HEADER] else []) ++
    (if has_1h_cache f then [EXTENDED_CACHE_HEADER] else []) ++
    (if has_files f then [FILES_API_HEADER] else []) ++
    (if is_thinking_mode && truthy (get_or body "interleaved_thinking" (VBool false))
     then [INTERLEAVED_THINKING_HEADER] else []) in
  ok ([("x-api-key", ANTHROPIC_API_KEY valves);
       ("anthropic-version", API_VERSION);
       ("content-type", "application/json")] ++
      match beta_headers with
      | [] => []
      | _ :: _ => [("anthropic-beta", join "," beta_headers)]
      end).

(** ** The body as the header scan finds it

    [_process_messages] writes [cache_control] into the items that
    [process_content] hands back as they are (lines 183-186, 825-835).
    These are the item objects of the request body itself:
    [pop_system_message] passes on the message objects whose role is not
    [system], and [message.get("content")] is the list the body holds.  So
    the scan of lines 438-448, which runs once [_process_messages] has
    returned, reads the items with what was written into them. *)

(** An item of a message of role [role], after lines 825-835. *)
Definition marked_item (role : value) (item : value) : value :=
  match item with
  | VDict d =>
      let item_type := get_or d "type" VNone in
      if (eq_str role "assistant" && eq_str item_type "tool_calls")
         || (eq_str role "user" && eq_str item_type "tool_results")
      then VDict (dict_set "cache_control" (VDict [("type", VStr "ephemeral")]) d)
      else item
  | _ => item
  end.

(** A message of the body, after the turn of the loop of lines 752-841
    for it: a [tool] message and an assistant message with [tool_calls]
    leave the loop before line 824. *)
Definition marked_message (message : value) : value :=
  match message with
  | VDict d =>
      let role := get_or d "role" (VStr "user") in
      if eq_str role "tool" then message
      else if eq_str role "assistant" && truthy (get_or d "tool_calls" (VList []))
      then message
      else
        match lookup "content" d with
        | Some (VList items) =>
            VDict (dict_set "content" (VList (map (marked_item role) items)) d)
        | _ => message
        end
  | _ => message
  end.

(** The body when [_process_messages] has returned. *)
Definition scanned_body (body : dict) : dict :=
  match lookup "messages" body with
  | Some (VList messages) =>
      dict_set "messages" (VList (map marked_message messages)) body
  | _ => body
  end.

(** What [pipe] has ready when it turns to the network. *)
Record request : Type := {
  request_headers : list (string * string);
  request_payload : dict
}.

(** Lines 331-467: everything [pipe] does between the key check and the
    first use of the network; the headers are built from the body as
    [_process_messages] has left it.  (The [TOOL DEBUG] log lines are not
    recorded.) *)
Definition prepare (valves : Valves) (body : dict) : result request :=
  all_messages <- getitem (VDict body) "messages" ;;
  popped <- pop_system_message B all_messages ;;
  let '(system_message, messages) := popped in
  _ <- validate_total_image_size messages ;;
  model <- getitem (VDict body) "model" ;;
  match model with
  | VStr model =>
      let '(model_name, is_thinking_mode) := resolve_model model in
      payload <- build_payload valves body system_message messages
                   model_name is_thinking_mode ;;
      hs <- build_headers valves (scanned_body body) model_name is_thinking_mode ;;
      ok {| request_headers := hs; request_payload := payload |}
  | _ => raise AttributeError           (* .split on a value that is no str *)
  end.

(** [_handle_response] on a response with [status_code] 200, the only kind
    [pipe] hands to it (lines 924-932); the result is its first component. *)
Definition handle_response (response : response_wrapper) : result value :=
  res <- wrapped_json response ;;
  usage <- get res "usage" (VDict []) ;;
  _ <- get usage "cache_creation_input_tokens" (VInt 0) ;;
  ok res.

(** What [pipe] returns. *)
Inductive pipe_result : Type :=
| Reply (msg : error_text) (request_id : option string)
                               (* {"content": msg [+ request id], "format": "text"} *)
| Generator (req : request)    (* self._stream_with_ui(...), not yet started *)
| ResponseText (response_text : value).

Record pipe_run : Type := {
  pipe_returns : pipe_result;
  pipe_request_id : option string;
  pipe_effects : list effect
}.

(** [pipe].  [request_id] is [self.request_id] on entry; [server n] is what
    the n-th POST of [_send_request] brings. *)
Definition pipe
    (valves : Valves) (request_id : option string) (body : dict)
    (server : nat -> post_outcome) : pipe_run :=
  if (ANTHROPIC_API_KEY valves =? "")%string then
    {| pipe_returns := Reply MissingApiKey None;
       pipe_request_id := request_id;
       pipe_effects := [] |}
  else
    match prepare valves body with
    | inl e =>
        {| pipe_returns := Reply (ErrorOf e) (request_id_suffix request_id);
           pipe_request_id := request_id;
           pipe_effects := [] |}
    | inr req =>
        match getitem (VDict (request_payload req)) "stream" with
        | inl e =>
            {| pipe_returns := Reply (ErrorOf e) (request_id_suffix request_id);
               pipe_request_id := request_id;
               pipe_effects := [] |}
        | inr stream =>
            if truthy stream then
              {| pipe_returns := Generator req;
                 pipe_request_id := request_id;
                 pipe_effects := [] |}
            else
              let run := send_request server request_id in
              let rid := send_request_id run in
              let answer :=
                response <- returned run ;;
                if negb (status_code response =? 200) then
                  ok (Reply (HttpError (status_code response) (wrapped_text response)) None)
                else
                  res <- handle_response response ;;
                  blocks <- getitem res "content" ;;
                  block <- first_item blocks ;;
                  response_text <- getitem block "text" ;;
                  ok (ResponseText response_text) in
              {| pipe_returns :=
                   match answer with
                   | inr r => r
                   | inl (ClientError msg) =>
                       Reply (RequestFailed (ClientError msg)) (request_id_suffix rid)
                   | inl e => Reply (ErrorOf e) (request_id_suffix rid)
                   end;
                 pipe_request_id := rid;
                 pipe_effects := effects run |}
        end
    end.

(** ** The translator, event by event

    [classify], [decode] and [act] restate [handle_data] and [handle_line]
    in two steps, reading the event and reacting to it; [handle_line_decode]
    below shows that they compute the same. *)

Definition classify (data : value) : result stream_event :=
  type <- getitem data "type" ;;
  if eq_str type "content_block_start" then
    content_block <- get data "content_block" (VDict []) ;;
    block_type <- get content_block "type" VNone ;;
    match content_block with
    | VDict cb =>
        ok (if eq_str block_type "tool_use"
            then ToolUseStart block_type cb
            else OtherBlockStart block_type)
    | _ => raise AttributeError
    end
  else if eq_str type "content_block_delta" then
    delta <- get data "delta" (VDict []) ;;
    delta_type <- get delta "type" VNone ;;
    if eq_str delta_type "text_delta" then
      text <- get delta "text" (VStr "") ;; ok (TextDelta text)
    else if eq_str delta_type "input_json_delta" then
      partial_json <- get delta "partial_json" (VStr "") ;; ok (InputJsonDelta partial_json)
    else if eq_str delta_type "thinking_delta" then
      thinking <- get delta "thinking" (VStr "") ;; ok (ThinkingDelta thinking)
    else if eq_str delta_type "citations_delta" then
      citation <- get delta "citation" (VDict []) ;;
      if truthy citation then
        doc_index <- get citation "document_index" (VInt 0) ;;
        doc_title <- get citation "document_title" (VStr "") ;;
        ok (CitationsDelta doc_index doc_title)
      else ok OtherDelta
    else ok OtherDelta
  else if eq_str type "content_block_stop" then ok BlockStop
  else if eq_str type "message_stop" then ok MessageStop
  else ok OtherEvent.

Definition is_data_line (line : string) : bool :=
  negb (line =? "")%string && startswith "data: " line.

Definition decode (line : string) : decoded :=
  if is_data_line line then
    match json_loads B (drop 6 line) with
    | inl JSONDecodeError => Malformed
    | inl e => Raising e
    | inr data =>
        match classify data with
        | inl e => Raising e
        | inr ev => Event ev
        end
    end
  else Skipped.

Definition act (model_name : value) (s : stream_state) (now : Z) (ev : stream_event)
    : result step :=
  match ev with
  | ToolUseStart block_type cb =>
      let t := {| tu_id := get_or cb "id" (VStr ("call_" ++ str_of_int (tool_call_index s)));
                  tu_name := get_or cb "name" (VStr "");
                  tu_index := tool_call_index s |} in
      ok (Continue {| current_tool_use := Some t;
                      tool_use_input_json := "";
                      tool_call_index := tool_call_index s;
                      has_tool_calls := true |},
          [SseData (initial_tool_chunk now model_name t)],
          [LogBlockStart block_type; LogToolWanted (tu_name t)])
  | OtherBlockStart block_type => ok (Continue s, [], [LogBlockStart block_type])
  | TextDelta text =>
      ok (Continue s,
          if truthy text then [SseData (content_chunk now model_name text)] else [],
          [])
  | InputJsonDelta partial_json =>
      match truthy partial_json, current_tool_use s with
      | true, Some t =>
          match partial_json with
          | VStr fragment =>
              ok (Continue {| current_tool_use := Some t;
                              tool_use_input_json := tool_use_input_json s ++ fragment;
                              tool_call_index := tool_call_index s;
                              has_tool_calls := has_tool_calls s |},
                  [SseData (argument_chunk now model_name (tu_index t) partial_json)],
                  [])
          | _ => raise TypeError
          end
      | _, _ => ok (Continue s, [], [])
      end
  | ThinkingDelta thinking =>
      ok (Continue s,
          if truthy thinking then [SseData (reasoning_chunk now model_name thinking)] else [],
          [])
  | CitationsDelta doc_index doc_title =>
      ok (Continue s,
          [SseData (content_chunk now model_name (VStr (cite_text doc_index doc_title)))],
          [])
  | OtherDelta | OtherEvent => ok (Continue s, [], [])
  | BlockStop => ok (on_content_block_stop s)
  | MessageStop => ok (on_message_stop model_name s now)
  end.

Definition react (model_name : value) (s : stream_state) (now : Z) (d : decoded)
    : result step :=
  match d with
  | Skipped => ok (Continue s, [], [])
  | Malformed => ok (Continue s, [], [LogParseFailure])
  | Raising e => raise e
  | Event ev => act model_name s now ev
  end.

(** ** Reading the effects of the retry wrapper *)

Definition is_post (e : effect) : bool :=
  match e with
  | Posted => true
  | _ => false
  end.

(** The number of POSTs among the effects. *)
Definition posts (es : list effect) : nat := List.length (filter is_post es).

(** The first [n] attempts were answered 429, attempt [i] with a delay of
    [delays i] seconds. *)
Definition rate_limited (server : nat -> post_outcome) (delays : nat -> Z) (n : nat) : Prop :=
  forall i, (i < n)%nat ->
    exists r, server i = Responded r /\ status r = 429
              /\ retry_after r i = ok (delays i).

(** What [n] attempts answered 429 leave behind, from attempt [k] on. *)
Definition backoff (delays : nat -> Z) (k n : nat) : list effect :=
  flat_map (fun i => [Posted;
                      Logged (LogRateLimit (delays i) (Z.of_nat i + 1));
                      Slept (delays i)])
           (seq k n).

(** ** Reading requests *)

(** The steps of the builder after the first fields write other keys than [k]. *)
Definition settled (k : string) : Prop :=
  forall k', In k' ["system"; "tools"; "tool_choice"; "response_format"; "thinking"] ->
             (k' =? k)%string = false.

(** The two request bodies differ at most in [max_tokens]. *)
Definition same_but_max_tokens (body body' : dict) : Prop :=
  forall k, (k =? "max_tokens")%string = false -> lookup k body = lookup k body'.

(** The exception a computation ends with, if it does. *)
Definition error_of {A : Type} (r : result A) : option exn :=
  match r with
  | inl e => Some e
  | inr _ => None
  end.

(** ** Reading streams and chunks *)

(** The line opens a [tool_use] content block. *)
Definition starts_tool_use (a : arrival) : bool :=
  match a with
  | Line _ line =>
      match decode line with
      | Event (ToolUseStart _ _) => true
      | _ => false
      end
  | ReadRaises _ => false
  end.

(** The non-empty [partial_json] strings of the [input_json_delta] lines
    up to the first [content_block_stop], each with the second it is read. *)
Fixpoint fragments (items : list arrival) : list (Z * string) :=
  match items with
  | Line now line :: rest =>
      match decode line with
      | Event BlockStop => []
      | Event (InputJsonDelta (VStr fragment)) =>
          if (fragment =? "")%string then fragments rest
          else (now, fragment) :: fragments rest
      | _ => fragments rest
      end
  | _ => []
  end.

(** The line is a [message_stop] event. *)
Definition is_message_stop (a : arrival) : bool :=
  match a with
  | Line _ line =>
      match decode line with
      | Event MessageStop => true
      | _ => false
      end
  | ReadRaises _ => false
  end.

(** The line is one the translator gets past in every state: reading it
    raises nothing, it is no [message_stop], and a truthy [partial_json] in
    it is a string. *)
Definition passable (a : arrival) : bool :=
  match a with
  | Line _ line =>
      match decode line with
      | Raising _ => false
      | Event MessageStop => false
      | Event (InputJsonDelta (VStr _)) => true
      | Event (InputJsonDelta partial_json) => negb (truthy partial_json)
      | _ => true
      end
  | ReadRaises _ => false
  end.

Definition is_done (i : sse_item) : bool :=
  match i with
  | SseDone => true
  | _ => false
  end.

(** [chunk["choices"][0]] *)
Definition first_choice (chunk : value) : dict :=
  match chunk with
  | VDict d =>
      match lookup "choices" d with
      | Some (VList (VDict choice :: _)) => choice
      | _ => []
      end
  | _ => []
  end.

(** [chunk["choices"][0]["delta"]] *)
Definition delta_of (chunk : value) : dict :=
  match lookup "delta" (first_choice chunk) with
  | Some (VDict d) => d
  | _ => []
  end.

(** [chunk["choices"][0]["finish_reason"]] *)
Definition finish_reason_of (chunk : value) : value :=
  get_or (first_choice chunk) "finish_reason" VNone.

(** The item is a chunk with a [tool_calls] delta or with a finish reason. *)
Definition about_tool_call (i : sse_item) : bool :=
  match i with
  | SseData chunk =>
      match lookup "tool_calls" (delta_of chunk) with
      | Some _ => true
      | None => negb (is_none (finish_reason_of chunk))
      end
  | _ => false
  end.

(** What a client reads in an item: the [tool_calls] of its delta, if it is
    a chunk that has them, and its finish reason. *)
Definition tool_calls_of (i : sse_item) : option value :=
  match i with
  | SseData chunk => lookup "tool_calls" (delta_of chunk)
  | _ => None
  end.

Definition finish_reason_in (i : sse_item) : value :=
  match i with
  | SseData chunk => finish_reason_of chunk
  | _ => VNone
  end.

(** The [tool_calls] entry that opens call number [index] with the id and
    the name of the block [cb], and the entry that carries one fragment of
    its arguments. *)
Definition opening_entry (index : Z) (cb : dict) : value :=
  VList [VDict [("index", VInt index);
                ("id", get_or cb "id" (VStr ("call_" ++ str_of_int index)));
                ("type", VStr "function");
                ("function", VDict [("name", get_or cb "name" (VStr ""));
                                    ("arguments", VStr "")])]].

Definition fragment_entry (index : Z) (fragment : string) : value :=
  VList [VDict [("index", VInt index);
                ("function", VDict [("arguments", VStr fragment)])]].

End Pipe.

(** * A concrete environment

    The builtins below stand in for the library code on the data of the
    examples: [example_loads] decodes exactly the texts that [show] prints
    for the events of [example_events], and rejects every other text as
    malformed. *)

Definition dq : string := String "034"%char EmptyString.
Definition nl : string := String "010"%char EmptyString.

(** A string between double quotes, with the quotes in it escaped. *)
Fixpoint escaped (s : string) : string :=
  match s with
  | EmptyString => EmptyString
  | String c rest =>
      if (c =? "034")%char then String "\"%char (String c (escaped rest))
      else String c (escaped rest)
  end.

Definition quoted (s : string) : string := dq ++ escaped s ++ dq.

(** The JSON text of a value (floats are not used by the examples). *)
Fixpoint show (v : value) : string :=
  match v with
  | VNone => "null"
  | VBool true => "true"
  | VBool false => "false"
  | VInt n => str_of_int n
  | VFloat _ => "0.0"
  | VStr s => quoted s
  | VList xs => "[" ++ join ", " (map show xs) ++ "]"
  | VDict kvs =>
      "{" ++ join ", " (map (fun kv => (quoted (fst kv) ++ ": " ++ show (snd kv))%string)
                            kvs) ++ "}"
  end.

Definition message_start_event : value :=
  VDict [("type", VStr "message_start")].

Definition text_delta_event : value :=
  VDict [("type", VStr "content_block_delta");
         ("index", VInt 0);
         ("delta", VDict [("type", VStr "text_delta"); ("text", VStr "Checking.")])].

Definition thinking_event : value :=
  VDict [("type", VStr "content_block_delta");
         ("index", VInt 0);
         ("delta", VDict [("type", VStr "thinking_delta");
                          ("thinking", VStr "The user asks about Paris.")])].

Definition example_citation : dict :=
  [("type", VStr "char_location");
   ("document_index", VInt 2);
   ("document_title", VStr "Report")].

Definition citation_event : value :=
  VDict [("type", VStr "content_block_delta");
         ("index", VInt 0);
         ("delta", VDict [("type", VStr "citations_delta");
                          ("citation", VDict example_citation)])].

Definition tool_use_block : dict :=
  [("type", VStr "tool_use");
   ("id", VStr "toolu_01");
   ("name", VStr "get_weather");
   ("input", VDict [])].

Definition tool_start_event : value :=
  VDict [("type", VStr "content_block_start");
         ("index", VInt 1);
         ("content_block", VDict tool_use_block)].

Definition json_delta_event (partial_json : string) : value :=
  VDict [("type", VStr "content_block_delta");
         ("index", VInt 1);
         ("delta", VDict [("type", VStr "input_json_delta");
                          ("partial_json", VStr partial_json)])].

Definition block_stop_event : value :=
  VDict [("type", VStr "content_block_stop"); ("index", VInt 1)].

Definition message_stop_event : value :=
  VDict [("type", VStr "message_stop")].

Definition first_fragment : string := "{" ++ dq ++ "city" ++ dq ++ ": ".
Definition second_fragment : string := dq ++ "Paris" ++ dq ++ "}".

Definition example_events : list value :=
  [message_start_event; thinking_event; text_delta_event; citation_event;
   tool_start_event;
   json_delta_event first_fragment; json_delta_event second_fragment;
   json_delta_event ""; block_stop_event; message_stop_event].

(** The line that carries an event. *)
Definition sse_line (event : value) : string := "data: " ++ show event ++ nl.

Definition example_loads (payload : string) : result value :=
  match find (fun event => (show event ++ nl =? payload)%string) example_events with
  | Some event => ok event
  | None => raise JSONDecodeError
  end.

Definition example_int_of_str (s : string) : result Z :=
  match NilZero.int_of_string s with
  | Some d => ok (Z.of_int d)
  | None => raise (ValueError (InvalidLiteral s))
  end.

Definition example_pop_system_message (messages : value) : result (value * value) :=
  match messages with
  | VList (first :: rest) =>
      match first with
      | VDict kvs =>
          match lookup "role" kvs with
          | Some (VStr "system") => ok (first, VList rest)
          | _ => ok (VNone, messages)
          end
      | _ => ok (VNone, messages)
      end
  | VList [] => ok (VNone, messages)
  | _ => raise TypeError
  end.

Definition example_builtins : Builtins :=
  {| json_loads := example_loads;
     int_of_str := example_int_of_str;
     py_repr := show;
     py_float := fun v => match v with
                          | VFloat _ => ok v
                          | VInt 0 => ok (VFloat (FZero false))
                          | VInt (Z.pos m) => ok (VFloat (FFinite false m 0))
                          | VInt (Z.neg m) => ok (VFloat (FFinite true m 0))
                          | _ => raise TypeError
                          end;
     py_int := fun v => match v with
                        | VInt _ => ok v
                        | _ => raise TypeError
                        end;
     pop_system_message := example_pop_system_message;
     process_messages := fun messages => ok messages |}.

Definition example_valves : Valves :=
  {| ANTHROPIC_API_KEY := "sk-example"; THINKING_BUDGET_TOKENS := 16000 |}.

Definition example_payload : dict :=
  [("model", VStr "claude-3-5-sonnet-latest"); ("stream", VBool true)].

Definition no_headers : string -> option string := fun _ => None.

(** The lines before the [message_stop] of the example stream: a text
    delta, a citation, one tool call in two fragments, and a line that is
    no JSON. *)
Definition example_before : list arrival :=
  [Line 1700000000 ("event: message_start" ++ nl);
   Line 1700000000 (sse_line message_start_event);
   Line 1700000001 (sse_line text_delta_event);
   Line 1700000001 (sse_line citation_event)].

Definition example_middle : list arrival :=
  [Line 1700000002 (sse_line (json_delta_event first_fragment));
   Line 1700000002 ("data: {oops" ++ nl);
   Line 1700000003 (sse_line (json_delta_event second_fragment));
   Line 1700000003 (sse_line block_stop_event);
   Line 1700000003 (sse_line (json_delta_event first_fragment))].

Definition example_after : list arrival :=
  [Line 1700000005 (sse_line text_delta_event)].

Definition example_response : response :=
  {| status := 200;
     headers := no_headers;
     text := "";
     content := example_before
                ++ Line 1700000002 (sse_line tool_start_event)
                :: example_middle
                ++ Line 1700000004 (sse_line message_stop_event)
                :: example_after |}.

Definition example_body : dict :=
  [("model", VStr "api/claude-3-5-sonnet-latest-thinking");
   ("messages", VList [VDict [("role", VStr "user"); ("content", VStr "Hello")]]);
   ("max_tokens", VInt 20000)].

(** A server that answers 429 with [retry-after: 2] once, then 200. *)
Definition example_server (attempt : nat) : post_outcome :=
  match attempt with
  | O => Responded {| status := 429;
                      headers := fun h => if (h =? "retry-after")%string
                                          then Some "2" else None;
                      text := "";
                      content := [] |}
  | _ => Responded {| status := 200; headers := no_headers; text := "{}"; content := [] |}
  end.

(** A server that answers 429 with a [retry-after] header that is an HTTP
    date. *)
Definition dated_server (attempt : nat) : post_outcome :=
  Responded {| status := 429;
               headers := fun h => if (h =? "retry-after")%string
                                   then Some "Wed, 21 Oct 2015 07:28:00 GMT" else None;
               text := "";
               content := [] |}.

(** A payload that is no UTF-8: the byte 0xff before the newline. *)
Definition undecodable_payload : string := String "255"%char nl.

(** The [UnicodeDecodeError] that [json.loads] raises on it. *)
Definition undecodable : exn :=
  OtherException
    "'utf-8' codec can't decode byte 0xff in position 0: invalid start byte".

Definition strict_loads (payload : string) : result value :=
  if (payload =? undecodable_payload)%string then raise undecodable
  else example_loads payload.

Definition strict_builtins : Builtins :=
  {| json_loads := strict_loads;
     int_of_str := int_of_str example_builtins;
     py_repr := py_repr example_builtins;
     py_float := py_float example_builtins;
     py_int := py_int example_builtins;
     pop_system_message := pop_system_message example_builtins;
     process_messages := process_messages example_builtins |}.

(** A stream whose third data line is no UTF-8. *)
Definition undecodable_response : response :=
  {| status := 200;
     headers := no_headers;
     text := "";
     content := example_before
                ++ Line 1700000002 ("data: " ++ undecodable_payload)
                :: [Line 1700000003 (sse_line text_delta_event);
                    Line 1700000004 (sse_line message_stop_event)] |}.

(** A server that always answers 429, without a [retry-after] header. *)
Definition busy_server (attempt : nat) : post_outcome :=
  Responded {| status := 429; headers := no_headers; text := ""; content := [] |}.

(** [s] written [p] times. *)
Fixpoint times (p : positive) (s : string) : string :=
  match p with
  | xH => s
  | xO p' => times p' s ++ times p' s
  | xI p' => s ++ times p' s ++ times p' s
  end.

(** The base64 text of an image of just under 5 MB. *)
Definition five_megabytes : string := times 6990506 "A".

Definition image_item (base64_data : string) : value :=
  VDict [("type", VStr "image_url");
         ("image_url", VDict [("url", VStr ("data:image/png;base64," ++ base64_data))])].

(** The base64 text of an image of just over 5 MB. *)
Definition over_five_megabytes : string := times 6990507 "A".

(** Two user messages that hold 21 copies of an image between them, ten
    after a text and an image given by URL, eleven in the second message,
    and between the two an assistant message whose content is a string. *)
Definition two_galleries (base64_data : string) : list value :=
  [VDict [("role", VStr "user");
          ("content",
           VList (VDict [("type", VStr "text"); ("text", VStr "Compare these.")]
                  :: VDict [("type", VStr "image_url");
                            ("image_url",
                             VDict [("url", VStr "https://example.com/a.png")])]
                  :: repeat (image_item base64_data) 10))];
   VDict [("role", VStr "assistant"); ("content", VStr "Send the others.")];
   VDict [("role", VStr "user");
          ("content", VList (repeat (image_item base64_data) 11))]].

Definition two_galleries_body : dict :=
  [("model", VStr "api/claude-3-5-sonnet-latest");
   ("messages", VList (two_galleries five_megabytes))].

(** One user message with 101 copies of an image of three bytes. *)
Definition crowded_gallery : list value :=
  [VDict [("role", VStr "user");
          ("content", VList (repeat (image_item "QUJD") 101))]].

Definition crowded_body : dict :=
  [("model", VStr "api/claude-3-5-sonnet-latest");
   ("messages", VList crowded_gallery)].

(** * The rest of the pipe: catalogue, content blocks, messages

    [get_anthropic_models], the content processors and [_process_messages]
    with [_normalize_tool_result_content], translated from the source as
    above.  [process_messages_of] is the source of what a [Builtins] holds
    as [process_messages]. *)

From Stdlib Require Import Permutation.

Definition MAX_PDF_SIZE : Z := 32 * 1024 * 1024.

(** ** The catalogue *)

(** Lines 103-110: the entry appended for [name]. *)
Definition model_entry (name : string) : value :=
  VDict [("id", VStr ("api/" ++ name));
         ("name", VStr name);
         ("context_length", VInt 200000);
         ("supports_vision", VBool true)].

(** [get_anthropic_models] *)
Definition get_anthropic_models : list value :=
  map model_entry ["claude-opus-4-5-20250514";
                   "claude-opus-4-5-20250514-thinking";
                   "claude-4-5-opus-20250514"] ++
  map model_entry ["claude-opus-4-20250514";
                   "claude-opus-4-0";
                   "claude-opus-4-0-thinking";
                   "claude-sonnet-4-20250514";
                   "claude-sonnet-4-0";
                   "claude-sonnet-4-0-thinking"] ++
  map model_entry ["claude-3-7-sonnet-20250219";
                   "claude-3-7-sonnet-latest";
                   "claude-3-7-sonnet-latest-thinking"] ++
  map model_entry ["claude-3-5-sonnet-20241022";
                   "claude-3-5-sonnet-20240620";
                   "claude-3-5-sonnet-latest"].

(** [pipes] *)
Definition pipes : list value := get_anthropic_models.

(** ** More library code *)

Record TextLib : Type := {
  (** [s.strip()] *)
  strip : string -> string;
  (** [json.dumps(v)] *)
  json_dumps : value -> string;
  (** [json.dumps(v, indent=2, ensure_ascii=False)] *)
  json_dumps_indented : value -> string
}.

(** ** What the content processors end with *)

(** An exception of the kinds above, or the [ValueError] of line 225. *)
Inductive failure : Type :=
| Raised (e : exn)
| PdfSizeExceeded (pdf_size : Q).   (* f"PDF size exceeds {limit}MB limit: {size:.2f}MB" *)

Definition attempt (A : Type) : Type := (failure + A)%type.

Definition done {A : Type} (a : A) : attempt A := inr a.

Definition lift {A : Type} (r : result A) : attempt A :=
  match r with
  | inl e => inl (Raised e)
  | inr a => inr a
  end.

Definition and_then {A B : Type} (m : attempt A) (k : A -> attempt B) : attempt B :=
  match m with
  | inl e => inl e
  | inr a => k a
  end.

Notation "x <~ m ;; k" := (and_then m (fun x => k))
  (at level 61, m at next level, right associativity).

(** A [for] loop over [attempt]s. *)
Fixpoint for_every {A : Type} (f : A -> value -> attempt A) (acc : A) (xs : list value)
    : attempt A :=
  match xs with
  | [] => done acc
  | x :: rest => acc' <~ f acc x ;; for_every f acc' rest
  end.

(** ** More strings *)

Definition tab : string := String "009"%char EmptyString.
Definition cr : string := String "013"%char EmptyString.
Definition apostrophe : string := String "039"%char EmptyString.
Definition backslash : string := String "092"%char EmptyString.

(** [s.endswith(p)] *)
Definition endswith (p s : string) : bool :=
  (String.length p <=? String.length s)%nat &&
  (drop (String.length s - String.length p) s =? p)%string.

(** [s[:-1]] *)
Fixpoint but_last (s : string) : string :=
  match s with
  | EmptyString => EmptyString
  | String c EmptyString => EmptyString
  | String c rest => String c (but_last rest)
  end.

(** Lines 714-718 and 727-731: the five replacements, in their order. *)
Definition unescape (s : string) : string :=
  let s := replace (backslash ++ "n") nl s in
  let s := replace (backslash ++ "t") tab s in
  let s := replace (backslash ++ "r") cr s in
  let s := replace (backslash ++ dq) dq s in
  replace (backslash ++ apostrophe) apostrophe s.

(** Lines 720 and 733: the markers, as the bytes of their UTF-8 text (a
    marker occurs in a text exactly when its bytes occur in the text's). *)
Definition markdown_markers : list string :=
  ["**"; "##";
   String "240" (String "159" (String "147" (String "138" EmptyString)));
   String "226" (String "149" (String "144" EmptyString));
   String "240" (String "159" (String "147" (String "132" EmptyString)));
   String "240" (String "159" (String "146" (String "190" EmptyString)))].

Definition has_marker (s : string) : bool :=
  existsb (fun marker => contains marker s) markdown_markers.

Definition text_block (s : string) : value :=
  VDict [("type", VStr "text"); ("text", VStr s)].

(** [v[k] = x] *)
Definition setitem (v : value) (k : string) (x : value) : result value :=
  match v with
  | VDict d => ok (VDict (dict_set k x d))
  | _ => raise TypeError
  end.

Section Messages.

Context (B : Builtins) (T : TextLib).

(** ** The content processors *)

(** [if data.get(k): document[k] = data[k]] *)
Definition copy_if_set (data : value) (k : string) (document : dict) : result dict :=
  field <- get data k VNone ;;
  if truthy field then
    x <- getitem data k ;;
    ok (dict_set k x document)
  else ok document.

(** [process_pdf].  Line 223, [len(base64_data) * 3 / 4], is the quotient of
    line 312. *)
Definition process_pdf (pdf_data : value) : attempt value :=
  pdf_url <~ lift (getitem pdf_data "pdf_url") ;;
  url <~ lift (getitem pdf_url "url") ;;
  match url with
  | VStr u =>
      if startswith "data:application/pdf" u then
        parts <~ lift (unpack2 (split1 "," u)) ;;
        let '(mime_type, base64_data) := parts in
        let pdf_size := (inject_Z (len base64_data * 3) / inject_Z 4)%Q in
        if negb (Qle_bool pdf_size (inject_Z MAX_PDF_SIZE)) then
          inl (PdfSizeExceeded pdf_size)
        else
          document <~ lift (copy_if_set pdf_data "cache_control"
                              [("type", VStr "document");
                               ("source", VDict [("type", VStr "base64");
                                                 ("media_type", VStr "application/pdf");
                                                 ("data", VStr base64_data)])]) ;;
          done (VDict document)
      else
        document <~ lift (copy_if_set pdf_data "cache_control"
                            [("type", VStr "document");
                             ("source", VDict [("type", VStr "url"); ("url", url)])]) ;;
        done (VDict document)
  | _ => inl (Raised AttributeError)
  end.

(** [process_document] *)
Definition process_document (doc_data : value) : result value :=
  source <- get doc_data "source" VNone ;;
  let document := [("type", VStr "document"); ("source", source)] in
  document <- copy_if_set doc_data "title" document ;;
  document <- copy_if_set doc_data "context" document ;;
  citations <- get doc_data "citations" (VDict []) ;;
  enabled <- get citations "enabled" VNone ;;
  let document :=
    if truthy enabled
    then dict_set "citations" (VDict [("enabled", VBool true)]) document
    else document in
  document <- copy_if_set doc_data "cache_control" document ;;
  ok (VDict document).

(** [process_file_reference]; [VNone] is its [None]. *)
Definition process_file_reference (file_data : value) : result value :=
  file_id <- get file_data "file_id" VNone ;;
  if truthy file_id then
    file_id <- getitem file_data "file_id" ;;
    ok (VDict [("type", VStr "document");
               ("source", VDict [("type", VStr "file"); ("file_id", file_id)])])
  else ok VNone.

(** Lines 171-186, for one item. *)
Definition process_item (processed_content : list value) (item : value)
    : attempt (list value) :=
  item_type <~ lift (getitem item "type") ;;
  if eq_str item_type "text" then
    text <~ lift (getitem item "text") ;;
    done (processed_content ++ [VDict [("type", VStr "text"); ("text", text)]])
  else if eq_str item_type "image_url" then
    image <~ lift (process_image item) ;;
    done (processed_content ++ [image])
  else if eq_str item_type "pdf_url" then
    document <~ process_pdf item ;;
    done (processed_content ++ [document])
  else if eq_str item_type "document" then
    document <~ lift (process_document item) ;;
    done (processed_content ++ [document])
  else if eq_str item_type "file_reference" then
    file_ref <~ lift (process_file_reference item) ;;
    done (if truthy file_ref then processed_content ++ [file_ref] else processed_content)
  else if eq_str item_type "tool_calls" then done (processed_content ++ [item])
  else if eq_str item_type "tool_results" then done (processed_content ++ [item])
  else done processed_content.

(** [process_content] *)
Definition process_content (content : value) : attempt (list value) :=
  match content with
  | VStr s => done [text_block s]
  | _ =>
      items <~ lift (py_iter content) ;;
      for_every process_item [] items
  end.

(** ** Tool results *)

(** [_normalize_tool_result_content] *)
Definition normalize_tool_result_content (content : value) : result string :=
  let content :=
    match content with
    | VDict _ | VList _ => json_dumps_indented T content
    | VStr s => s
    | _ => if truthy content then py_str B content else ""
    end in
  if (content =? "")%string then ok ""
  else
    let content_stripped := strip T content in
    early <-
      (if startswith dq content_stripped && endswith dq content_stripped
          && (1 <? len content_stripped)
       then
         match json_loads B content_stripped with
         | inr (VStr parsed) => ok (Some parsed)
         | inr _ => ok None
         | inl JSONDecodeError | inl (ValueError _) =>
             if 2 <? len content_stripped then
               let inner := unescape (but_last (drop 1 content_stripped)) in
               ok (if has_marker inner then Some inner else None)
             else ok None
         | inl e => raise e
         end
       else ok None) ;;
    match early with
    | Some returned => ok returned
    | None =>
        if contains (backslash ++ "n") content then ok (unescape content)
        else ok content
    end.

(** ** Messages *)

(** The two lists [_process_messages] builds. *)
Record batches : Type := {
  processed_messages : list value;
  pending_tool_results : list value
}.

(** Lines 771-776 and 844-848. *)
Definition emit_pending (b : batches) : batches :=
  match pending_tool_results b with
  | [] => b
  | _ :: _ =>
      {| processed_messages :=
           processed_messages b ++
           [VDict [("role", VStr "user");
                   ("content", VList (pending_tool_results b))]];
         pending_tool_results := [] |}
  end.

(** Lines 757-767: the block of one [tool] message. *)
Definition tool_result_of (message content : value) : result value :=
  tool_call_id <- get message "tool_call_id" (VStr "") ;;
  let tool_content_raw :=
    match content with
    | VStr _ => content
    | _ => VStr (json_dumps T content)
    end in
  tool_content <- normalize_tool_result_content tool_content_raw ;;
  ok (VDict [("type", VStr "tool_result");
             ("tool_use_id", tool_call_id);
             ("content", VStr tool_content)]).

(** Lines 787-793: the text of an assistant message that calls tools. *)
Definition text_items (content : value) : list value :=
  if truthy content then
    match content with
    | VStr s => [text_block s]
    | VList items =>
        filter (fun item => match item with
                            | VDict d => eq_str (get_or d "type" VNone) "text"
                            | _ => false
                            end) items
    | _ => []
    end
  else [].

(** Lines 797-810: the block of one tool call. *)
Definition tool_use_of (assistant_content : list value) (tc : value)
    : result (list value) :=
  id <- get tc "id" (VStr "") ;;
  function <- get tc "function" (VDict []) ;;
  name <- get function "name" (VStr "") ;;
  function <- get tc "function" (VDict []) ;;
  args <- get function "arguments" (VStr "{}") ;;
  input <- match args with
           | VStr a =>
               match json_loads B a with
               | inl JSONDecodeError => ok (VDict [("raw", args)])
               | r => r
               end
           | _ => ok args
           end ;;
  ok (assistant_content ++
      [VDict [("type", VStr "tool_use");
              ("id", id);
              ("name", name);
              ("input", input)]]).

(** Lines 825-835, for one processed item. *)
Definition mark_ephemeral (role : value) (processed_content : list value) (item : value)
    : result (list value) :=
  for_assistant <-
    (if eq_str role "assistant"
     then item_type <- get item "type" VNone ;; ok (eq_str item_type "tool_calls")
     else ok false) ;;
  for_user <-
    (if for_assistant then ok false
     else if eq_str role "user"
     then item_type <- get item "type" VNone ;; ok (eq_str item_type "tool_results")
     else ok false) ;;
  item <- (if for_assistant || for_user
           then setitem item "cache_control" (VDict [("type", VStr "ephemeral")])
           else ok item) ;;
  ok (processed_content ++ [item]).

(** Lines 819-835: [processed_content]. *)
Definition regular_content (role content : value) : attempt (list value) :=
  match content with
  | VStr s => done (if truthy content then [text_block s] else [])
  | VList _ =>
      items <~ process_content content ;;
      lift (for_each (mark_ephemeral role) [] items)
  | _ => done []
  end.

(** The body of the loop of lines 752-841. *)
Definition process_message (b : batches) (message : value) : attempt batches :=
  role <~ lift (get message "role" (VStr "user")) ;;
  content <~ lift (get message "content" (VStr "")) ;;
  if eq_str role "tool" then
    tool_result <~ lift (tool_result_of message content) ;;
    done {| processed_messages := processed_messages b;
            pending_tool_results := pending_tool_results b ++ [tool_result] |}
  else
    let b := emit_pending b in
    tool_calls <~ (if eq_str role "assistant"
                   then lift (get message "tool_calls" (VList []))
                   else done VNone) ;;
    if eq_str role "assistant" && truthy tool_calls then
      tcs <~ lift (py_iter tool_calls) ;;
      assistant_content <~ lift (for_each tool_use_of (text_items content) tcs) ;;
      done {| processed_messages :=
                processed_messages b ++
                [VDict [("role", VStr "assistant");
                        ("content", VList assistant_content)]];
              pending_tool_results := pending_tool_results b |}
    else
      processed_content <~ regular_content role content ;;
      done (if truthy (VList processed_content) || eq_str role "assistant" then
              {| processed_messages :=
                   processed_messages b ++
                   [VDict [("role", role);
                           ("content",
                            VList (if truthy (VList processed_content)
                                   then processed_content
                                   else [text_block ""]))]];
                 pending_tool_results := pending_tool_results b |}
            else b).

(** [_process_messages] *)
Definition process_messages_of (messages : value) : attempt (list value) :=
  ms <~ lift (py_iter messages) ;;
  b <~ for_every process_message
         {| processed_messages := []; pending_tool_results := [] |} ms ;;
  done (processed_messages (emit_pending b)).

End Messages.

(** ** Reading longer streams *)

(** The item is a chunk for [model]: a [chat.completion.chunk] that names it. *)
Definition chunk_for (model : value) (i : sse_item) : Prop :=
  exists d, i = SseData (VDict d)
            /\ lookup "object" d = Some (VStr "chat.completion.chunk")
            /\ lookup "model" d = Some model.

(** The lines of one tool call: the lines that lead to it, the line that
    opens the block, the lines while it is open, the line that closes it. *)
Record call_lines : Type := {
  call_lead : list arrival;
  start_now : Z;
  start_line : string;
  call_body : list arrival;
  stop_now : Z;
  stop_line : string
}.

Definition lines_of (c : call_lines) : list arrival :=
  call_lead c
  ++ Line (start_now c) (start_line c)
  :: call_body c ++ [Line (stop_now c) (stop_line c)].

Section Calls.

Context (B : Builtins).

(** The line is a [content_block_stop] event. *)
Definition is_block_stop (a : arrival) : bool :=
  match a with
  | Line _ line =>
      match decode B line with
      | Event BlockStop => true
      | _ => false
      end
  | ReadRaises _ => false
  end.

(** The [content_block] of the line, when it opens a [tool_use] block. *)
Definition opened_block (line : string) : dict :=
  match decode B line with
  | Event (ToolUseStart _ cb) => cb
  | _ => []
  end.

(** The call opens with a [tool_use] block and closes with the first
    [content_block_stop] after it; no other line of it opens a [tool_use]
    block, and the translator gets past each of them. *)
Definition one_call (c : call_lines) : bool :=
  forallb (passable B) (call_lead c)
  && negb (existsb (starts_tool_use B) (call_lead c))
  && starts_tool_use B (Line (start_now c) (start_line c))
  && forallb (passable B) (call_body c)
  && negb (existsb (starts_tool_use B) (call_body c))
  && negb (existsb is_block_stop (call_body c))
  && is_block_stop (Line (stop_now c) (stop_line c)).

(** The chunks of the call that is number [index]. *)
Definition call_chunks (model_name : value) (index : Z) (c : call_lines) : list sse_item :=
  let cb := opened_block (start_line c) in
  SseData (initial_tool_chunk (start_now c) model_name
             {| tu_id := get_or cb "id" (VStr ("call_" ++ str_of_int index));
                tu_name := get_or cb "name" (VStr "");
                tu_index := index |})
  :: map (fun p => SseData (argument_chunk (fst p) model_name index (VStr (snd p))))
         (fragments B (call_body c)).

(** The chunks of the calls, numbered from [index] on. *)
Fixpoint numbered (model_name : value) (index : Z) (calls : list call_lines)
    : list sse_item :=
  match calls with
  | [] => []
  | c :: rest => call_chunks model_name index c ++ numbered model_name (index + 1) rest
  end.

(** What a client reads in the [tool_calls] of the chunks of the call that
    is number [index]: the entry that opens the call, then one entry for
    each fragment of its arguments. *)
Definition call_entries (index : Z) (c : call_lines) : list (option value) :=
  Some (opening_entry index (opened_block (start_line c)))
  :: map (fun p => Some (fragment_entry index (snd p))) (fragments B (call_body c)).

(** The calls, each with its position in the stream, counted from 0. *)
Definition in_order (calls : list call_lines) : list (nat * call_lines) :=
  combine (seq 0 (List.length calls)) calls.

(** The thinking texts of the [thinking_delta] lines that are not empty,
    each with the second it is read. *)
Fixpoint thoughts (items : list arrival) : list (Z * value) :=
  match items with
  | [] => []
  | Line now line :: rest =>
      match decode B line with
      | Event (ThinkingDelta thinking) =>
          if truthy thinking then (now, thinking) :: thoughts rest else thoughts rest
      | _ => thoughts rest
      end
  | ReadRaises _ :: rest => thoughts rest
  end.

End Calls.

(** The item is a chunk whose delta has a [reasoning_content]. *)
Definition has_reasoning (i : sse_item) : bool :=
  match i with
  | SseData chunk =>
      match lookup "reasoning_content" (delta_of chunk) with
      | Some _ => true
      | None => false
      end
  | _ => false
  end.

(** The item is a chunk whose delta has a [content]. *)
Definition has_content (i : sse_item) : bool :=
  match i with
  | SseData chunk =>
      match lookup "content" (delta_of chunk) with
      | Some _ => true
      | None => false
      end
  | _ => false
  end.

(** ** Reading headers, tools and images *)

Definition no_flags : beta_flags :=
  {| has_pdf := false; has_cache := false; has_1h_cache := false; has_files := false |}.

(** The features of either. *)
Definition either (f g : beta_flags) : beta_flags :=
  {| has_pdf := has_pdf f || has_pdf g;
     has_cache := has_cache f || has_cache g;
     has_1h_cache := has_1h_cache f || has_1h_cache g;
     has_files := has_files f || has_files g |}.

(** The three headers of every request. *)
Definition base_headers (valves : Valves) : list (string * string) :=
  [("x-api-key", ANTHROPIC_API_KEY valves);
   ("anthropic-version", API_VERSION);
   ("content-type", "application/json")].

(** The tool is one the conversion keeps. *)
Definition is_function_tool (tool : value) : bool :=
  match tool with
  | VDict d => eq_str (get_or d "type" VNone) "function"
  | _ => false
  end.

(** The Anthropic form of an OpenAI function tool. *)
Definition anthropic_tool (tool : value) : value :=
  match tool with
  | VDict d =>
      match get_or d "function" (VDict []) with
      | VDict function =>
          VDict [("name", get_or function "name" VNone);
                 ("description", get_or function "description" VNone);
                 ("input_schema", get_or function "parameters" (VDict []))]
      | _ => VNone
      end
  | _ => VNone
  end.

(** The tool is an object, and its [function], if it is a function tool
    that has one, is an object. *)
Definition tool_object (tool : value) : Prop :=
  exists d, tool = VDict d /\
            (is_function_tool tool = true ->
             exists function, get_or d "function" (VDict []) = VDict function).

(** The item is an object that is no image, or an image given by a URL
    that is no [data:image] URI. *)
Definition remote_or_no_image (item : value) : Prop :=
  exists d, item = VDict d /\
            (eq_str (get_or d "type" VNone) "image_url" = true ->
             exists image_url u,
               lookup "image_url" d = Some (VDict image_url) /\
               lookup "url" image_url = Some (VStr u) /\
               startswith "data:image" u = false).

(** The message is an object whose content, if it is a list, has only such
    items. *)
Definition without_inline_image (message : value) : Prop :=
  exists d, message = VDict d /\
            forall items, lookup "content" d = Some (VList items) ->
                          Forall remote_or_no_image items.

(** The item is an inline image: an [image_url] item whose URL is a
    [data:image] URI, the header up to its first comma and the base64 text
    after it. *)
Definition inline_image (item : value) (base64_data : string) : Prop :=
  exists d image_url header,
    item = VDict d /\
    lookup "type" d = Some (VStr "image_url") /\
    lookup "image_url" d = Some (VDict image_url) /\
    lookup "url" image_url = Some (VStr (header ++ "," ++ base64_data)) /\
    startswith "data:image" header = true /\
    existsb (Ascii.eqb ",") (list_ascii_of_string header) = false.

(** The base64 texts of the inline images among the items of one content
    list, in their order. *)
Inductive images_among : list value -> list string -> Prop :=
| images_among_none : images_among [] []
| images_among_other (item : value) (rest : list value) (images : list string) :
    remote_or_no_image item ->
    images_among rest images ->
    images_among (item :: rest) images
| images_among_inline (item : value) (base64_data : string)
    (rest : list value) (images : list string) :
    inline_image item base64_data ->
    images_among rest images ->
    images_among (item :: rest) (base64_data :: images).

(** The base64 texts of the inline images of a list of messages, message
    after message; a message whose content is no list has none. *)
Inductive images_across : list value -> list string -> Prop :=
| images_across_none : images_across [] []
| images_across_plain (d : dict) (rest : list value) (images : list string) :
    (forall items, lookup "content" d <> Some (VList items)) ->
    images_across rest images ->
    images_across (VDict d :: rest) images
| images_across_listed (d : dict) (items : list value) (here : list string)
    (rest : list value) (images : list string) :
    lookup "content" d = Some (VList items) ->
    images_among items here ->
    images_across rest images ->
    images_across (VDict d :: rest) (here ++ images).

(** The decoded sizes of the images, added up in their order. *)
Definition combined_size (images : list string) : Q :=
  fold_left (fun total base64_data => (total + image_size_of base64_data)%Q) images 0%Q.

(** ** Reading content blocks and messages *)

(** The types of the blocks [process_content] returns. *)
Definition block_types : list string :=
  ["text"; "image"; "document"; "tool_calls"; "tool_results"].

(** The block is an object of one of these types; a text block has its
    type and its text, and nothing else. *)
Definition content_block (block : value) : Prop :=
  exists d t,
    block = VDict d /\
    lookup "type" d = Some (VStr t) /\
    In t block_types /\
    (t = "text" -> exists text, d = [("type", VStr "text"); ("text", text)]).

(** [message.get("role", "user") == "tool"] *)
Definition has_tool_role (message : value) : bool :=
  match message with
  | VDict d => eq_str (get_or d "role" (VStr "user")) "tool"
  | _ => false
  end.

(** The block is a [tool_result]. *)
Definition is_tool_result (block : value) : bool :=
  match block with
  | VDict d => eq_str (get_or d "type" VNone) "tool_result"
  | _ => false
  end.

(** The blocks of a processed message. *)
Definition blocks_of (message : value) : list value :=
  match message with
  | VDict d =>
      match lookup "content" d with
      | Some (VList blocks) => blocks
      | _ => []
      end
  | _ => []
  end.

(** The message has a role and a list of blocks, and nothing else. *)
Definition anthropic_message (message : value) : Prop :=
  exists role blocks,
    message = VDict [("role", role); ("content", VList blocks)] /\
    blocks <> [] /\
    role <> VStr "tool".

(** The last message, if there is one, has the role [tool]. *)
Definition ends_with_tool (messages : list value) : bool :=
  match rev messages with
  | message :: _ => has_tool_role message
  | [] => false
  end.

(** The block of a tool result [text] for the call [id]. *)
Definition tool_result_block (result : value * string) : value :=
  VDict [("type", VStr "tool_result");
         ("tool_use_id", fst result);
         ("content", VStr (snd result))].

(** The tool results gathered so far: those of the messages already
    emitted, then those that wait. *)
Definition gathered (b : batches) : list value :=
  filter is_tool_result (flat_map blocks_of (processed_messages b))
  ++ pending_tool_results b.

Section ReadingMessages.

Context (B : Builtins) (T : TextLib).

(** [message] is a [tool] message, and [block] is the block made of it. *)
Definition gives_tool_result (message block : value) : Prop :=
  has_tool_role message = true /\
  exists content,
    get message "content" (VStr "") = ok content /\
    tool_result_of B T message content = ok block.

(** The text is not a JSON string: stripped, it does not both start and
    end with a double quote. *)
Definition unquoted (s : string) : bool :=
  negb (startswith dq (strip T s) && endswith dq (strip T s)).

(** An unquoted text after lines 725-738. *)
Definition unescaped_if_escaped (s : string) : string :=
  if contains (backslash ++ "n") s then unescape s else s.

(** [message] is the [tool] message that answers call [id] with the
    unquoted text [s]. *)
Definition tool_message (message : value) (result : value * string) : Prop :=
  exists d,
    message = VDict d /\
    lookup "role" d = Some (VStr "tool") /\
    get_or d "tool_call_id" (VStr "") = fst result /\
    lookup "content" d = Some (VStr (snd result)) /\
    unquoted (snd result) = true.

(** [input] is what lines 804-808 make of [args]. *)
Definition parsed_arguments (args input : value) : Prop :=
  match args with
  | VStr a =>
      json_loads B a = inr input \/
      (json_loads B a = inl JSONDecodeError /\ input = VDict [("raw", args)])
  | _ => input = args
  end.

(** [tc] is a tool call object, and [block] the [tool_use] block of it. *)
Definition gives_tool_use (tc block : value) : Prop :=
  exists c function input,
    tc = VDict c /\
    get_or c "function" (VDict []) = VDict function /\
    parsed_arguments (get_or function "arguments" (VStr "{}")) input /\
    block = VDict [("type", VStr "tool_use");
                   ("id", get_or c "id" (VStr ""));
                   ("name", get_or function "name" (VStr ""));
                   ("input", input)].

(** What [B] holds as [process_messages] is [_process_messages]: when it
    returns, it returns the list that [process_messages_of] gives. *)
Definition holds_process_messages : Prop :=
  forall messages v,
    process_messages B messages = inr v ->
    exists processed, process_messages_of B T messages = inr processed /\ v = VList processed.

End ReadingMessages.

(** * More of the concrete environment

    [wide_loads] decodes the texts that [show] prints for the values of
    [known_values], with or without a line end after them, and rejects
    every other text as malformed; [example_text] strips the ASCII white
    space and prints with [show]. *)

Definition untyped_event : value := VDict [("message", VStr "overloaded")].

Definition answer_body : value :=
  VDict [("id", VStr "msg_01");
         ("content", VList [VDict [("type", VStr "text"); ("text", VStr "Hello!")]]);
         ("usage", VDict [("input_tokens", VInt 9); ("output_tokens", VInt 3)])].

Definition weather_arguments : value := VDict [("city", VStr "Paris")].

Definition known_values : list value :=
  example_events ++ [untyped_event; answer_body; weather_arguments].

Definition wide_loads (payload : string) : result value :=
  match find (fun v => (show v =? payload)%string || (show v ++ nl =? payload)%string)
             known_values with
  | Some v => ok v
  | None => raise JSONDecodeError
  end.

Definition wide_builtins : Builtins :=
  {| json_loads := wide_loads;
     int_of_str := example_int_of_str;
     py_repr := show;
     py_float := py_float example_builtins;
     py_int := py_int example_builtins;
     pop_system_message := example_pop_system_message;
     process_messages := fun messages => ok messages |}.

Definition is_space (c : ascii) : bool :=
  existsb (Ascii.eqb c) [" "; "009"; "010"; "011"; "012"; "013"]%char.

Fixpoint lstrip (s : string) : string :=
  match s with
  | EmptyString => EmptyString
  | String c rest => if is_space c then lstrip rest else s
  end.

Fixpoint rstrip (s : string) : string :=
  match s with
  | EmptyString => EmptyString
  | String c rest =>
      match rstrip rest with
      | EmptyString => if is_space c then EmptyString else String c EmptyString
      | kept => String c kept
      end
  end.

(** [level] times two spaces. *)
Fixpoint pad (level : nat) : string :=
  match level with
  | O => EmptyString
  | S l => "  " ++ pad l
  end.

(** The JSON text of a value with [indent=2]. *)
Fixpoint show_indented (level : nat) (v : value) : string :=
  match v with
  | VList [] => "[]"
  | VDict [] => "{}"
  | VList xs =>
      "[" ++ nl
      ++ join ("," ++ nl)
           (map (fun x => (pad (S level) ++ show_indented (S level) x)%string) xs)
      ++ nl ++ pad level ++ "]"
  | VDict kvs =>
      "{" ++ nl
      ++ join ("," ++ nl)
           (map (fun kv => (pad (S level) ++ quoted (fst kv) ++ ": "
                            ++ show_indented (S level) (snd kv))%string) kvs)
      ++ nl ++ pad level ++ "}"
  | _ => show v
  end.

Definition example_text : TextLib :=
  {| strip := fun s => rstrip (lstrip s);
     json_dumps := show;
     json_dumps_indented := show_indented 0 |}.

(** [wide_builtins] with [_process_messages] in its place. *)
Definition full_builtins : Builtins :=
  {| json_loads := wide_loads;
     int_of_str := example_int_of_str;
     py_repr := show;
     py_float := py_float example_builtins;
     py_int := py_int example_builtins;
     pop_system_message := example_pop_system_message;
     process_messages :=
       fun messages =>
         match process_messages_of wide_builtins example_text messages with
         | inr processed => ok (VList processed)
         | inl (Raised e) => raise e
         | inl (PdfSizeExceeded _) => raise (OtherException "PDF size exceeds limit")
         end |}.

(** An event stream with two tool calls, one after the other. *)
Definition first_call : call_lines :=
  {| call_lead := [Line 1700000000 (sse_line message_start_event);
                   Line 1700000001 (sse_line text_delta_event)];
     start_now := 1700000002;
     start_line := sse_line tool_start_event;
     call_body := [Line 1700000002 (sse_line (json_delta_event first_fragment));
                   Line 1700000003 (sse_line (json_delta_event second_fragment))];
     stop_now := 1700000003;
     stop_line := sse_line block_stop_event |}.

Definition second_call : call_lines :=
  {| call_lead := [];
     start_now := 1700000004;
     start_line := sse_line tool_start_event;
     call_body := [Line 1700000005 (sse_line (json_delta_event first_fragment))];
     stop_now := 1700000005;
     stop_line := sse_line block_stop_event |}.

Definition two_calls_response : response :=
  {| status := 200;
     headers := no_headers;
     text := "";
     content := flat_map lines_of [first_call; second_call]
                ++ [Line 1700000006 (sse_line text_delta_event)]
                ++ Line 1700000007 (sse_line message_stop_event) :: example_after |}.

(** A stream in which the model thinks before it answers. *)
Definition thinking_response : response :=
  {| status := 200;
     headers := no_headers;
     text := "";
     content := [Line 1700000000 (sse_line message_start_event);
                 Line 1700000001 (sse_line thinking_event);
                 Line 1700000002 (sse_line text_delta_event);
                 Line 1700000003 (sse_line message_stop_event)] |}.

(** A stream in which an event without a type follows a text delta. *)
Definition untyped_response : response :=
  {| status := 200;
     headers := no_headers;
     text := "";
     content := example_before
                ++ Line 1700000002 (sse_line untyped_event) :: example_after |}.

(** A one-shot request. *)
Definition one_shot_body : dict :=
  [("model", VStr "api/claude-3-5-sonnet-latest");
   ("messages", VList [VDict [("role", VStr "user"); ("content", VStr "Hello")]]);
   ("temperature", VNone);
   ("stream", VBool false)].

(** A server that answers 429 with [retry-after: 2] once, then 200 with
    [answer_body]. *)
Definition answering_server (attempt : nat) : post_outcome :=
  match attempt with
  | O => example_server O
  | _ => Responded {| status := 200; headers := no_headers;
                      text := show answer_body; content := [] |}
  end.

(** Two messages with beta features, and a request with them. *)
Definition cached_message : value :=
  VDict [("role", VStr "user");
         ("content",
          VList [VDict [("type", VStr "text");
                        ("text", VStr "A long preamble.");
                        ("cache_control",
                         VDict [("type", VStr "ephemeral"); ("ttl", VStr "1h")])]])].

Definition pdf_message : value :=
  VDict [("role", VStr "user");
         ("content",
          VList [VDict [("type", VStr "pdf_url");
                        ("pdf_url", VDict [("url", VStr "https://example.org/a.pdf")])]])].

Definition beta_body (messages : list value) : dict :=
  [("model", VStr "api/claude-sonnet-4-0-thinking");
   ("messages", VList messages);
   ("interleaved_thinking", VBool true)].

(** A user message with a [tool_results] item on which the client asks
    for the one-hour cache. *)
Definition tool_results_message : value :=
  VDict [("role", VStr "user");
         ("content",
          VList [VDict [("type", VStr "tool_results");
                        ("cache_control",
                         VDict [("type", VStr "ephemeral"); ("ttl", VStr "1h")])]])].

Definition tool_results_body : dict :=
  [("model", VStr "api/claude-3-5-sonnet-latest");
   ("messages", VList [tool_results_message])].

(** Tools as a client sends them. *)
Definition weather_tool : value :=
  VDict [("type", VStr "function");
         ("function",
          VDict [("name", VStr "get_weather");
                 ("description", VStr "The weather of a city");
                 ("parameters", VDict [("type", VStr "object")])])].

Definition retrieval_tool : value := VDict [("type", VStr "retrieval")].

Definition bare_tool : value := VDict [("type", VStr "function")].

(** A conversation with remote images only. *)
Definition remote_image : value :=
  VDict [("type", VStr "image_url");
         ("image_url", VDict [("url", VStr "https://example.org/cat.png")])].

Definition remote_gallery : list value :=
  [VDict [("role", VStr "user"); ("content", VList (repeat remote_image 200))];
   VDict [("role", VStr "assistant"); ("content", VStr "Many cats.")]].

(** Content items of several types. *)
Definition cached_text_item : value :=
  VDict [("type", VStr "text");
         ("text", VStr "Hello");
         ("cache_control", VDict [("type", VStr "ephemeral")])].


Definition pdf_item (base64_data : string) : dict :=
  [("type", VStr "pdf_url");
   ("pdf_url", VDict [("url", VStr ("data:application/pdf;base64," ++ base64_data))])].

(** The base64 text of a PDF of just over 32 MB. *)
Definition over_thirty_two_megabytes : string := times 44739243 "A".

(** A conversation in which the assistant calls two tools and gets two
    answers. *)
Definition weather_call : value :=
  VDict [("id", VStr "call_1");
         ("type", VStr "function");
         ("function", VDict [("name", VStr "get_weather");
                             ("arguments", VStr (show weather_arguments))])].

Definition broken_call : value :=
  VDict [("id", VStr "call_2");
         ("type", VStr "function");
         ("function", VDict [("name", VStr "get_time");
                             ("arguments", VStr "{oops")])].

Definition user_question : value :=
  VDict [("role", VStr "user"); ("content", VStr "Weather and time in Paris?")].

Definition assistant_calls : dict :=
  [("role", VStr "assistant");
   ("content", VStr "Let me check.");
   ("tool_calls", VList [weather_call; broken_call])].

Definition weather_answer : value :=
  VDict [("role", VStr "tool");
         ("tool_call_id", VStr "call_1");
         ("content", VStr ("Sunny" ++ backslash ++ "n18 C"))].

Definition time_answer : value :=
  VDict [("role", VStr "tool");
         ("tool_call_id", VStr "call_2");
         ("content", VStr "No such tool")].

Definition weather_use : value :=
  VDict [("type", VStr "tool_use");
         ("id", VStr "call_1");
         ("name", VStr "get_weather");
         ("input", weather_arguments)].

Definition broken_use : value :=
  VDict [("type", VStr "tool_use");
         ("id", VStr "call_2");
         ("name", VStr "get_time");
         ("input", VDict [("raw", VStr "{oops")])].

Definition processed_question : value :=
  VDict [("role", VStr "user");
         ("content", VList [text_block "Weather and time in Paris?"])].

Definition processed_calls : value :=
  VDict [("role", VStr "assistant");
         ("content", VList [text_block "Let me check."; weather_use; broken_use])].

Definition processed_answers : value :=
  VDict [("role", VStr "user");
         ("content",
          VList [tool_result_block (VStr "call_1", ("Sunny" ++ nl ++ "18 C")%string);
                 tool_result_block (VStr "call_2", "No such tool")])].

(** * Properties *)

Section TranslatorFacts.

Context (B : Builtins).

Lemma bind_ok {A C : Type} (a : A) (k : A -> result C) : bind (ok a) k = k a.
Proof. reflexivity. Qed.

Lemma get_dict (d : dict) (k : string) (default : value) :
  get (VDict d) k default = ok (get_or d k default).
Proof. unfold get, get_or. destruct (lookup k d); reflexivity. Qed.

Lemma getitem_is_dict (v : value) (k : string) (x : value) :
  getitem v k = inr x -> exists d, v = VDict d /\ lookup k d = Some x.
Proof.
  destruct v; simpl; try discriminate.
  destruct (lookup k kvs) eqn:E; simpl; try discriminate.
  intros H. injection H as <-. eauto.
Qed.

Lemma get_is_dict (v : value) (k : string) (default x : value) :
  get v k default = inr x -> exists d, v = VDict d.
Proof. destruct v; simpl; try discriminate. eauto. Qed.

(** Reading an event and reacting to it is what [handle_data] does. *)
Lemma handle_data_classify (model_name : value) (s : stream_state) (now : Z) (data : value) :
  handle_data B model_name s now data = (ev <- classify data ;; act B model_name s now ev).
Proof.
  unfold handle_data, classify.
  destruct (getitem data "type") as [e | type] eqn:Et; [reflexivity |].
  destruct (getitem_is_dict _ _ _ Et) as [d [-> _]].
  rewrite !bind_ok.
  destruct (eq_str type "content_block_start").
  { unfold on_content_block_start. rewrite get_dict, !bind_ok.
    destruct (get (get_or d "content_block" (VDict [])) "type" VNone) as [e | bt] eqn:Eb;
      [reflexivity |].
    destruct (get_is_dict _ _ _ _ Eb) as [cb Ecb]. rewrite Ecb in *.
    rewrite !bind_ok. destruct (eq_str bt "tool_use"); [| reflexivity].
    rewrite !get_dict, !bind_ok. reflexivity. }
  destruct (eq_str type "content_block_delta").
  { unfold on_content_block_delta. rewrite get_dict, !bind_ok.
    destruct (get (get_or d "delta" (VDict [])) "type" VNone) as [e | dt] eqn:Ed;
      [reflexivity |].
    destruct (get_is_dict _ _ _ _ Ed) as [dd Edd]. rewrite Edd in *.
    rewrite !bind_ok.
    destruct (eq_str dt "text_delta").
    { rewrite get_dict, !bind_ok. simpl. destruct (truthy _); reflexivity. }
    destruct (eq_str dt "input_json_delta").
    { rewrite get_dict, !bind_ok. reflexivity. }
    destruct (eq_str dt "thinking_delta").
    { rewrite get_dict, !bind_ok. simpl. destruct (truthy _); reflexivity. }
    destruct (eq_str dt "citations_delta"); [| reflexivity].
    rewrite get_dict, !bind_ok.
    destruct (truthy (get_or dd "citation" (VDict []))); [| reflexivity].
    destruct (get (get_or dd "citation" (VDict [])) "document_index" (VInt 0))
      as [e | ix] eqn:Ei; [reflexivity |].
    destruct (get_is_dict _ _ _ _ Ei) as [c Ec]. rewrite Ec in *.
    rewrite !get_dict, !bind_ok. simpl. reflexivity. }
  destruct (eq_str type "content_block_stop"); [reflexivity |].
  destruct (eq_str type "message_stop"); reflexivity.
Qed.

Lemma getitem_raises (v : value) (k : string) (e : exn) :
  getitem v k = inl e -> e = TypeError \/ e = KeyError k.
Proof.
  destruct v; simpl; try (intros H; injection H as <-; now left).
  destruct (lookup k kvs); simpl; [discriminate |].
  intros H; injection H as <-; now right.
Qed.

Lemma get_raises (v : value) (k : string) (default : value) (e : exn) :
  get v k default = inl e -> e = AttributeError.
Proof.
  destruct v; simpl; try (intros H; injection H as <-; reflexivity).
  destruct (lookup k kvs); discriminate.
Qed.

Lemma bind_raises {A C : Type} (m : result A) (k : A -> result C) (e : exn) :
  bind m k = inl e -> m = inl e \/ exists a, m = inr a /\ k a = inl e.
Proof.
  destruct m as [e' | a]; simpl; intros H; [left; congruence | right; eauto].
Qed.

(** No exception that [classify] raises is a [JSONDecodeError]. *)
Lemma classify_raises (data : value) (e : exn) :
  classify data = inl e -> e <> JSONDecodeError.
Proof.
  unfold classify.
  repeat match goal with
  | |- bind ?m _ = inl _ -> _ =>
      let H := fresh "H" in
      intros H; apply bind_raises in H; destruct H as [H | [? [_ H]]];
      [ first [ apply get_raises in H; subst; discriminate
              | apply getitem_raises in H; destruct H; subst; discriminate ]
      | revert H ]
  | |- (if ?c then _ else _) = inl _ -> _ => destruct c
  | |- match ?v with VNone => _ | _ => _ end = inl _ -> _ => destruct v
  | |- ok _ = inl _ -> _ => discriminate
  | |- raise _ = inl _ -> _ =>
      let H := fresh "H" in intros H; injection H as <-; discriminate
  end.
Qed.

Lemma act_raises (model_name : value) (s : stream_state) (now : Z) (ev : stream_event)
    (e : exn) :
  act B model_name s now ev = inl e -> e = TypeError.
Proof.
  destruct ev; simpl; try discriminate.
  destruct (truthy partial_json), (current_tool_use s); try discriminate.
  destruct partial_json; try discriminate; intros H; injection H as <-; reflexivity.
Qed.

(** One turn of the loop is: decode the line, react to what it is. *)
Lemma handle_line_decode (model_name : value) (s : stream_state) (now : Z) (line : string) :
  handle_line B model_name s now line = react B model_name s now (decode B line).
Proof.
  unfold handle_line, decode, is_data_line.
  destruct (negb (line =? "")%string && startswith "data: " line); [| reflexivity].
  destruct (json_loads B (drop 6 line)) as [e | data]; simpl.
  { destruct e; reflexivity. }
  rewrite handle_data_classify.
  destruct (classify data) as [e | ev] eqn:Ec; simpl.
  { apply classify_raises in Ec. destruct e; first [reflexivity | congruence]. }
  destruct (act B model_name s now ev) as [e | st] eqn:Ea; [| reflexivity].
  apply act_raises in Ea. subst. reflexivity.
Qed.

(** ** Runs of the loop *)

Lemma consume_line (model_name : value) (s : stream_state) (now : Z) (line : string)
    (rest : list arrival) :
  consume B model_name s (Line now line :: rest) =
  match react B model_name s now (decode B line) with
  | inl e => (Failed e, [], [])
  | inr (Break, out, logs) => (Stopped, out, logs)
  | inr (Continue s', out, logs) =>
      let '(fin, out', logs') := consume B model_name s' rest in
      (fin, out ++ out', logs ++ logs')
  end.
Proof. simpl. rewrite handle_line_decode. reflexivity. Qed.

(** A run that uses up its input went through one [Continue] per line. *)
Lemma consume_cons_exhausted (model_name : value) (s s' : stream_state) (a : arrival)
    (rest : list arrival) (out : list sse_item) (logs : list log_record) :
  consume B model_name s (a :: rest) = (Exhausted s', out, logs) ->
  exists now line s1 out1 logs1 out2 logs2,
    a = Line now line /\
    react B model_name s now (decode B line) = inr (Continue s1, out1, logs1) /\
    consume B model_name s1 rest = (Exhausted s', out2, logs2) /\
    out = out1 ++ out2 /\ logs = logs1 ++ logs2.
Proof.
  destruct a as [now line | e]; [| discriminate].
  rewrite consume_line.
  destruct (react B model_name s now (decode B line)) as [e | [[c out1] logs1]] eqn:Hr;
    [discriminate |].
  destruct c as [s1 |]; [| discriminate].
  destruct (consume B model_name s1 rest) as [[fin out2] logs2] eqn:E.
  intros H. injection H as -> <- <-.
  exists now, line, s1, out1, logs1, out2, logs2. auto.
Qed.

Lemma consume_app (model_name : value) (xs ys : list arrival) :
  forall (s s' : stream_state) (out : list sse_item) (logs : list log_record),
    consume B model_name s xs = (Exhausted s', out, logs) ->
    consume B model_name s (xs ++ ys) =
    let '(fin, out', logs') := consume B model_name s' ys in
    (fin, out ++ out', logs ++ logs').
Proof.
  induction xs as [| a xs IH]; intros s s' out logs H.
  - simpl in H. injection H as <- <- <-. simpl.
    destruct (consume B model_name s ys) as [[fin o] l]. reflexivity.
  - destruct (consume_cons_exhausted _ _ _ _ _ _ _ H)
      as (now & line & s1 & o1 & l1 & o2 & l2 & -> & Hr & Hc & -> & ->).
    simpl app. rewrite consume_line, Hr, (IH _ _ _ _ Hc).
    destruct (consume B model_name s' ys) as [[fin o] l].
    rewrite !app_assoc. reflexivity.
Qed.

(** What one [Continue] turn can change: the flag rises exactly on a
    [tool_use] start, and no sentinel is yielded. *)
Lemma react_continue (model_name : value) (s s1 : stream_state) (now : Z) (line : string)
    (out1 : list sse_item) (logs1 : list log_record) :
  react B model_name s now (decode B line) = inr (Continue s1, out1, logs1) ->
  has_tool_calls s1 = has_tool_calls s || starts_tool_use B (Line now line) /\
  filter is_done out1 = [].
Proof.
  unfold starts_tool_use.
  destruct (decode B line) as [| | e | ev]; simpl; try discriminate;
    try (intros H; injection H as <- <- <-; rewrite orb_false_r; split; reflexivity).
  destruct ev as [bt cb | bt | txt | pj | th | ix ti | | | |]; simpl;
    unfold on_content_block_stop, on_message_stop;
    try discriminate;
    try (intros H; injection H as <- <- <-; simpl;
         rewrite ?orb_false_r, ?orb_true_r; split; reflexivity).
  - intros H; injection H as <- <- <-. rewrite orb_false_r.
    destruct (truthy txt); split; reflexivity.
  - destruct (truthy pj), (current_tool_use s); try destruct pj;
      try discriminate;
      intros H; injection H as <- <- <-; simpl; rewrite orb_false_r; split; reflexivity.
  - intros H; injection H as <- <- <-. rewrite orb_false_r.
    destruct (truthy th); split; reflexivity.
  - destruct (current_tool_use s); intros H; injection H as <- <- <-; simpl;
      rewrite orb_false_r; split; reflexivity.
Qed.

Lemma consume_exhausted (model_name : value) (xs : list arrival) :
  forall (s s' : stream_state) (out : list sse_item) (logs : list log_record),
    consume B model_name s xs = (Exhausted s', out, logs) ->
    has_tool_calls s' = has_tool_calls s || existsb (starts_tool_use B) xs /\
    filter is_done out = [].
Proof.
  induction xs as [| a xs IH]; intros s s' out logs H.
  - simpl in H. injection H as <- <- <-. simpl. rewrite orb_false_r. auto.
  - destruct (consume_cons_exhausted _ _ _ _ _ _ _ H)
      as (now & line & s1 & o1 & l1 & o2 & l2 & -> & Hr & Hc & -> & ->).
    destruct (react_continue _ _ _ _ _ _ _ Hr) as [Hf Hd].
    destruct (IH _ _ _ _ Hc) as [Hf' Hd'].
    split.
    + rewrite Hf', Hf. cbn [existsb]. rewrite orb_assoc. reflexivity.
    + rewrite filter_app, Hd, Hd'. reflexivity.
Qed.

(** A line whose JSON has [type] [message_stop] is the [MessageStop] event. *)
Lemma decode_message_stop (line : string) (d : dict) :
  is_data_line line = true ->
  json_loads B (drop 6 line) = inr (VDict d) ->
  lookup "type" d = Some (VStr "message_stop") ->
  decode B line = Event MessageStop.
Proof.
  intros Hl Hj Ht. unfold decode. rewrite Hl, Hj.
  unfold classify. simpl. rewrite Ht. reflexivity.
Qed.

(** The run over a body whose lines are handled up to a [message_stop]. *)
Lemma consume_to_message_stop (model_name : value) (before after : list arrival)
    (now : Z) (line : string) (s s' : stream_state) (out : list sse_item)
    (logs : list log_record) :
  consume B model_name s before = (Exhausted s', out, logs) ->
  decode B line = Event MessageStop ->
  consume B model_name s (before ++ Line now line :: after) =
  (Stopped,
   out ++ [SseData (finish_chunk now model_name
                      (if has_tool_calls s || existsb (starts_tool_use B) before
                       then "tool_calls" else "stop"));
           SseDone],
   logs ++ []).
Proof.
  intros Hc Hd.
  rewrite (consume_app _ _ _ _ _ _ _ Hc), consume_line, Hd. simpl.
  unfold on_message_stop.
  destruct (consume_exhausted _ _ _ _ _ _ Hc) as [-> _]. reflexivity.
Qed.

(** What a 200 response yields when its lines are consumed up to a
    [message_stop] event. *)
Lemma stream_to_message_stop
    (request_id : option string) (payload : dict) (r : response)
    (before after : list arrival) (now : Z) (line : string)
    (s : stream_state) (out : list sse_item) (logs : list log_record) :
  status r = 200 ->
  content r = before ++ Line now line :: after ->
  consume B (model_name_of payload) initial_state before = (Exhausted s, out, logs) ->
  decode B line = Event MessageStop ->
  yielded (stream_with_ui B request_id payload (Responded r)) =
    out ++ [SseData (finish_chunk now (model_name_of payload)
                       (if existsb (starts_tool_use B) before
                        then "tool_calls" else "stop"));
            SseDone].
Proof.
  intros Hs Hc Hb Hd.
  unfold stream_with_ui. rewrite Hs, Hc. simpl negb. cbv iota.
  rewrite (consume_to_message_stop _ _ after now _ _ _ _ _ Hb Hd).
  simpl. rewrite app_nil_r. reflexivity.
Qed.

(** When the run ends in [Stopped] or yields the sentinel, some line was a
    [message_stop]. *)
Lemma consume_no_stop (model_name : value) (xs : list arrival) :
  existsb (is_message_stop B) xs = false ->
  forall (s : stream_state) (fin : finish) (out : list sse_item) (logs : list log_record),
    consume B model_name s xs = (fin, out, logs) ->
    fin <> Stopped /\ filter is_done out = [].
Proof.
  induction xs as [| a xs IH]; intros Hno s fin out logs H.
  - simpl in H. injection H as <- <- <-. split; [discriminate | reflexivity].
  - cbn [existsb] in Hno. apply orb_false_iff in Hno. destruct Hno as [Hno1 Hno].
    destruct a as [now line | e].
    2: { simpl in H. injection H as <- <- <-. split; [discriminate | reflexivity]. }
    rewrite consume_line in H.
    destruct (react B model_name s now (decode B line)) as [e | [[c o1] l1]] eqn:Hr.
    { injection H as <- <- <-. split; [discriminate | reflexivity]. }
    destruct c as [s1 |].
    + destruct (react_continue _ _ _ _ _ _ _ Hr) as [_ Hd].
      destruct (consume B model_name s1 xs) as [[f o2] l2] eqn:Hc.
      injection H as <- <- <-.
      destruct (IH Hno _ _ _ _ Hc) as [Hf Ho].
      split; [exact Hf | rewrite filter_app, Hd, Ho; reflexivity].
    + exfalso. unfold is_message_stop in Hno1. revert Hr Hno1.
      destruct (decode B line) as [| | e | ev]; simpl; try discriminate.
      destruct ev as [bt cb | bt | txt | pj | th | ix ti | | | |]; simpl;
        unfold on_content_block_stop; try discriminate.
      * destruct (truthy pj), (current_tool_use s); try destruct pj; discriminate.
      * destruct (current_tool_use s); discriminate.
Qed.

(** Passable lines are consumed, whatever the state. *)
Lemma passable_run (model_name : value) (xs : list arrival) :
  forallb (passable B) xs = true ->
  forall s : stream_state,
    exists s' out logs, consume B model_name s xs = (Exhausted s', out, logs).
Proof.
  induction xs as [| a xs IH]; intros Hp s.
  - exists s, [], []. reflexivity.
  - cbn [forallb] in Hp. apply andb_true_iff in Hp. destruct Hp as [Hp1 Hp].
    destruct a as [now line | e]; [| discriminate].
    assert (Hstep : exists s1 o1 l1,
               react B model_name s now (decode B line) = inr (Continue s1, o1, l1)).
    { unfold passable in Hp1. revert Hp1.
      destruct (decode B line) as [| | e | ev]; simpl; try discriminate; eauto.
      destruct ev as [bt cb | bt | txt | pj | th | ix ti | | | |]; simpl;
        unfold on_content_block_stop; try discriminate; eauto.
      - destruct pj as [| b | n | x | f | l | kvs]; simpl; intros Hp1;
          try rewrite (proj1 (negb_true_iff _) Hp1);
          destruct (current_tool_use s); try destruct (negb (f =? "")%string); eauto.
      - destruct (current_tool_use s); eauto. }
    destruct Hstep as (s1 & o1 & l1 & Hr).
    destruct (IH Hp s1) as (s' & o2 & l2 & Hc).
    exists s', (o1 ++ o2), (l1 ++ l2). rewrite consume_line, Hr, Hc. reflexivity.
Qed.

Lemma finish_chunk_reason (now : Z) (model_name : value) (reason : string) :
  finish_reason_of (finish_chunk now model_name reason) = VStr reason.
Proof. reflexivity. Qed.

(** C1.  When the translator, on a 200 response, has consumed the lines
    before a [message_stop] event, what it yields ends with one finish
    chunk and the sentinel; the chunk's [finish_reason] is ["tool_calls"]
    if one of those lines opened a [tool_use] content block, and ["stop"]
    if none did. *)
Theorem finish_reason_reports_tool_use
    (request_id : option string) (payload : dict) (r : response)
    (before after : list arrival) (now : Z) (line : string) (d : dict)
    (s : stream_state) (out : list sse_item) (logs : list log_record) :
  status r = 200 ->
  content r = before ++ Line now line :: after ->
  consume B (model_name_of payload) initial_state before = (Exhausted s, out, logs) ->
  is_data_line line = true ->
  json_loads B (drop 6 line) = inr (VDict d) ->
  lookup "type" d = Some (VStr "message_stop") ->
  let reason := if existsb (starts_tool_use B) before then "tool_calls" else "stop" in
  let chunk := finish_chunk now (model_name_of payload) reason in
  yielded (stream_with_ui B request_id payload (Responded r)) = out ++ [SseData chunk; SseDone]
  /\ finish_reason_of chunk = VStr reason.
Proof.
  intros Hs Hc Hb Hl Hj Ht reason chunk. split; [| apply finish_chunk_reason].
  exact (stream_to_message_stop _ _ _ _ _ _ _ _ _ _ Hs Hc Hb
           (decode_message_stop _ _ Hl Hj Ht)).
Qed.

(** C2.  On a 200 response whose lines are consumed up to a [message_stop]
    event, the sentinel [SseDone] is yielded exactly once, as the last item. *)
Theorem done_sentinel_once_and_last
    (request_id : option string) (payload : dict) (r : response)
    (before after : list arrival) (now : Z) (line : string) (d : dict)
    (s : stream_state) (out : list sse_item) (logs : list log_record) :
  status r = 200 ->
  content r = before ++ Line now line :: after ->
  consume B (model_name_of payload) initial_state before = (Exhausted s, out, logs) ->
  is_data_line line = true ->
  json_loads B (drop 6 line) = inr (VDict d) ->
  lookup "type" d = Some (VStr "message_stop") ->
  let items := yielded (stream_with_ui B request_id payload (Responded r)) in
  (exists earlier, items = earlier ++ [SseDone]) /\
  filter is_done items = [SseDone].
Proof.
  intros Hs Hc Hb Hl Hj Ht items.
  pose proof (decode_message_stop _ _ Hl Hj Ht) as Hd.
  assert (E : items =
              (out ++ [SseData (finish_chunk now (model_name_of payload)
                                  (if existsb (starts_tool_use B) before
                                   then "tool_calls" else "stop"))]) ++ [SseDone]).
  { unfold items.
    rewrite (stream_to_message_stop _ _ _ _ _ _ _ _ _ _ Hs Hc Hb Hd), <- app_assoc.
    reflexivity. }
  split; [eexists; exact E |].
  rewrite E, !filter_app.
  destruct (consume_exhausted _ _ _ _ _ _ Hb) as [_ ->]. reflexivity.
Qed.

Lemma consume_app_inv (model_name : value) (xs ys : list arrival) :
  forall (s s' : stream_state) (out : list sse_item) (logs : list log_record),
    consume B model_name s (xs ++ ys) = (Exhausted s', out, logs) ->
    exists s1 out1 logs1 out2 logs2,
      consume B model_name s xs = (Exhausted s1, out1, logs1) /\
      consume B model_name s1 ys = (Exhausted s', out2, logs2) /\
      out = out1 ++ out2 /\ logs = logs1 ++ logs2.
Proof.
  induction xs as [| a xs IH]; intros s s' out logs H.
  - exists s, [], [], out, logs. auto.
  - simpl app in H.
    destruct (consume_cons_exhausted _ _ _ _ _ _ _ H)
      as (now & line & s1 & o1 & l1 & o2 & l2 & -> & Hr & Hc & -> & ->).
    destruct (IH _ _ _ _ Hc) as (s2 & o3 & l3 & o4 & l4 & Hx & Hy & -> & ->).
    exists s2, (o1 ++ o3), (l1 ++ l3), o4, l4.
    rewrite consume_line, Hr, Hx, !app_assoc. auto.
Qed.

Lemma about_content_chunk (now : Z) (model_name content : value) :
  about_tool_call (SseData (content_chunk now model_name content)) = false.
Proof.
  unfold content_chunk, create_openai_tool_call_chunk.
  destruct (truthy content); reflexivity.
Qed.

Lemma about_reasoning_chunk (now : Z) (model_name thinking : value) :
  about_tool_call (SseData (reasoning_chunk now model_name thinking)) = false.
Proof. reflexivity. Qed.

Lemma about_initial_tool_chunk (now : Z) (model_name : value) (t : tool_use) :
  about_tool_call (SseData (initial_tool_chunk now model_name t)) = true.
Proof. reflexivity. Qed.

Lemma about_argument_chunk (now : Z) (model_name : value) (index : Z) (fragment : value) :
  about_tool_call (SseData (argument_chunk now model_name index fragment)) = true.
Proof. reflexivity. Qed.

Lemma about_finish_chunk (now : Z) (model_name : value) (reason : string) :
  about_tool_call (SseData (finish_chunk now model_name reason)) = true.
Proof. reflexivity. Qed.

Local Arguments about_tool_call : simpl never.

Ltac sift :=
  cbn [filter app map];
  rewrite ?about_content_chunk, ?about_reasoning_chunk, ?about_initial_tool_chunk,
    ?about_argument_chunk, ?about_finish_chunk;
  cbn [filter app map].

(** While no tool call is open and none starts, no chunk about a tool call
    is yielded and the ordinal stays. *)
Lemma idle_run (model_name : value) (xs : list arrival) :
  forall (s s' : stream_state) (out : list sse_item) (logs : list log_record),
    current_tool_use s = None ->
    existsb (starts_tool_use B) xs = false ->
    consume B model_name s xs = (Exhausted s', out, logs) ->
    filter about_tool_call out = [] /\
    current_tool_use s' = None /\ tool_call_index s' = tool_call_index s.
Proof.
  induction xs as [| a xs IH]; intros s s' out logs Hidle Hno H.
  - simpl in H. injection H as <- <- <-. auto.
  - destruct (consume_cons_exhausted _ _ _ _ _ _ _ H)
      as (now & line & s1 & o1 & l1 & o2 & l2 & -> & Hr & Hc & -> & ->).
    cbn [existsb] in Hno. apply orb_false_iff in Hno. destruct Hno as [Hno1 Hno].
    assert (Hstep : filter about_tool_call o1 = [] /\ s1 = s).
    { unfold starts_tool_use in Hno1. revert Hr Hno1.
      destruct (decode B line) as [| | e | ev]; simpl; try discriminate;
        try (intros Hr _; injection Hr as <- <- <-; solve [auto]).
      destruct ev as [bt cb | bt | txt | pj | th | ix ti | | | |]; simpl;
        unfold on_content_block_stop, on_message_stop; rewrite ?Hidle;
        try discriminate;
        try (destruct (truthy txt)); try (destruct (truthy pj));
        try (destruct (truthy th));
        intros Hr _; injection Hr as <- <- <-; sift; auto. }
    destruct Hstep as [Ho ->].
    destruct (IH _ _ _ _ Hidle Hno Hc) as (Ho' & Hi & Hx).
    rewrite filter_app, Ho, Ho'. auto.
Qed.

(** While a tool call is open and no other starts, the chunks about tool
    calls are the argument chunks of the fragments, in order. *)
Lemma active_run (model_name : value) (xs : list arrival) :
  forall (s s' : stream_state) (t : tool_use) (out : list sse_item)
         (logs : list log_record),
    current_tool_use s = Some t ->
    existsb (starts_tool_use B) xs = false ->
    consume B model_name s xs = (Exhausted s', out, logs) ->
    filter about_tool_call out =
    map (fun p => SseData (argument_chunk (fst p) model_name (tu_index t) (VStr (snd p))))
        (fragments B xs).
Proof.
  induction xs as [| a xs IH]; intros s s' t out logs Hopen Hno H.
  - simpl in H. injection H as <- <- <-. reflexivity.
  - destruct (consume_cons_exhausted _ _ _ _ _ _ _ H)
      as (now & line & s1 & o1 & l1 & o2 & l2 & -> & Hr & Hc & -> & ->).
    cbn [existsb] in Hno. apply orb_false_iff in Hno. destruct Hno as [Hno1 Hno].
    rewrite filter_app. cbn [fragments].
    unfold starts_tool_use in Hno1. revert Hr Hno1.
    destruct (decode B line) as [| | e | ev]; simpl; try discriminate;
      try (intros Hr _; injection Hr as <- <- <-; sift; solve [eauto]).
    destruct ev as [bt cb | bt | txt | pj | th | ix ti | | | |]; simpl;
      unfold on_content_block_stop, on_message_stop; rewrite ?Hopen;
      try discriminate.
    + intros Hr _; injection Hr as <- <- <-; sift; eauto.
    + destruct (truthy txt); intros Hr _; injection Hr as <- <- <-; sift; eauto.
    + destruct pj as [| b | n | x | f | l | kvs]; simpl;
        try (destruct b); try (destruct (n =? 0)); try (destruct x);
        try (destruct l); try (destruct kvs); try (destruct (f =? "")%string);
        simpl; try discriminate;
        intros Hr _; injection Hr as <- <- <-; sift; try solve [eauto].
      f_equal. refine (IH _ _ _ _ _ _ Hno Hc). reflexivity.
    + destruct (truthy th); intros Hr _; injection Hr as <- <- <-; sift; eauto.
    + intros Hr _; injection Hr as <- <- <-; sift; eauto.
    + intros Hr _; injection Hr as <- <- <-; sift; eauto.
    + intros Hr _. injection Hr as <- <- <-. sift.
      refine (proj1 (idle_run _ _ _ _ _ _ _ Hno Hc)). reflexivity.
    + intros Hr _; injection Hr as <- <- <-; sift; eauto.
Qed.

(** A line whose JSON opens a [tool_use] content block is the
    [ToolUseStart] event. *)
Lemma decode_tool_use_start (line : string) (d cb : dict) :
  is_data_line line = true ->
  json_loads B (drop 6 line) = inr (VDict d) ->
  lookup "type" d = Some (VStr "content_block_start") ->
  lookup "content_block" d = Some (VDict cb) ->
  lookup "type" cb = Some (VStr "tool_use") ->
  decode B line = Event (ToolUseStart (VStr "tool_use") cb).
Proof.
  intros Hl Hj Ht Hc Hb. unfold decode. rewrite Hl, Hj.
  unfold classify. simpl. rewrite Ht. simpl. rewrite Hc. simpl. rewrite Hb. reflexivity.
Qed.

(** C3.  On a 200 response whose lines are consumed up to a [message_stop]
    event and in which exactly one line opens a [tool_use] block, the chunks
    about tool calls are: one initial chunk with the block's id and name and
    empty arguments, then one chunk per non-empty [partial_json] fragment
    received while the block is open, carrying the fragment as it came,
    then the finish chunk with reason ["tool_calls"], which only the
    sentinel follows.  Read as a client reads them, the [tool_calls] of
    these chunks are: one entry with index 0, the id and the name of the
    block, type [function] and the arguments [""]; then for each fragment
    one entry with index 0 and the fragment as its arguments; the finish
    chunk has none, and it alone has a finish reason, ["tool_calls"]. *)
Theorem single_tool_call_chunks
    (request_id : option string) (payload : dict) (r : response)
    (before middle after : list arrival) (now0 now1 : Z) (line0 line1 : string)
    (d0 cb d1 : dict) (s : stream_state) (out : list sse_item) (logs : list log_record) :
  status r = 200 ->
  content r = before ++ Line now0 line0 :: middle ++ Line now1 line1 :: after ->
  is_data_line line0 = true ->
  json_loads B (drop 6 line0) = inr (VDict d0) ->
  lookup "type" d0 = Some (VStr "content_block_start") ->
  lookup "content_block" d0 = Some (VDict cb) ->
  lookup "type" cb = Some (VStr "tool_use") ->
  existsb (starts_tool_use B) before = false ->
  existsb (starts_tool_use B) middle = false ->
  is_data_line line1 = true ->
  json_loads B (drop 6 line1) = inr (VDict d1) ->
  lookup "type" d1 = Some (VStr "message_stop") ->
  consume B (model_name_of payload) initial_state (before ++ Line now0 line0 :: middle)
    = (Exhausted s, out, logs) ->
  let model_name := model_name_of payload in
  let t := {| tu_id := get_or cb "id" (VStr "call_0");
              tu_name := get_or cb "name" (VStr "");
              tu_index := 0 |} in
  let finish := SseData (finish_chunk now1 model_name "tool_calls") in
  let items := yielded (stream_with_ui B request_id payload (Responded r)) in
  filter about_tool_call items =
    SseData (initial_tool_chunk now0 model_name t)
    :: map (fun p => SseData (argument_chunk (fst p) model_name 0 (VStr (snd p))))
           (fragments B middle)
    ++ [finish]
  /\ (exists earlier, items = earlier ++ [finish; SseDone])
  /\ map tool_calls_of (filter about_tool_call items) =
       Some (VList [VDict [("index", VInt 0);
                           ("id", get_or cb "id" (VStr "call_0"));
                           ("type", VStr "function");
                           ("function", VDict [("name", get_or cb "name" (VStr ""));
                                               ("arguments", VStr "")])]])
       :: map (fun p => Some (VList [VDict [("index", VInt 0);
                                            ("function",
                                             VDict [("arguments", VStr (snd p))])]]))
              (fragments B middle)
       ++ [None]
  /\ map finish_reason_in (filter about_tool_call items) =
       VNone :: map (fun _ => VNone) (fragments B middle) ++ [VStr "tool_calls"].
Proof.
  intros Hs Hc Hl0 Hj0 Ht0 Hcb Hbt Hnb Hnm Hl1 Hj1 Ht1 Hrun model_name t finish items.
  pose proof (decode_tool_use_start _ _ _ Hl0 Hj0 Ht0 Hcb Hbt) as Hd0.
  pose proof (decode_message_stop _ _ Hl1 Hj1 Ht1) as Hd1.
  assert (Hany : existsb (starts_tool_use B) (before ++ Line now0 line0 :: middle) = true).
  { rewrite existsb_app. cbn [existsb]. unfold starts_tool_use at 2. rewrite Hd0.
    rewrite orb_true_r. reflexivity. }
  assert (E : items = out ++ [finish; SseDone]).
  { unfold items.
    replace (before ++ Line now0 line0 :: middle ++ Line now1 line1 :: after)
      with ((before ++ Line now0 line0 :: middle) ++ Line now1 line1 :: after) in Hc
      by (rewrite <- app_assoc; reflexivity).
    rewrite (stream_to_message_stop _ _ _ _ _ _ _ _ _ _ Hs Hc Hrun Hd1), Hany.
    reflexivity. }
  assert (F : filter about_tool_call items =
              SseData (initial_tool_chunk now0 model_name t)
              :: map (fun p => SseData (argument_chunk (fst p) model_name 0 (VStr (snd p))))
                     (fragments B middle)
              ++ [finish]).
  { rewrite E, filter_app.
    destruct (consume_app_inv _ _ _ _ _ _ _ Hrun)
      as (sb & ob & lb & om & lm & Hb & Hm & -> & ->).
    destruct (idle_run _ _ initial_state _ _ _ eq_refl Hnb Hb) as (Fb & Ib & Xb).
    destruct (consume_cons_exhausted _ _ _ _ _ _ _ Hm)
      as (n & l & s1 & o1 & l1 & o2 & l2 & Ea & Hr & Hc2 & -> & ->).
    injection Ea as <- <-. rewrite Hd0 in Hr. simpl in Hr. rewrite Xb in Hr. simpl in Hr.
    injection Hr as <- <- <-.
    rewrite !filter_app, Fb.
    pose proof (fun t0 (H0 : current_tool_use _ = Some t0) =>
                  active_run _ _ _ _ t0 _ _ H0 Hnm Hc2) as Fm.
    rewrite (Fm _ eq_refl). reflexivity. }
  split; [exact F |]. split; [eexists; exact E |].
  rewrite F. cbn [map]. rewrite !map_app, !map_map. split; reflexivity.
Qed.

(** X1.  On a 200 response whose lines before a [message_stop] event are all
    passable, the sentinel [SseDone] is yielded exactly once, as the last
    item: no condition on how the run goes is needed. *)
Theorem passable_stream_ends_with_done
    (request_id : option string) (payload : dict) (r : response)
    (before after : list arrival) (now : Z) (line : string) (d : dict) :
  status r = 200 ->
  content r = before ++ Line now line :: after ->
  forallb (passable B) before = true ->
  is_data_line line = true ->
  json_loads B (drop 6 line) = inr (VDict d) ->
  lookup "type" d = Some (VStr "message_stop") ->
  let items := yielded (stream_with_ui B request_id payload (Responded r)) in
  (exists earlier, items = earlier ++ [SseDone]) /\
  filter is_done items = [SseDone].
Proof.
  intros Hs Hc Hp Hl Hj Ht items.
  destruct (passable_run (model_name_of payload) _ Hp initial_state)
    as (s & out & logs & Hb).
  pose proof (stream_to_message_stop request_id _ _ _ _ _ _ _ _ _ Hs Hc Hb
                (decode_message_stop _ _ Hl Hj Ht)) as E.
  fold items in E. rewrite E. split.
  - eexists (out ++ [_]). rewrite <- app_assoc. reflexivity.
  - rewrite filter_app. destruct (consume_exhausted _ _ _ _ _ _ Hb) as [_ ->].
    reflexivity.
Qed.

(** A response whose status is not 200 yields one error line, with the
    status and the body text, and nothing else; nothing is logged. *)
Theorem non_200_yields_one_error
    (request_id : option string) (payload : dict) (r : response) :
  status r <> 200 ->
  yielded (stream_with_ui B request_id payload (Responded r)) =
    [SseError (HttpError (status r) (text r))
       (request_id_suffix (headers r "x-request-id"))] /\
  logged (stream_with_ui B request_id payload (Responded r)) = [].
Proof.
  intros Hs. unfold stream_with_ui. apply Z.eqb_neq in Hs. rewrite Hs. simpl. auto.
Qed.

(** X3.  A body that ends without a [message_stop] event never gets the
    sentinel: the generator just ends. *)
Theorem no_message_stop_no_done
    (request_id : option string) (payload : dict) (r : response) :
  existsb (is_message_stop B) (content r) = false ->
  filter is_done (yielded (stream_with_ui B request_id payload (Responded r))) = [].
Proof.
  intros Hno. unfold stream_with_ui.
  destruct (negb (status r =? 200)); [reflexivity |].
  destruct (consume B (model_name_of payload) initial_state (content r))
    as [[fin out] logs] eqn:Hc.
  destruct (consume_no_stop _ _ Hno _ _ _ _ Hc) as [_ Ho].
  simpl. rewrite filter_app, Ho.
  destruct fin as [s | | e]; try reflexivity.
  destruct e; reflexivity.
Qed.

(** Dropping a line that every state passes over leaves the run's end and
    its yields as they are. *)
Lemma consume_without (model_name : value) (now : Z) (line : string)
    (after : list arrival) :
  (forall s, exists logs,
      react B model_name s now (decode B line) = inr (Continue s, [], logs)) ->
  forall (before : list arrival) (s : stream_state),
    fst (consume B model_name s (before ++ Line now line :: after)) =
    fst (consume B model_name s (before ++ after)).
Proof.
  intros Hskip. induction before as [| a before IH]; intros s.
  - simpl app. rewrite consume_line. destruct (Hskip s) as [logs ->].
    destruct (consume B model_name s after) as [[fin o] l]. reflexivity.
  - destruct a as [t l | e]; [| reflexivity].
    simpl app. rewrite !consume_line.
    destruct (react B model_name s t (decode B l)) as [e | [[c o1] l1]]; [reflexivity |].
    destruct c as [s1 |]; [| reflexivity].
    specialize (IH s1).
    destruct (consume B model_name s1 (before ++ Line now line :: after)) as [[f1 o2] l2].
    destruct (consume B model_name s1 (before ++ after)) as [[f1' o2'] l2'].
    simpl in IH. injection IH as -> ->. reflexivity.
Qed.

Lemma stream_without (request_id : option string) (payload : dict) (now : Z)
    (line : string) (st : Z) (hs : string -> option string) (tx : string)
    (before after : list arrival) :
  (forall s, exists logs,
      react B (model_name_of payload) s now (decode B line) = inr (Continue s, [], logs)) ->
  yielded (stream_with_ui B request_id payload
             (Responded {| status := st; headers := hs; text := tx;
                           content := before ++ Line now line :: after |})) =
  yielded (stream_with_ui B request_id payload
             (Responded {| status := st; headers := hs; text := tx;
                           content := before ++ after |})).
Proof.
  intros Hskip. unfold stream_with_ui. simpl.
  destruct (negb (st =? 200)); [reflexivity |].
  pose proof (consume_without _ _ _ after Hskip before initial_state) as E.
  destruct (consume B (model_name_of payload) initial_state
              (before ++ Line now line :: after)) as [[f1 o1] l1].
  destruct (consume B (model_name_of payload) initial_state (before ++ after))
    as [[f2 o2] l2].
  simpl in E. injection E as -> ->. reflexivity.
Qed.

(** X28.  A [data: ] line whose payload [json.loads] rejects with a
    [JSONDecodeError] is logged and passed over: the turn yields nothing and
    leaves the state as it was, and the stream yields what it would yield
    without the line. *)
Theorem malformed_line_is_skipped
    (model_name : value) (s : stream_state) (now : Z) (line : string) :
  is_data_line line = true ->
  json_loads B (drop 6 line) = inl JSONDecodeError ->
  handle_line B model_name s now line = ok (Continue s, [], [LogParseFailure]) /\
  forall (request_id : option string) (payload : dict) (st : Z)
         (hs : string -> option string) (tx : string) (before after : list arrival),
    yielded (stream_with_ui B request_id payload
               (Responded {| status := st; headers := hs; text := tx;
                             content := before ++ Line now line :: after |})) =
    yielded (stream_with_ui B request_id payload
               (Responded {| status := st; headers := hs; text := tx;
                             content := before ++ after |})).
Proof.
  intros Hl Hj.
  assert (Hd : decode B line = Malformed) by (unfold decode; rewrite Hl, Hj; reflexivity).
  split.
  - rewrite handle_line_decode, Hd. reflexivity.
  - intros. apply stream_without. intros s0. rewrite Hd. simpl. eauto.
Qed.

(** C8.  A [data: ] line whose payload makes [json.loads] raise anything
    but a [JSONDecodeError] is not passed over.  Bytes that are no UTF-8 are
    such a payload: [json.loads] raises a [UnicodeDecodeError] on them, which
    the handler of line 657 does not catch.  The turn raises, nothing is
    logged for the line, the stream yields what the earlier lines gave and
    then one error text, and the lines after it are not read. *)
Theorem undecodable_line_ends_stream
    (request_id : option string) (payload : dict) (r : response)
    (before after : list arrival) (now : Z) (line : string) (e : exn)
    (s : stream_state) (out : list sse_item) (logs : list log_record) :
  status r = 200 ->
  content r = before ++ Line now line :: after ->
  consume B (model_name_of payload) initial_state before = (Exhausted s, out, logs) ->
  is_data_line line = true ->
  json_loads B (drop 6 line) = inl e ->
  e <> JSONDecodeError ->
  let run := stream_with_ui B request_id payload (Responded r) in
  handle_line B (model_name_of payload) s now line = raise e /\
  yielded run = out ++ [stream_failure e (headers r "x-request-id")] /\
  logged run = logs.
Proof.
  intros Hst Hcontent Hc Hline Hjson He run.
  assert (Hd : decode B line = Raising e).
  { unfold decode. rewrite Hline, Hjson. destruct e; try reflexivity. contradiction. }
  split; [rewrite handle_line_decode, Hd; reflexivity |].
  subst run. unfold stream_with_ui. rewrite Hst. cbn [Z.eqb Pos.eqb negb].
  rewrite Hcontent, (consume_app _ _ _ _ _ _ _ Hc), consume_line, Hd.
  cbn [react raise yielded logged]. rewrite !app_nil_r. split; reflexivity.
Qed.

(** C9.  A [citations_delta] whose citation is a non-empty object yields one
    content chunk and leaves the state as it was.  The chunk's content is a
    space followed by the bracketed marker: [[index: title]] when the
    citation's [document_title] is truthy, [[index]] when it is not. *)
Theorem citation_marker_chunk
    (model_name : value) (s : stream_state) (now : Z) (line : string)
    (d delta citation : dict) :
  is_data_line line = true ->
  json_loads B (drop 6 line) = inr (VDict d) ->
  lookup "type" d = Some (VStr "content_block_delta") ->
  lookup "delta" d = Some (VDict delta) ->
  lookup "type" delta = Some (VStr "citations_delta") ->
  lookup "citation" delta = Some (VDict citation) ->
  citation <> [] ->
  let doc_index := get_or citation "document_index" (VInt 0) in
  let doc_title := get_or citation "document_title" (VStr "") in
  let marker :=
    (if truthy doc_title
     then "[" ++ py_str B doc_index ++ ": " ++ py_str B doc_title ++ "]"
     else "[" ++ py_str B doc_index ++ "]")%string in
  let chunk := content_chunk now model_name (VStr (" " ++ marker)) in
  handle_line B model_name s now line = ok (Continue s, [SseData chunk], []) /\
  delta_of chunk = [("content", VStr (" " ++ marker))].
Proof.
  intros Hl Hj Ht Hd Hdt Hc Hne doc_index doc_title marker chunk.
  assert (E : decode B line = Event (CitationsDelta doc_index doc_title)).
  { unfold decode. rewrite Hl, Hj. unfold classify. simpl. rewrite Ht. simpl.
    rewrite Hd. simpl. rewrite Hdt. simpl. rewrite Hc.
    destruct citation as [| kv rest]; [contradiction |].
    rewrite bind_ok. cbn [truthy]. rewrite !get_dict, !bind_ok. reflexivity. }
  assert (M : cite_text B doc_index doc_title = (" " ++ marker)%string).
  { unfold cite_text, marker. destruct (truthy doc_title); reflexivity. }
  split.
  - rewrite handle_line_decode, E. simpl. rewrite M. reflexivity.
  - reflexivity.
Qed.

(** C10.  An [input_json_delta] that arrives while [current_tool_use] is
    [None], or whose [partial_json] is the empty string, yields nothing and
    changes nothing: the fragment is neither forwarded nor appended to
    [tool_use_input_json]. *)
Theorem stray_json_delta_is_dropped
    (model_name : value) (s : stream_state) (now : Z) (line : string)
    (d delta : dict) :
  is_data_line line = true ->
  json_loads B (drop 6 line) = inr (VDict d) ->
  lookup "type" d = Some (VStr "content_block_delta") ->
  lookup "delta" d = Some (VDict delta) ->
  lookup "type" delta = Some (VStr "input_json_delta") ->
  current_tool_use s = None \/ get_or delta "partial_json" (VStr "") = VStr "" ->
  handle_line B model_name s now line = ok (Continue s, [], []).
Proof.
  intros Hl Hj Ht Hd Hdt Hcase.
  assert (E : decode B line =
              Event (InputJsonDelta (get_or delta "partial_json" (VStr "")))).
  { unfold decode. rewrite Hl, Hj. unfold classify. simpl. rewrite Ht. simpl.
    unfold get_or at 1. rewrite Hd. simpl. rewrite Hdt. simpl.
    unfold get_or. destruct (lookup "partial_json" delta); reflexivity. }
  rewrite handle_line_decode, E. simpl.
  destruct Hcase as [-> | ->]; [| reflexivity].
  destruct (truthy _); reflexivity.
Qed.

(** A [content_block_stop] that arrives while a tool call is open
    closes it: the state is idle again, the fragments gathered are dropped
    and the ordinal of the next tool call is one more; nothing is yielded. *)
Theorem block_stop_closes_tool_call
    (model_name : value) (s : stream_state) (now : Z) (line : string)
    (d : dict) (t : tool_use) :
  is_data_line line = true ->
  json_loads B (drop 6 line) = inr (VDict d) ->
  lookup "type" d = Some (VStr "content_block_stop") ->
  current_tool_use s = Some t ->
  handle_line B model_name s now line =
    ok (Continue {| current_tool_use := None;
                    tool_use_input_json := "";
                    tool_call_index := tool_call_index s + 1;
                    has_tool_calls := has_tool_calls s |}, [], []).
Proof.
  intros Hl Hj Ht Hopen.
  assert (E : decode B line = Event BlockStop).
  { unfold decode. rewrite Hl, Hj. unfold classify. simpl. rewrite Ht. reflexivity. }
  rewrite handle_line_decode, E. simpl. unfold on_content_block_stop.
  rewrite Hopen. reflexivity.
Qed.

(** A [thinking_delta] with a truthy text yields one chunk whose delta
    has the text under [reasoning_content] and nothing under [content]; the
    state is unchanged. *)
Theorem thinking_delta_is_reasoning_content
    (model_name : value) (s : stream_state) (now : Z) (line : string)
    (d delta : dict) (thinking : value) :
  is_data_line line = true ->
  json_loads B (drop 6 line) = inr (VDict d) ->
  lookup "type" d = Some (VStr "content_block_delta") ->
  lookup "delta" d = Some (VDict delta) ->
  lookup "type" delta = Some (VStr "thinking_delta") ->
  lookup "thinking" delta = Some thinking ->
  truthy thinking = true ->
  let chunk := reasoning_chunk now model_name thinking in
  handle_line B model_name s now line = ok (Continue s, [SseData chunk], []) /\
  delta_of chunk = [("reasoning_content", thinking)].
Proof.
  intros Hl Hj Ht Hd Hdt Hth Htr chunk.
  assert (E : decode B line = Event (ThinkingDelta thinking)).
  { unfold decode. rewrite Hl, Hj. unfold classify. simpl. rewrite Ht. simpl.
    rewrite Hd. simpl. rewrite Hdt. simpl. rewrite Hth. reflexivity. }
  split; [| reflexivity].
  rewrite handle_line_decode, E. simpl. rewrite Htr. reflexivity.
Qed.

End TranslatorFacts.

Section RetryFacts.

Context (B : Builtins).

Lemma attempts_posts (server : nat -> post_outcome) (left : nat) :
  forall (k : nat) (request_id : option string),
    (posts (effects (attempts B server left k request_id)) <= left)%nat.
Proof.
  induction left as [| left IH]; intros k request_id; simpl.
  - apply Nat.le_refl.
  - destruct (server k) as [r | e].
    + destruct (status r =? 429).
      * destruct (retry_after B r k) as [e | seconds]; simpl.
        -- destruct e; unfold posts; simpl; lia.
        -- specialize (IH (S k) (headers r "x-request-id")). unfold posts in *.
           simpl. lia.
      * unfold posts. simpl. lia.
    + destruct e; unfold posts; simpl; lia.
Qed.

(** Attempts answered 429 are passed one by one, each leaving a POST, a
    warning and a sleep. *)
Lemma attempts_backoff (server : nat -> post_outcome) (delays : nat -> Z) (n : nat) :
  forall (left k : nat) (request_id : option string),
    (forall i, (i < n)%nat ->
       exists r, server (k + i)%nat = Responded r /\ status r = 429
                 /\ retry_after B r (k + i) = ok (delays (k + i)%nat)) ->
    exists request_id',
      returned (attempts B server (n + left) k request_id) =
        returned (attempts B server left (k + n) request_id') /\
      effects (attempts B server (n + left) k request_id) =
        backoff delays k n ++ effects (attempts B server left (k + n) request_id').
Proof.
  induction n as [| n IH]; intros left k request_id H.
  - exists request_id. rewrite Nat.add_0_r. auto.
  - destruct (H 0%nat) as (r & Hr & Hs & Hd); [lia |].
    rewrite Nat.add_0_r in Hr, Hd.
    destruct (IH left (S k) (headers r "x-request-id")) as (rid' & E1 & E2).
    { intros i Hi. destruct (H (S i)) as (r' & A1 & A2 & A3); [lia |].
      rewrite <- Nat.add_succ_comm in A1, A3. eauto. }
    exists rid'. rewrite <- Nat.add_succ_comm.
    cbn [Nat.add attempts]. rewrite Hr, Hs, Hd. cbn [Z.eqb Pos.eqb returned effects].
    rewrite E1, E2. unfold backoff. cbn [seq flat_map app]. auto.
Qed.

(** X27.  [_send_request] posts at most three times.  After [n] attempts
    answered 429 whose [retry-after] header is absent or read by [int()],
    each followed by a sleep of the header's number when the header is
    there and of [base_delay * 2^attempt] seconds when it is not: a response
    that is no 429 is returned at once; an exception of the POST propagates
    at once; and when [n] is 3 the synthetic response with [status_code] 429
    and text ["Max retries exceeded"] is returned, with no further POST. *)
Theorem send_request_retry_contract
    (server : nat -> post_outcome) (request_id : option string) :
  let run := send_request B server request_id in
  (posts (effects run) <= 3)%nat /\
  (forall (r : response) (i : nat),
     (forall h, headers r "retry-after" = Some h -> retry_after B r i = int_of_str B h) /\
     (headers r "retry-after" = None ->
      retry_after B r i = ok (base_delay * 2 ^ Z.of_nat i))) /\
  (forall (delays : nat -> Z) (n : nat),
     rate_limited B server delays n ->
     ((n < 3)%nat ->
        (forall r, server n = Responded r -> status r <> 429 ->
           returned run = ok (wrap B r) /\
           effects run = backoff delays 0 n ++ [Posted]) /\
        (forall e, server n = PostRaises e ->
           returned run = raise e /\
           effects run = backoff delays 0 n ++ Posted :: caught_client_error e)) /\
     (n = 3%nat ->
        returned run = ok max_retries_exceeded /\
        status_code max_retries_exceeded = 429 /\
        wrapped_text max_retries_exceeded = "Max retries exceeded" /\
        effects run = backoff delays 0 3 ++ [Logged LogMaxRetries] /\
        posts (effects run) = 3%nat)).
Proof.
  intros run. subst run. unfold send_request, max_retries.
  split; [apply attempts_posts |]. split.
  { intros r i. unfold retry_after. split.
    - intros h ->. reflexivity.
    - intros ->. reflexivity. }
  intros delays n Hl. split.
  - intros Hn.
    destruct (attempts_backoff server delays n (3 - n) 0 request_id Hl)
      as (rid' & E1 & E2).
    replace (n + (3 - n))%nat with 3%nat in * by lia.
    destruct (3 - n)%nat as [| left] eqn:El; [lia |].
    cbn [Nat.add] in E1, E2. split.
    + intros r Hr Hs. rewrite E1, E2. cbn [attempts]. rewrite Hr.
      apply Z.eqb_neq in Hs. rewrite Hs. auto.
    + intros e He. rewrite E1, E2. cbn [attempts]. rewrite He. auto.
  - intros ->.
    destruct (attempts_backoff server delays 3 0 0 request_id Hl) as (rid' & E1 & E2).
    cbn [Nat.add] in E1, E2.
    rewrite E1, E2. cbn [attempts returned effects]. repeat split; reflexivity.
Qed.

(** C4.  A 429 whose [retry-after] header [int()] rejects, an HTTP date
    for one, ends [_send_request]: the exception of line 871 is raised after
    the POST of that attempt, with no sleep and no further attempt, and no
    synthetic response is returned; it is logged only if it is an
    [aiohttp.ClientError], which a [ValueError] is not. *)
Theorem unreadable_retry_after_raises
    (server : nat -> post_outcome) (request_id : option string)
    (delays : nat -> Z) (n : nat) (r : response) (h : string) (e : exn) :
  rate_limited B server delays n ->
  (n < 3)%nat ->
  server n = Responded r ->
  status r = 429 ->
  headers r "retry-after" = Some h ->
  int_of_str B h = inl e ->
  let run := send_request B server request_id in
  returned run = raise e /\
  effects run = backoff delays 0 n ++ Posted :: caught_client_error e.
Proof.
  intros Hl Hn Hr Hs Hh He run. subst run. unfold send_request, max_retries.
  destruct (attempts_backoff server delays n (3 - n) 0 request_id Hl)
    as (rid' & E1 & E2).
  replace (n + (3 - n))%nat with 3%nat in * by lia.
  destruct (3 - n)%nat as [| left] eqn:El; [lia |].
  cbn [Nat.add] in E1, E2. rewrite E1, E2. cbn [attempts]. rewrite Hr, Hs.
  cbn [Z.eqb Pos.eqb]. unfold retry_after. rewrite Hh, He. split; reflexivity.
Qed.

End RetryFacts.

Section BuilderFacts.

Context (B : Builtins).

Lemma lookup_dict_set_same (k : string) (v : value) (d : dict) :
  lookup k (dict_set k v d) = Some v.
Proof.
  induction d as [| [k' v'] d IH]; simpl.
  - rewrite String.eqb_refl. reflexivity.
  - destruct (k' =? k)%string eqn:E; simpl.
    + rewrite String.eqb_refl. reflexivity.
    + rewrite E. exact IH.
Qed.

Lemma lookup_dict_set_other (k k' : string) (v : value) (d : dict) :
  (k' =? k)%string = false ->
  lookup k (dict_set k' v d) = lookup k d.
Proof.
  intros Hk. induction d as [| [k0 v0] d IH]; simpl.
  - rewrite Hk. reflexivity.
  - destruct (k0 =? k')%string eqn:E; simpl.
    + apply String.eqb_eq in E. subst k0. rewrite Hk. reflexivity.
    + rewrite IH. reflexivity.
Qed.

Lemma add_system_keeps (k : string) (system_message : value) (payload : dict) :
  settled k -> lookup k (add_system B system_message payload) = lookup k payload.
Proof.
  intros Hk. unfold add_system. destruct (truthy system_message); [| reflexivity].
  apply lookup_dict_set_other, Hk. simpl. tauto.
Qed.

Lemma add_tools_keeps (k : string) (body payload payload' : dict) :
  settled k -> add_tools body payload = inr payload' ->
  lookup k payload' = lookup k payload.
Proof.
  intros Hk. unfold add_tools. destruct (lookup "tools" body) as [tools |].
  - destruct (convert_openai_tools_to_anthropic tools) as [e | ts]; [discriminate |].
    rewrite bind_ok.
    destruct (convert_tool_choice _) as [e | choice]; [discriminate |].
    rewrite bind_ok. intros H. injection H as <-.
    destruct choice as [c |];
      rewrite ?lookup_dict_set_other by (apply Hk; simpl; tauto); reflexivity.
  - intros H. injection H as <-. reflexivity.
Qed.

Lemma add_response_format_keeps (k : string) (body payload payload' : dict) :
  settled k -> add_response_format body payload = inr payload' ->
  lookup k payload' = lookup k payload.
Proof.
  intros Hk. unfold add_response_format.
  destruct (lookup "response_format" body) as [rf |].
  - destruct (get rf "type" VNone) as [e | ft]; [discriminate |].
    rewrite bind_ok. intros H. injection H as <-.
    apply lookup_dict_set_other, Hk. simpl. tauto.
  - intros H. injection H as <-. reflexivity.
Qed.

Lemma add_thinking_keeps (k : string) (valves : Valves) (thinking : bool) (payload : dict) :
  settled k -> lookup k (add_thinking valves thinking payload) = lookup k payload.
Proof.
  intros Hk. unfold add_thinking. destruct thinking; [| reflexivity].
  apply lookup_dict_set_other, Hk. simpl. tauto.
Qed.

Lemma settled_model : settled "model".
Proof. intros k' H. simpl in H. decompose [or] H; subst; try reflexivity; contradiction. Qed.

Lemma settled_max_tokens : settled "max_tokens".
Proof. intros k' H. simpl in H. decompose [or] H; subst; try reflexivity; contradiction. Qed.

Lemma min_with_limit_not_none (requested : value) (limit : Z) (v : value) :
  min_with_limit requested limit = inr v -> is_none v = false.
Proof.
  destruct requested; simpl; try discriminate; intros H; injection H as <-.
  - destruct (limit <? _); reflexivity.
  - destruct (limit <? n); reflexivity.
  - destruct (int_lt_float limit x); reflexivity.
Qed.

Lemma initial_payload_fields (body : dict) (messages : value) (model_name : string)
    (payload : dict) :
  initial_payload B body messages model_name = inr payload ->
  lookup "model" payload = Some (VStr model_name) /\
  exists max_tokens,
    min_with_limit (get_or body "max_tokens" (VInt (max_tokens_limit model_name)))
      (max_tokens_limit model_name) = ok max_tokens /\
    lookup "max_tokens" payload = Some max_tokens.
Proof.
  unfold initial_payload.
  destruct (process_messages B messages) as [e | processed]; [discriminate |].
  rewrite bind_ok.
  destruct (min_with_limit _ _) as [e | max_tokens] eqn:Em; [discriminate |].
  rewrite bind_ok.
  destruct (optional (py_float B) body "temperature") as [e | t]; [discriminate |].
  rewrite bind_ok.
  destruct (optional (py_int B) body "top_k") as [e | tk]; [discriminate |].
  rewrite bind_ok.
  destruct (optional (py_float B) body "top_p") as [e | tp]; [discriminate |].
  rewrite bind_ok.
  intros H. injection H as <-.
  apply min_with_limit_not_none in Em.
  split; [reflexivity |].
  exists max_tokens. split; [reflexivity |].
  cbn [filter snd]. cbn [is_none negb]. cbn [lookup String.eqb Ascii.eqb Bool.eqb].
  destruct (is_none processed); cbn [negb lookup String.eqb Ascii.eqb Bool.eqb];
    rewrite Em; reflexivity.
Qed.

Lemma build_payload_fields
    (valves : Valves) (body : dict) (system_message messages : value)
    (model_name : string) (is_thinking_mode : bool) (payload : dict) :
  build_payload B valves body system_message messages model_name is_thinking_mode
    = inr payload ->
  lookup "model" payload = Some (VStr model_name) /\
  (exists max_tokens,
      min_with_limit (get_or body "max_tokens" (VInt (max_tokens_limit model_name)))
        (max_tokens_limit model_name) = ok max_tokens /\
      lookup "max_tokens" payload = Some max_tokens) /\
  (is_thinking_mode = true ->
   lookup "thinking" payload =
     Some (VDict [("type", VStr "enabled");
                  ("budget_tokens", VInt (THINKING_BUDGET_TOKENS valves))])).
Proof.
  unfold build_payload. intros H.
  destruct (initial_payload B body messages model_name) as [e | p0] eqn:E0;
    [discriminate |].
  rewrite bind_ok in H.
  destruct (add_tools body (add_system B system_message p0)) as [e | p2] eqn:E2;
    [discriminate |].
  rewrite bind_ok in H.
  destruct (add_response_format body p2) as [e | p3] eqn:E3; [discriminate |].
  rewrite bind_ok in H. injection H as <-.
  destruct (initial_payload_fields _ _ _ _ E0) as (Hm & mt & Hmin & Hmt).
  assert (keeps : forall k, settled k ->
            lookup k (add_thinking valves is_thinking_mode p3) = lookup k p0).
  { intros k Hk.
    rewrite add_thinking_keeps, (add_response_format_keeps _ _ _ _ Hk E3),
      (add_tools_keeps _ _ _ _ Hk E2), add_system_keeps by exact Hk.
    reflexivity. }
  split; [rewrite keeps; [exact Hm | apply settled_model] |].
  split.
  - exists mt. split; [exact Hmin |]. rewrite keeps; [exact Hmt | apply settled_max_tokens].
  - intros ->. unfold add_thinking. apply lookup_dict_set_same.
Qed.

(** Without an API key [pipe] answers with the configuration error,
    and the network is not used. *)
Theorem missing_api_key_short_circuits
    (valves : Valves) (request_id : option string) (body : dict)
    (server : nat -> post_outcome) :
  ANTHROPIC_API_KEY valves = "" ->
  pipe B valves request_id body server =
    {| pipe_returns := Reply MissingApiKey None;
       pipe_request_id := request_id;
       pipe_effects := [] |}.
Proof. intros Hk. unfold pipe. rewrite Hk. reflexivity. Qed.

(** [tool_choice] is converted as follows: ["none"] and ["auto"] to the
    entry of that type, a dict with a truthy [function] to the entry of type
    ["tool"] with the function's name. *)
Theorem tool_choice_conversion :
  convert_tool_choice (VStr "none") = ok (Some (VDict [("type", VStr "none")])) /\
  convert_tool_choice (VStr "auto") = ok (Some (VDict [("type", VStr "auto")])) /\
  forall (d function : dict) (name : value),
    lookup "function" d = Some (VDict function) ->
    function <> [] ->
    lookup "name" function = Some name ->
    convert_tool_choice (VDict d) =
      ok (Some (VDict [("type", VStr "tool"); ("name", name)])).
Proof.
  split; [reflexivity |]. split; [reflexivity |].
  intros d function name Hf Hne Hn. unfold convert_tool_choice. simpl.
  rewrite Hf. destruct function as [| kv rest]; [contradiction |].
  rewrite bind_ok. cbn [truthy]. unfold getitem. rewrite Hn. reflexivity.
Qed.

(** X8.  [process_image] rejects a data-URI image of a supported type whose
    size, [len(base64_data) * 3 / 4], is over [MAX_IMAGE_SIZE], with a
    [ValueError] that carries the size. *)
Theorem oversized_image_is_rejected
    (image_url : dict) (url mime_type base64_data after_colon media_type : string) :
  lookup "url" image_url = Some (VStr url) ->
  startswith "data:image" url = true ->
  split1 "," url = [mime_type; base64_data] ->
  nth_error (split ":" mime_type) 1 = Some after_colon ->
  nth_error (split ";" after_colon) 0 = Some media_type ->
  In media_type SUPPORTED_IMAGE_TYPES ->
  (inject_Z MAX_IMAGE_SIZE < image_size_of base64_data)%Q ->
  process_image (VDict [("type", VStr "image_url"); ("image_url", VDict image_url)])
    = raise (ValueError (ImageSizeExceeded (image_size_of base64_data))).
Proof.
  intros Hu Hp Hcomma Hcolon Hsemi Hin Hbig.
  unfold process_image, piece. simpl getitem. rewrite bind_ok. simpl getitem.
  rewrite Hu, bind_ok, Hp, Hcomma. simpl unpack2. rewrite bind_ok. cbv iota beta.
  rewrite Hcolon, bind_ok, Hsemi, bind_ok.
  assert (Hs : existsb (String.eqb media_type) SUPPORTED_IMAGE_TYPES = true).
  { apply existsb_exists. exists media_type. split; [exact Hin | apply String.eqb_refl]. }
  rewrite Hs. simpl negb. cbv iota.
  destruct (Qle_bool (image_size_of base64_data) (inject_Z MAX_IMAGE_SIZE)) eqn:E.
  - apply Qle_bool_iff in E. exfalso. exact (Qlt_not_le _ _ Hbig E).
  - reflexivity.
Qed.

(** What a successful [prepare] went through. *)
Lemma prepare_steps (valves : Valves) (body : dict) (req : request) :
  prepare B valves body = inr req ->
  exists all_messages system_message messages model,
    lookup "messages" body = Some all_messages /\
    pop_system_message B all_messages = inr (system_message, messages) /\
    validate_total_image_size messages = inr tt /\
    lookup "model" body = Some (VStr model) /\
    build_payload B valves body system_message messages
      (fst (resolve_model model)) (snd (resolve_model model)) = inr (request_payload req).
Proof.
  unfold prepare. intros H.
  destruct (getitem (VDict body) "messages") as [e | all_messages] eqn:E1;
    [discriminate |].
  rewrite bind_ok in H.
  destruct (pop_system_message B all_messages) as [e | [system_message messages]] eqn:E2;
    [discriminate |].
  rewrite bind_ok in H.
  destruct (validate_total_image_size messages) as [e | []] eqn:E3; [discriminate |].
  rewrite bind_ok in H.
  destruct (getitem (VDict body) "model") as [e | model] eqn:E4; [discriminate |].
  rewrite bind_ok in H.
  destruct model as [| | | | model | |]; try discriminate.
  destruct (resolve_model model) as [model_name is_thinking_mode] eqn:E5.
  destruct (build_payload B valves body system_message messages model_name
              is_thinking_mode) as [e | payload] eqn:E6; [discriminate |].
  rewrite bind_ok in H.
  destruct (build_headers valves (scanned_body body) model_name is_thinking_mode)
    as [e | hs];
    [discriminate |].
  rewrite bind_ok in H. injection H as <-.
  apply getitem_is_dict in E1. destruct E1 as (d1 & D1 & L1). injection D1 as <-.
  apply getitem_is_dict in E4. destruct E4 as (d4 & D4 & L4). injection D4 as <-.
  exists all_messages, system_message, messages, model.
  rewrite E5. cbn [fst snd request_payload]. auto.
Qed.

(** C5.  A request for model ["api/claude-3-5-sonnet-latest-thinking"]
    resolves to the vendor model ["claude-3-5-sonnet-latest"] in thinking
    mode, and the payload the builder produces has that model and the
    [thinking] entry [{"type": "enabled", "budget_tokens":
    valves.THINKING_BUDGET_TOKENS}]. *)
Theorem thinking_suffix_resolves (valves : Valves) (body : dict) (req : request) :
  lookup "model" body = Some (VStr "api/claude-3-5-sonnet-latest-thinking") ->
  prepare B valves body = inr req ->
  resolve_model "api/claude-3-5-sonnet-latest-thinking"
    = ("claude-3-5-sonnet-latest", true) /\
  lookup "model" (request_payload req) = Some (VStr "claude-3-5-sonnet-latest") /\
  lookup "thinking" (request_payload req) =
    Some (VDict [("type", VStr "enabled");
                 ("budget_tokens", VInt (THINKING_BUDGET_TOKENS valves))]).
Proof.
  intros Hm H. split; [reflexivity |].
  destruct (prepare_steps _ _ _ H) as (a & sm & ms & model & _ & _ & _ & Hm' & Hb).
  rewrite Hm in Hm'. injection Hm' as <-.
  destruct (build_payload_fields _ _ _ _ _ _ _ Hb) as (Pm & _ & Pt).
  split; [exact Pm | apply Pt; reflexivity].
Qed.

Lemma min_with_limit_int (requested limit : Z) :
  min_with_limit (VInt requested) limit = ok (VInt (Z.min requested limit)).
Proof.
  unfold min_with_limit. destruct (limit <? requested) eqn:E.
  - apply Z.ltb_lt in E. rewrite Z.min_r by lia. reflexivity.
  - apply Z.ltb_ge in E. rewrite Z.min_l by lia. reflexivity.
Qed.

Lemma error_of_bind {A C : Type} (m : result A) (k : A -> result C) :
  error_of (bind m k) =
  match m with
  | inl e => Some e
  | inr a => error_of (k a)
  end.
Proof. destruct m; reflexivity. Qed.

Lemma get_or_same (body body' : dict) (k : string) (default : value) :
  same_but_max_tokens body body' -> (k =? "max_tokens")%string = false ->
  get_or body k default = get_or body' k default.
Proof. intros Hs Hk. unfold get_or. rewrite (Hs k Hk). reflexivity. Qed.

Lemma optional_same (conv : value -> result value) (body body' : dict) (k : string) :
  same_but_max_tokens body body' -> (k =? "max_tokens")%string = false ->
  optional conv body k = optional conv body' k.
Proof. intros Hs Hk. unfold optional. rewrite (Hs k Hk). reflexivity. Qed.

(** Whether the first fields can be built does not depend on which integer
    [max_tokens] is. *)
Lemma initial_payload_error_same
    (body body' : dict) (messages : value) (model_name : string) (m m' : Z) :
  same_but_max_tokens body body' ->
  lookup "max_tokens" body = Some (VInt m) ->
  lookup "max_tokens" body' = Some (VInt m') ->
  error_of (initial_payload B body messages model_name) =
  error_of (initial_payload B body' messages model_name).
Proof.
  intros Hs Hm Hm'.
  assert (M : forall b n d l, lookup "max_tokens" b = Some (VInt n) ->
            min_with_limit (get_or b "max_tokens" d) l = ok (VInt (Z.min n l))).
  { intros b n d l Hb. unfold get_or. rewrite Hb. apply min_with_limit_int. }
  unfold initial_payload.
  rewrite ?error_of_bind; unfold ok; cbv beta iota.
  destruct (process_messages B messages) as [e | processed]; [reflexivity |].
  rewrite (M _ _ _ _ Hm), (M _ _ _ _ Hm'). unfold ok; cbv beta iota.
  rewrite ?error_of_bind.
  rewrite <- !(optional_same _ body body') by (exact Hs || reflexivity).
  destruct (optional (py_float B) body "temperature"); [reflexivity |].
  rewrite ?error_of_bind; unfold ok; cbv beta iota.
  destruct (optional (py_int B) body "top_k"); [reflexivity |].
  rewrite ?error_of_bind; unfold ok; cbv beta iota.
  destruct (optional (py_float B) body "top_p"); reflexivity.
Qed.

Lemma add_tools_error_same (body body' payload payload' : dict) :
  same_but_max_tokens body body' ->
  error_of (add_tools body payload) = error_of (add_tools body' payload').
Proof.
  intros Hs. unfold add_tools.
  rewrite <- (Hs "tools") by reflexivity.
  rewrite <- (get_or_same body body') by (exact Hs || reflexivity).
  destruct (lookup "tools" body) as [tools |]; [| reflexivity].
  rewrite ?error_of_bind; unfold ok; cbv beta iota.
  destruct (convert_openai_tools_to_anthropic tools); [reflexivity |].
  rewrite ?error_of_bind; unfold ok; cbv beta iota.
  destruct (convert_tool_choice _); reflexivity.
Qed.

Lemma add_response_format_error_same (body body' payload payload' : dict) :
  same_but_max_tokens body body' ->
  error_of (add_response_format body payload) =
  error_of (add_response_format body' payload').
Proof.
  intros Hs. unfold add_response_format.
  rewrite <- (Hs "response_format") by reflexivity.
  destruct (lookup "response_format" body) as [rf |]; [| reflexivity].
  rewrite ?error_of_bind; unfold ok; cbv beta iota. destruct (get rf "type" VNone); reflexivity.
Qed.

Lemma build_headers_same
    (valves : Valves) (body body' : dict) (model_name : string) (thinking : bool) :
  same_but_max_tokens body body' ->
  build_headers valves body model_name thinking =
  build_headers valves body' model_name thinking.
Proof.
  intros Hs. unfold build_headers.
  rewrite <- !(get_or_same body body') by (exact Hs || reflexivity).
  reflexivity.
Qed.

Lemma error_of_ok {A : Type} (r : result A) :
  error_of r = None -> exists a, r = inr a.
Proof. destruct r as [e | a]; [discriminate | eauto]. Qed.

Lemma build_payload_error_same
    (valves : Valves) (body body' : dict) (system_message messages : value)
    (model_name : string) (thinking : bool) (m m' : Z) :
  same_but_max_tokens body body' ->
  lookup "max_tokens" body = Some (VInt m) ->
  lookup "max_tokens" body' = Some (VInt m') ->
  error_of (build_payload B valves body system_message messages model_name thinking) =
  error_of (build_payload B valves body' system_message messages model_name thinking).
Proof.
  intros Hs Hm Hm'. unfold build_payload. rewrite ?error_of_bind.
  pose proof (initial_payload_error_same _ _ messages model_name _ _ Hs Hm Hm') as E0.
  destruct (initial_payload B body messages model_name) as [e | p0],
           (initial_payload B body' messages model_name) as [e' | p0'];
    try discriminate; [exact E0 |].
  rewrite ?error_of_bind; unfold ok; cbv beta iota.
  pose proof (add_tools_error_same body body' (add_system B system_message p0)
                (add_system B system_message p0') Hs) as E2.
  destruct (add_tools body _) as [e | p2], (add_tools body' _) as [e' | p2'];
    try discriminate; [exact E2 |].
  rewrite ?error_of_bind; unfold ok; cbv beta iota.
  pose proof (add_response_format_error_same body body' p2 p2' Hs) as E3.
  destruct (add_response_format body p2) as [e | p3],
           (add_response_format body' p2') as [e' | p3'];
    try discriminate; [exact E3 | reflexivity].
Qed.

Lemma lookup_dict_set (k k' : string) (v : value) (d : dict) :
  lookup k (dict_set k' v d) = if (k' =? k)%string then Some v else lookup k d.
Proof.
  destruct (k' =? k)%string eqn:E.
  - apply String.eqb_eq in E. subst k'. apply lookup_dict_set_same.
  - apply lookup_dict_set_other. exact E.
Qed.

Lemma scanned_same (body body' : dict) :
  same_but_max_tokens body body' ->
  same_but_max_tokens (scanned_body body) (scanned_body body').
Proof.
  intros Hs k Hk. unfold scanned_body.
  rewrite <- (Hs "messages") by reflexivity.
  destruct (lookup "messages" body) as [messages |]; [| apply Hs, Hk].
  destruct messages; try (apply Hs, Hk).
  rewrite !lookup_dict_set, (Hs k Hk). reflexivity.
Qed.

(** Whether [prepare] raises, and what, does not depend on which integer
    [max_tokens] is. *)
Lemma prepare_error_same (valves : Valves) (body body' : dict) (m m' : Z) :
  same_but_max_tokens body body' ->
  lookup "max_tokens" body = Some (VInt m) ->
  lookup "max_tokens" body' = Some (VInt m') ->
  error_of (prepare B valves body) = error_of (prepare B valves body').
Proof.
  intros Hs Hm Hm'. unfold prepare, getitem.
  rewrite <- (Hs "messages"), <- (Hs "model") by reflexivity.
  destruct (lookup "messages" body) as [all_messages |]; [| reflexivity].
  rewrite ?error_of_bind; unfold ok; cbv beta iota.
  destruct (pop_system_message B all_messages) as [e | [system_message messages]];
    [reflexivity |].
  rewrite ?error_of_bind; unfold ok; cbv beta iota.
  destruct (validate_total_image_size messages); [reflexivity |].
  destruct (lookup "model" body) as [model |]; [| reflexivity].
  rewrite ?error_of_bind; unfold ok; cbv beta iota.
  destruct model as [| | | | model | |]; try reflexivity.
  destruct (resolve_model model) as [model_name thinking].
  rewrite ?error_of_bind; unfold ok; cbv beta iota.
  pose proof (build_payload_error_same valves _ _ system_message messages model_name
                thinking _ _ Hs Hm Hm') as Eb.
  destruct (build_payload B valves body _ _ _ _) as [e | p],
           (build_payload B valves body' _ _ _ _) as [e' | p'];
    try discriminate; [exact Eb |].
  rewrite ?error_of_bind; unfold ok; cbv beta iota.
  rewrite ?error_of_bind,
    <- (build_headers_same valves (scanned_body body) (scanned_body body'))
    by (apply scanned_same; exact Hs).
  destruct (build_headers valves (scanned_body body) model_name thinking); reflexivity.
Qed.

(** C6.  For a request whose [max_tokens] is an integer, the payload's
    [max_tokens] is the smaller of that integer and the ceiling of the
    resolved model, which is the model's entry of [MODEL_MAX_TOKENS] when it
    has one (and 4096 when it has none).  The comparison does not raise,
    and the request is not rejected for what the integer is: the same
    request with any other integer for [max_tokens] gets a payload as
    well. *)
Theorem max_tokens_clamped_to_ceiling
    (valves : Valves) (body : dict) (req : request) (model : string) (requested : Z) :
  lookup "model" body = Some (VStr model) ->
  lookup "max_tokens" body = Some (VInt requested) ->
  prepare B valves body = inr req ->
  let model_name := fst (resolve_model model) in
  let ceiling := max_tokens_limit model_name in
  lookup "max_tokens" (request_payload req) = Some (VInt (Z.min requested ceiling)) /\
  min_with_limit (VInt requested) ceiling = ok (VInt (Z.min requested ceiling)) /\
  (ceiling < requested -> Z.min requested ceiling = ceiling) /\
  (forall c, table_get model_name MODEL_MAX_TOKENS = Some c -> ceiling = c) /\
  (table_get model_name MODEL_MAX_TOKENS = None -> ceiling = 4096) /\
  (forall body' requested',
      same_but_max_tokens body body' ->
      lookup "max_tokens" body' = Some (VInt requested') ->
      exists req',
        prepare B valves body' = inr req' /\
        lookup "max_tokens" (request_payload req') = Some (VInt (Z.min requested' ceiling))).
Proof.
  intros Hm Hr H model_name ceiling.
  assert (clamp : forall b r n, lookup "model" b = Some (VStr model) ->
            lookup "max_tokens" b = Some (VInt n) -> prepare B valves b = inr r ->
            lookup "max_tokens" (request_payload r) = Some (VInt (Z.min n ceiling))).
  { intros b r n Bm Bn Br.
    destruct (prepare_steps _ _ _ Br) as (a & sm & ms & model' & _ & _ & _ & Hm' & Hb).
    rewrite Bm in Hm'. injection Hm' as <-.
    destruct (build_payload_fields _ _ _ _ _ _ _ Hb) as (_ & (mt & Hmin & Hmt) & _).
    unfold get_or in Hmin. rewrite Bn, min_with_limit_int in Hmin. injection Hmin as <-.
    exact Hmt. }
  split; [exact (clamp _ _ _ Hm Hr H) |].
  split; [apply min_with_limit_int |]. split; [lia |].
  split.
  { intros c Hc. unfold ceiling, max_tokens_limit. rewrite Hc. reflexivity. }
  split.
  { intros Hc. unfold ceiling, max_tokens_limit. rewrite Hc. reflexivity. }
  intros body' requested' Hs Hr'.
  pose proof (prepare_error_same valves _ _ _ _ Hs Hr Hr') as E.
  rewrite H in E. simpl in E. symmetry in E.
  destruct (error_of_ok _ E) as [req' Hreq'].
  exists req'. split; [exact Hreq' |].
  apply (clamp _ _ _ (eq_trans (eq_sym (Hs "model" eq_refl)) Hm) Hr' Hreq').
Qed.

Lemma validate_raises (messages : value) (total_size : Q) (image_count : Z) :
  image_totals messages = inr (total_size, image_count) ->
  (inject_Z TOTAL_MAX_IMAGE_SIZE < total_size)%Q \/ MAX_IMAGES_PER_REQUEST < image_count ->
  exists why,
    validate_total_image_size messages = raise (ValueError why) /\
    ((inject_Z TOTAL_MAX_IMAGE_SIZE < total_size)%Q ->
     why = TotalImageSizeExceeded total_size) /\
    (~ (inject_Z TOTAL_MAX_IMAGE_SIZE < total_size)%Q ->
     why = TooManyImages image_count).
Proof.
  intros Ht Hover. unfold validate_total_image_size. rewrite Ht, bind_ok. simpl fst. simpl snd.
  destruct (Qle_bool total_size (inject_Z TOTAL_MAX_IMAGE_SIZE)) eqn:E; simpl negb; cbv iota.
  - apply Qle_bool_iff in E.
    assert (N : ~ (inject_Z TOTAL_MAX_IMAGE_SIZE < total_size)%Q) by (apply Qle_not_lt, E).
    destruct Hover as [Hs | Hc]; [contradiction |].
    apply Z.gtb_lt in Hc. rewrite Hc.
    exists (TooManyImages image_count).
    split; [reflexivity | split; [intros; contradiction | reflexivity]].
  - assert (L : (inject_Z TOTAL_MAX_IMAGE_SIZE < total_size)%Q).
    { apply Qnot_le_lt. intros C. apply Qle_bool_iff in C. congruence. }
    exists (TotalImageSizeExceeded total_size).
    split; [reflexivity | split; [reflexivity | intros; contradiction]].
Qed.

Lemma startswith_app (p s t : string) :
  startswith p s = true -> startswith p (s ++ t) = true.
Proof.
  unfold startswith. revert s. induction p as [| a p IH]; intros s.
  - intros _. destruct (s ++ t)%string; reflexivity.
  - destruct s as [| b s]; cbn [String.prefix append]; [discriminate |].
    destruct (ascii_dec a b); [apply IH | discriminate].
Qed.

Lemma split1_at_first (sep : ascii) (header rest : string) :
  existsb (Ascii.eqb sep) (list_ascii_of_string header) = false ->
  split1 sep (header ++ String sep rest) = [header; rest].
Proof.
  induction header as [| c header IH]; cbn [list_ascii_of_string existsb append split1].
  - intros _. rewrite Ascii.eqb_refl. reflexivity.
  - intros H. apply orb_false_iff in H. destruct H as [Hc Hs].
    rewrite Ascii.eqb_sym, Hc, (IH Hs). reflexivity.
Qed.

Lemma count_inline_image (acc : Q * Z) (item : value) (base64_data : string) :
  inline_image item base64_data ->
  count_image acc item = ok ((fst acc + image_size_of base64_data)%Q, snd acc + 1).
Proof.
  intros (d & image_url & header & -> & Ht & Hi & Hu & Hs & Hc).
  unfold count_image. rewrite get_dict, bind_ok. unfold get_or. rewrite Ht.
  cbn [eq_str String.eqb Ascii.eqb Bool.eqb getitem]. rewrite Hi, bind_ok.
  cbn [getitem]. rewrite Hu, bind_ok.
  rewrite (startswith_app _ _ _ Hs).
  change ("," ++ base64_data)%string with (String "," base64_data).
  rewrite (split1_at_first _ _ _ Hc). reflexivity.
Qed.

Lemma count_other_item (acc : Q * Z) (item : value) :
  remote_or_no_image item -> count_image acc item = ok acc.
Proof.
  intros (d & -> & Himage).
  unfold count_image. rewrite get_dict, bind_ok.
  destruct (eq_str (get_or d "type" VNone) "image_url"); [| reflexivity].
  destruct (Himage eq_refl) as (image_url & u & Hi & Hu & Hs).
  cbn [getitem]. rewrite Hi, bind_ok. cbn [getitem]. rewrite Hu, bind_ok, Hs.
  reflexivity.
Qed.

Lemma count_images_among (items : list value) (images : list string) :
  images_among items images ->
  forall acc,
    for_each count_image acc items =
      ok (fold_left (fun total b => (total + image_size_of b)%Q) images (fst acc),
          snd acc + Z.of_nat (List.length images)).
Proof.
  induction 1 as [| item rest images Hitem _ IH | item b rest images Hitem _ IH];
    intros [total n]; cbn [for_each fold_left List.length fst snd].
  - rewrite Z.add_0_r. reflexivity.
  - rewrite (count_other_item _ _ Hitem), bind_ok. apply IH.
  - rewrite (count_inline_image _ _ _ Hitem), bind_ok, IH. cbn [fst snd].
    f_equal. f_equal. lia.
Qed.

Lemma count_images_across (messages : list value) (images : list string) :
  images_across messages images ->
  forall acc,
    for_each count_images_of acc messages =
      ok (fold_left (fun total b => (total + image_size_of b)%Q) images (fst acc),
          snd acc + Z.of_nat (List.length images)).
Proof.
  induction 1 as [| d rest images Hplain _ IH | d items here rest images Hc Hhere _ IH];
    intros [total n]; cbn [for_each fold_left List.length fst snd].
  - rewrite Z.add_0_r. reflexivity.
  - assert (H1 : count_images_of (total, n) (VDict d) = ok (total, n)).
    { unfold count_images_of. rewrite get_dict, bind_ok. unfold get_or.
      destruct (lookup "content" d) as [c |] eqn:Ec; [| reflexivity].
      destruct c as [| | | | | items |]; try reflexivity.
      exfalso. apply (Hplain items). reflexivity. }
    rewrite H1, bind_ok. apply IH.
  - assert (H1 : count_images_of (total, n) (VDict d) =
                 for_each count_image (total, n) items).
    { unfold count_images_of. rewrite get_dict, bind_ok. unfold get_or. rewrite Hc.
      reflexivity. }
    rewrite H1, (count_images_among _ _ Hhere), bind_ok, IH. cbn [fst snd].
    rewrite fold_left_app, length_app. f_equal. f_equal. lia.
Qed.

Lemma totals_of_images (messages : list value) (images : list string) :
  images_across messages images ->
  image_totals (VList messages) =
    inr (combined_size images, Z.of_nat (List.length images)).
Proof.
  intros H. unfold image_totals. cbn [py_iter]. rewrite bind_ok.
  rewrite (count_images_across _ _ H). reflexivity.
Qed.

(** C7.  Take any list of messages and the inline (data-URI) images found
    in the content lists across it.  When their decoded sizes,
    [len(base64_data) * 3 / 4] each, add up to more than
    [TOTAL_MAX_IMAGE_SIZE] (100 MB), whatever the size of each, validation
    raises a [ValueError] that carries this total; when the total is within
    the limit and the images are more than [MAX_IMAGES_PER_REQUEST] (100),
    it raises a [ValueError] with their number; and in both cases [pipe]
    returns the error without any effect on the network. *)
Theorem oversized_images_rejected_before_network
    (valves : Valves) (request_id : option string) (body : dict)
    (server : nat -> post_outcome)
    (all_messages system_message : value) (messages : list value)
    (images : list string) :
  ANTHROPIC_API_KEY valves <> "" ->
  lookup "messages" body = Some all_messages ->
  pop_system_message B all_messages = inr (system_message, VList messages) ->
  images_across messages images ->
  let total_size := combined_size images in
  let image_count := Z.of_nat (List.length images) in
  (inject_Z TOTAL_MAX_IMAGE_SIZE < total_size)%Q \/ MAX_IMAGES_PER_REQUEST < image_count ->
  exists why,
    validate_total_image_size (VList messages) = raise (ValueError why) /\
    ((inject_Z TOTAL_MAX_IMAGE_SIZE < total_size)%Q ->
     why = TotalImageSizeExceeded total_size) /\
    (~ (inject_Z TOTAL_MAX_IMAGE_SIZE < total_size)%Q ->
     why = TooManyImages image_count) /\
    pipe B valves request_id body server =
      {| pipe_returns := Reply (ErrorOf (ValueError why)) (request_id_suffix request_id);
         pipe_request_id := request_id;
         pipe_effects := [] |}.
Proof.
  intros Hkey Hm Hp Himages total_size image_count Hover.
  destruct (validate_raises _ _ _ (totals_of_images _ _ Himages) Hover)
    as (why & Hv & H1 & H2).
  exists why. repeat split; try assumption.
  unfold pipe. apply String.eqb_neq in Hkey. rewrite Hkey.
  unfold prepare, getitem. rewrite Hm, bind_ok, Hp, bind_ok, Hv. reflexivity.
Qed.

End BuilderFacts.

Section StreamFacts.

Context (B : Builtins).

Lemma chunk_for_tool_call_chunk (now : Z) (model tool_calls content finish_reason : value) :
  chunk_for model
    (SseData (create_openai_tool_call_chunk now model tool_calls content finish_reason)).
Proof. eexists. split; [reflexivity | split; reflexivity]. Qed.

Lemma chunk_for_reasoning_chunk (now : Z) (model thinking : value) :
  chunk_for model (SseData (reasoning_chunk now model thinking)).
Proof. eexists. split; [reflexivity | split; reflexivity]. Qed.

Lemma react_items (model_name : value) (s : stream_state) (now : Z) (d : decoded)
    (c : control) (out : list sse_item) (logs : list log_record) :
  react B model_name s now d = inr (c, out, logs) ->
  match c with
  | Break => exists chunk, out = [chunk; SseDone] /\ chunk_for model_name chunk
  | Continue _ => Forall (chunk_for model_name) out /\ (List.length out <= 1)%nat
  end.
Proof.
  destruct d as [ | | e | ev]; cbn [react]; unfold ok, raise; intros H.
  - inversion H; subst. split; [constructor | simpl; lia].
  - inversion H; subst. split; [constructor | simpl; lia].
  - discriminate.
  - destruct ev as [bt cb | bt | txt | pj | th | ix ti | | | |]; cbn [act] in H;
      unfold ok, raise in H.
    + inversion H; subst. split; [| simpl; lia].
      constructor; [apply chunk_for_tool_call_chunk | constructor].
    + inversion H; subst. split; [constructor | simpl; lia].
    + inversion H; subst. destruct (truthy txt); split; simpl; try lia.
      * constructor; [apply chunk_for_tool_call_chunk | constructor].
      * constructor.
    + destruct (truthy pj), (current_tool_use s) as [t |]; try destruct pj;
        try discriminate; inversion H; subst; split; simpl; try lia;
        try constructor; try apply chunk_for_tool_call_chunk; constructor.
    + inversion H; subst. destruct (truthy th); split; simpl; try lia.
      * constructor; [apply chunk_for_reasoning_chunk | constructor].
      * constructor.
    + inversion H; subst. split; [| simpl; lia].
      constructor; [apply chunk_for_tool_call_chunk | constructor].
    + inversion H; subst. split; [constructor | simpl; lia].
    + unfold on_content_block_stop in H.
      destruct (current_tool_use s); inversion H; subst; split; simpl; try lia; constructor.
    + unfold on_message_stop in H. inversion H; subst.
      eexists. split; [reflexivity | apply chunk_for_tool_call_chunk].
    + inversion H; subst. split; [constructor | simpl; lia].
Qed.

(** What the loop has yielded when it ends: chunks only, followed by the
    sentinel exactly when it ended at a [message_stop]; and how many. *)
Lemma consume_items (model_name : value) (xs : list arrival) :
  forall (s : stream_state) (fin : finish) (out : list sse_item) (logs : list log_record),
    consume B model_name s xs = (fin, out, logs) ->
    match fin with
    | Stopped =>
        (exists chunks, out = chunks ++ [SseDone] /\ Forall (chunk_for model_name) chunks)
        /\ (List.length out <= List.length xs + 1)%nat
    | Exhausted _ =>
        Forall (chunk_for model_name) out /\ (List.length out <= List.length xs)%nat
    | Failed _ =>
        Forall (chunk_for model_name) out /\ (List.length out + 1 <= List.length xs)%nat
    end.
Proof.
  induction xs as [| a rest IH]; intros s fin out logs H.
  - simpl in H. inversion H; subst. split; [constructor | simpl; lia].
  - destruct a as [now line | e].
    + rewrite consume_line in H.
      destruct (react B model_name s now (decode B line)) as [e | [[c out1] logs1]] eqn:Hr.
      * inversion H; subst. split; [constructor | simpl; lia].
      * apply react_items in Hr.
        destruct c as [s1 |].
        -- destruct (consume B model_name s1 rest) as [[fin2 out2] logs2] eqn:Hc.
           inversion H; subst. specialize (IH _ _ _ _ Hc).
           destruct Hr as [Hr Hl]. rewrite length_app.
           destruct fin as [s2 | | e].
           ++ destruct IH as [IH Hl2].
              split; [apply Forall_app; split; assumption | simpl; lia].
           ++ destruct IH as [[chunks [-> Hch]] Hl2]. split.
              ** exists (out1 ++ chunks). rewrite app_assoc. split; [reflexivity |].
                 apply Forall_app; split; assumption.
              ** rewrite length_app in *. simpl in *. lia.
           ++ destruct IH as [IH Hl2].
              split; [apply Forall_app; split; assumption | simpl; lia].
        -- inversion H; subst. destruct Hr as [chunk [-> Hch]]. split.
           ++ exists [chunk]. split; [reflexivity | constructor; [assumption | constructor]].
           ++ simpl. lia.
    + simpl in H. inversion H; subst. split; [constructor | simpl; lia].
Qed.

(** X2.  Whatever the upstream does, the generator yields chunks for the
    payload's model and then at most one closing item, which is the [DONE]
    sentinel or one error text; nothing follows either, and the two never
    occur together. *)
Theorem stream_ends_at_most_once
    (request_id : option string) (payload : dict) (upstream : post_outcome) :
  exists chunks closing,
    yielded (stream_with_ui B request_id payload upstream) = chunks ++ closing /\
    Forall (chunk_for (model_name_of payload)) chunks /\
    (closing = [] \/ closing = [SseDone] \/ exists msg rid, closing = [SseError msg rid]).
Proof.
  unfold stream_with_ui. destruct upstream as [r | e].
  - destruct (negb (status r =? 200)).
    + exists [], [SseError (HttpError (status r) (text r))
                    (request_id_suffix (headers r "x-request-id"))].
      cbn [yielded app]. split; [reflexivity | split; [constructor |]].
      right; right; eauto.
    + destruct (consume B (model_name_of payload) initial_state (content r))
        as [[fin out] logs] eqn:Hc.
      apply consume_items in Hc. cbn [yielded].
      destruct fin as [s | | e].
      * exists out, []. destruct Hc as [Hc _]. auto.
      * destruct Hc as [[chunks [-> Hch]] _]. exists chunks, [SseDone].
        rewrite app_nil_r. auto.
      * destruct Hc as [Hc _].
        exists out, [stream_failure e (headers r "x-request-id")].
        split; [reflexivity | split; [assumption |]].
        right; right. unfold stream_failure. destruct e; eauto.
  - exists [], [stream_failure e request_id]. cbn [yielded app].
    split; [reflexivity | split; [constructor |]].
    right; right. unfold stream_failure. destruct e; eauto.
Qed.

(** X9.  The generator never yields more items than the upstream body has
    lines, plus one: a line gives at most one chunk, except the
    [message_stop], which gives the finish chunk and the sentinel. *)
Theorem stream_yields_at_most_one_item_per_line
    (request_id : option string) (payload : dict) (r : response) :
  (List.length (yielded (stream_with_ui B request_id payload (Responded r)))
   <= List.length (content r) + 1)%nat.
Proof.
  unfold stream_with_ui. destruct (negb (status r =? 200)).
  - cbn [yielded]. simpl. lia.
  - destruct (consume B (model_name_of payload) initial_state (content r))
      as [[fin out] logs] eqn:Hc.
    apply consume_items in Hc. cbn [yielded]. rewrite length_app.
    destruct fin as [s | | e]; destruct Hc as [_ Hl]; simpl; lia.
Qed.

(** X10.  An event that has no [type], or is no JSON object, ends the stream:
    what the earlier lines gave is followed by one [Stream error] text, the
    lines after it are not read, and no [DONE] is sent. *)
Theorem event_without_type_ends_stream
    (request_id : option string) (payload : dict) (r : response)
    (before after : list arrival) (now : Z) (line : string) (data : value) (e : exn)
    (s : stream_state) (out : list sse_item) (logs : list log_record) :
  status r = 200 ->
  content r = before ++ Line now line :: after ->
  consume B (model_name_of payload) initial_state before = (Exhausted s, out, logs) ->
  is_data_line line = true ->
  json_loads B (drop 6 line) = inr data ->
  getitem data "type" = inl e ->
  (e = TypeError \/ e = KeyError "type") /\
  yielded (stream_with_ui B request_id payload (Responded r)) =
    out ++ [SseError (StreamError e) (request_id_suffix (headers r "x-request-id"))].
Proof.
  intros Hst Hcontent Hc Hline Hjson Htype.
  pose proof (getitem_raises _ _ _ Htype) as He. split; [exact He |].
  assert (Hd : decode B line = Raising e).
  { unfold decode. rewrite Hline, Hjson. unfold classify. rewrite Htype.
    cbn [bind]. reflexivity. }
  unfold stream_with_ui. rewrite Hst. cbn [Z.eqb Pos.eqb negb].
  rewrite Hcontent, (consume_app B _ _ _ _ _ _ _ Hc), consume_line, Hd.
  cbn [react raise yielded]. rewrite app_nil_r.
  destruct He as [-> | ->]; reflexivity.
Qed.

Local Arguments about_tool_call : simpl never.

Lemma fragments_up_to_stop (body rest : list arrival) (now : Z) (line : string) :
  existsb (is_block_stop B) body = false ->
  is_block_stop B (Line now line) = true ->
  fragments B (body ++ Line now line :: rest) = fragments B body.
Proof.
  intros Hno Hstop. induction body as [| a body IH].
  - cbn [app fragments]. unfold is_block_stop in Hstop.
    destruct (decode B line) as [ | | e | ev]; try discriminate.
    destruct ev; try discriminate. reflexivity.
  - cbn [existsb] in Hno. apply orb_false_iff in Hno. destruct Hno as [Ha Hno].
    specialize (IH Hno). destruct a as [n l | e]; [| reflexivity].
    cbn [app fragments]. unfold is_block_stop in Ha.
    destruct (decode B l) as [ | | e | ev]; try assumption.
    destruct ev as [bt cb | bt | txt | pj | th | ix ti | | | |];
      try assumption; try discriminate.
    destruct pj; try assumption. rewrite IH. reflexivity.
Qed.

(** While a call is open and no line opens or closes a block, the call
    stays the open one and the ordinal stays. *)
Lemma open_run (model_name : value) (xs : list arrival) :
  forall (s s' : stream_state) (t : tool_use) (out : list sse_item)
         (logs : list log_record),
    current_tool_use s = Some t ->
    existsb (starts_tool_use B) xs = false ->
    existsb (is_block_stop B) xs = false ->
    consume B model_name s xs = (Exhausted s', out, logs) ->
    current_tool_use s' = Some t /\ tool_call_index s' = tool_call_index s.
Proof.
  induction xs as [| a rest IH]; intros s s' t out logs Ht Hno Hns Hc.
  - simpl in Hc. inversion Hc; subst. auto.
  - cbn [existsb] in Hno, Hns.
    apply orb_false_iff in Hno. destruct Hno as [Ha Hno].
    apply orb_false_iff in Hns. destruct Hns as [Hb Hns].
    apply consume_cons_exhausted in Hc.
    destruct Hc as (now & line & s1 & out1 & logs1 & out2 & logs2
                    & -> & Hr & Hc & -> & ->).
    unfold starts_tool_use in Ha. unfold is_block_stop in Hb.
    assert (H1 : current_tool_use s1 = Some t /\ tool_call_index s1 = tool_call_index s).
    { destruct (decode B line) as [ | | e | ev]; cbn [react] in Hr; unfold ok, raise in Hr.
      - inversion Hr; subst; auto.
      - inversion Hr; subst; auto.
      - discriminate.
      - destruct ev as [bt cb | bt | txt | pj | th | ix ti | | | |];
          try discriminate; cbn [act] in Hr; unfold ok in Hr;
          try (inversion Hr; subst; auto; fail).
        destruct (truthy pj); [rewrite Ht in Hr | inversion Hr; subst; auto].
        destruct pj; try discriminate. inversion Hr; subst. cbn. auto. }
    destruct H1 as [H1 H2].
    destruct (IH _ _ _ _ _ H1 Hno Hns Hc) as [H3 H4]. split; [assumption | lia].
Qed.

Lemma existsb_starts_app (xs ys : list arrival) :
  existsb (starts_tool_use B) (xs ++ ys) =
  existsb (starts_tool_use B) xs || existsb (starts_tool_use B) ys.
Proof. apply existsb_app. Qed.

(** One call, from a state in which no call is open. *)
Lemma one_call_run (model_name : value) (c : call_lines) (s s' : stream_state)
    (out : list sse_item) (logs : list log_record) :
  one_call B c = true ->
  current_tool_use s = None ->
  consume B model_name s (lines_of c) = (Exhausted s', out, logs) ->
  filter about_tool_call out = call_chunks B model_name (tool_call_index s) c /\
  current_tool_use s' = None /\
  tool_call_index s' = tool_call_index s + 1.
Proof.
  unfold one_call. intros Hone Hidle Hc.
  repeat (apply andb_true_iff in Hone; destruct Hone as [Hone ?]).
  rename Hone into Hlead_pass.
  match goal with H : negb (existsb _ (call_lead c)) = true |- _ =>
    apply negb_true_iff in H; rename H into Hlead end.
  match goal with H : negb (existsb (starts_tool_use B) (call_body c)) = true |- _ =>
    apply negb_true_iff in H; rename H into Hbody end.
  match goal with H : negb (existsb (is_block_stop B) (call_body c)) = true |- _ =>
    apply negb_true_iff in H; rename H into Hnostop end.
  match goal with H : starts_tool_use B _ = true |- _ => rename H into Hstart end.
  match goal with H : is_block_stop B _ = true |- _ => rename H into Hstop end.
  unfold lines_of in Hc.
  apply consume_app_inv in Hc.
  destruct Hc as (s0 & out0 & logs0 & out' & logs' & Hc0 & Hc & -> & ->).
  destruct (idle_run B _ _ _ _ _ _ Hidle Hlead Hc0) as (Hf0 & Hidle0 & Hix0).
  apply consume_cons_exhausted in Hc.
  destruct Hc as (now & line & s1 & out1 & logs1 & out2 & logs2
                  & Ha & Hr & Hc & -> & ->).
  inversion Ha; subst now line. clear Ha.
  unfold starts_tool_use in Hstart. unfold call_chunks, opened_block.
  destruct (decode B (start_line c)) as [ | | e | ev]; try discriminate.
  destruct ev as [bt cb | bt | txt | pj | th | ix ti | | | |]; try discriminate.
  cbn [react act] in Hr. unfold ok in Hr. inversion Hr; subst s1 out1 logs1. clear Hr.
  apply consume_app_inv in Hc.
  destruct Hc as (s2 & out3 & logs3 & out4 & logs4 & Hc2 & Hc3 & -> & ->).
  pose proof (fun t0 H0 =>
                active_run B model_name (call_body c) _ s2 t0 out3 logs3 H0 Hbody Hc2)
    as Hf3.
  specialize (Hf3 _ eq_refl).
  pose proof (fun t0 H0 =>
                open_run model_name (call_body c) _ s2 t0 out3 logs3 H0 Hbody Hnostop Hc2)
    as Hopen.
  destruct (Hopen _ eq_refl) as [Ht2 Hix2]. clear Hopen.
  cbn [tool_call_index] in Hix2.
  apply consume_cons_exhausted in Hc3.
  destruct Hc3 as (now & line & s3 & out5 & logs5 & out6 & logs6
                   & Ha & Hr & Hc3 & -> & ->).
  inversion Ha; subst now line. clear Ha.
  unfold is_block_stop in Hstop.
  destruct (decode B (stop_line c)) as [ | | e | ev]; try discriminate.
  destruct ev; try discriminate.
  cbn [react act] in Hr. unfold on_content_block_stop, ok in Hr. rewrite Ht2 in Hr.
  inversion Hr; subst s3 out5 logs5. clear Hr.
  simpl in Hc3. inversion Hc3; subst s' out6 logs6. clear Hc3.
  cbn [current_tool_use tool_call_index]. rewrite Hix2, <- Hix0.
  split; [| split; [reflexivity | reflexivity]].
  rewrite !filter_app, Hf0, Hf3. cbn [filter app].
  rewrite about_initial_tool_chunk. cbn [tu_index].
  rewrite Hix0, app_nil_r. reflexivity.
Qed.

Lemma calls_run (model_name : value) (calls : list call_lines) :
  forall (s s' : stream_state) (out : list sse_item) (logs : list log_record),
    forallb (one_call B) calls = true ->
    current_tool_use s = None ->
    consume B model_name s (flat_map lines_of calls) = (Exhausted s', out, logs) ->
    filter about_tool_call out = numbered B model_name (tool_call_index s) calls /\
    current_tool_use s' = None /\
    tool_call_index s' = tool_call_index s + Z.of_nat (List.length calls).
Proof.
  induction calls as [| c rest IH]; intros s s' out logs Hall Hidle Hc.
  - simpl in Hc. inversion Hc; subst. cbn. split; [reflexivity | split; [assumption | lia]].
  - cbn [forallb] in Hall. apply andb_true_iff in Hall. destruct Hall as [Hone Hall].
    cbn [flat_map] in Hc. apply consume_app_inv in Hc.
    destruct Hc as (s1 & out1 & logs1 & out2 & logs2 & Hc1 & Hc2 & -> & ->).
    destruct (one_call_run _ _ _ _ _ _ Hone Hidle Hc1) as (Hf1 & Hidle1 & Hix1).
    destruct (IH _ _ _ _ Hall Hidle1 Hc2) as (Hf2 & Hidle2 & Hix2).
    rewrite filter_app, Hf1, Hf2, Hix1. cbn [numbered].
    split; [reflexivity | split; [assumption |]].
    rewrite Hix2, Hix1. cbn [List.length]. lia.
Qed.

Lemma one_call_passable (c : call_lines) :
  one_call B c = true ->
  forallb (passable B) (lines_of c) = true /\
  existsb (starts_tool_use B) (lines_of c) = true.
Proof.
  unfold one_call, lines_of. intros Hone.
  repeat (apply andb_true_iff in Hone; destruct Hone as [Hone ?]).
  match goal with H : starts_tool_use B _ = true |- _ => rename H into Hstart end.
  match goal with H : is_block_stop B _ = true |- _ => rename H into Hstop end.
  split.
  - rewrite forallb_app. cbn [forallb]. rewrite forallb_app. cbn [forallb].
    rewrite Hone. match goal with H : forallb _ (call_body c) = true |- _ => rewrite H end.
    unfold starts_tool_use in Hstart. unfold is_block_stop in Hstop. unfold passable.
    destruct (decode B (start_line c)) as [ | | e | ev]; try discriminate.
    destruct ev; try discriminate.
    destruct (decode B (stop_line c)) as [ | | e | ev]; try discriminate.
    destruct ev; try discriminate. reflexivity.
  - rewrite existsb_app. cbn [existsb]. rewrite Hstart.
    rewrite orb_true_r. reflexivity.
Qed.

Lemma calls_passable (calls : list call_lines) :
  forallb (one_call B) calls = true ->
  forallb (passable B) (flat_map lines_of calls) = true /\
  existsb (starts_tool_use B) (flat_map lines_of calls)
  = match calls with [] => false | _ :: _ => true end.
Proof.
  induction calls as [| c rest IH]; intros Hall; [split; reflexivity |].
  cbn [forallb] in Hall. apply andb_true_iff in Hall. destruct Hall as [Hone Hall].
  destruct (one_call_passable _ Hone) as [Hp Hs]. destruct (IH Hall) as [Hp' _].
  cbn [flat_map]. rewrite forallb_app, existsb_app, Hp, Hp', Hs. split; reflexivity.
Qed.

Lemma numbered_entries (model_name : value) (calls : list call_lines) (k : nat) :
  map tool_calls_of (numbered B model_name (Z.of_nat k) calls) =
    flat_map (fun kc => call_entries B (Z.of_nat (fst kc)) (snd kc))
             (combine (seq k (List.length calls)) calls).
Proof.
  revert k. induction calls as [| c rest IH]; intro k; [reflexivity |].
  cbn [numbered List.length seq combine flat_map fst snd].
  rewrite map_app. replace (Z.of_nat k + 1) with (Z.of_nat (S k)) by lia.
  rewrite IH. f_equal.
  unfold call_chunks, call_entries. cbn [map]. rewrite map_map. reflexivity.
Qed.

Lemma numbered_no_finish_reason (model_name : value) (calls : list call_lines) (k : Z) :
  Forall (fun i => finish_reason_in i = VNone) (numbered B model_name k calls).
Proof.
  revert k. induction calls as [| c rest IH]; intro k; [constructor |].
  cbn [numbered]. apply Forall_app. split; [| apply IH].
  unfold call_chunks. constructor; [reflexivity |].
  apply Forall_forall. intros i Hi. apply in_map_iff in Hi.
  destruct Hi as (p & <- & _). reflexivity.
Qed.

(** X5.  Tool calls that follow one another are numbered 0, 1, 2, ... in
    the order of their blocks; the opening chunk of a call and every chunk
    of its arguments carry the call's number, and when the tail of the
    stream opens no further call the stream ends with the finish chunk.
    Read as a client reads them, the [tool_calls] of the chunks are, for
    the call in position k: one entry with index k, the id of the block or
    ["call_k"] when it has none, its name, type [function] and the
    arguments [""]; then one entry with index k for each fragment of the
    arguments.  The finish chunk has no [tool_calls], and no chunk before
    it has a finish reason. *)
Theorem sequential_tool_calls_are_numbered
    (request_id : option string) (payload : dict) (r : response)
    (calls : list call_lines) (tail after : list arrival)
    (now : Z) (line : string) (d : dict) :
  status r = 200 ->
  content r = flat_map lines_of calls ++ tail ++ Line now line :: after ->
  forallb (one_call B) calls = true ->
  forallb (passable B) tail = true ->
  existsb (starts_tool_use B) tail = false ->
  is_data_line line = true ->
  json_loads B (drop 6 line) = inr (VDict d) ->
  lookup "type" d = Some (VStr "message_stop") ->
  let model_name := model_name_of payload in
  let reason := match calls with [] => "stop" | _ :: _ => "tool_calls" end in
  let chunks :=
    filter about_tool_call (yielded (stream_with_ui B request_id payload (Responded r))) in
  chunks = numbered B model_name 0 calls ++ [SseData (finish_chunk now model_name reason)]
  /\ map tool_calls_of chunks =
       flat_map
         (fun kc =>
            let k := Z.of_nat (fst kc) in
            let cb := opened_block B (start_line (snd kc)) in
            Some (VList [VDict [("index", VInt k);
                                ("id", get_or cb "id" (VStr ("call_" ++ str_of_int k)));
                                ("type", VStr "function");
                                ("function", VDict [("name", get_or cb "name" (VStr ""));
                                                    ("arguments", VStr "")])]])
            :: map (fun p =>
                      Some (VList [VDict [("index", VInt k);
                                          ("function",
                                           VDict [("arguments", VStr (snd p))])]]))
                   (fragments B (call_body (snd kc))))
         (in_order calls)
       ++ [None]
  /\ (exists before, chunks = before ++ [SseData (finish_chunk now model_name reason)]
                     /\ Forall (fun i => finish_reason_in i = VNone) before
                     /\ finish_reason_in (SseData (finish_chunk now model_name reason))
                        = VStr reason).
Proof.
  intros Hst Hcontent Hcalls Htail Hnone Hline Hjson Htype model_name reason chunks.
  assert (F : chunks = numbered B model_name 0 calls
                       ++ [SseData (finish_chunk now model_name reason)]).
  { subst chunks.
    destruct (calls_passable _ Hcalls) as [Hp Hs].
    destruct (passable_run B model_name (flat_map lines_of calls ++ tail)) with
      (s := initial_state) as (s' & out & logs & Hc).
    { rewrite forallb_app, Hp, Htail. reflexivity. }
    rewrite app_assoc in Hcontent.
    rewrite (stream_to_message_stop B request_id payload r _ after now line s' out logs
               Hst Hcontent Hc (decode_message_stop B line d Hline Hjson Htype)).
    apply consume_app_inv in Hc.
    destruct Hc as (s1 & out1 & logs1 & out2 & logs2 & Hc1 & Hc2 & -> & _).
    destruct (calls_run model_name calls initial_state _ _ _ Hcalls eq_refl Hc1)
      as (Hf1 & Hidle1 & _).
    destruct (idle_run B _ _ _ _ _ _ Hidle1 Hnone Hc2) as (Hf2 & _).
    rewrite !filter_app, Hf1, Hf2. cbn [filter app initial_state tool_call_index].
    rewrite about_finish_chunk, existsb_app, Hs, Hnone.
    rewrite app_nil_r, orb_false_r. subst reason model_name.
    destruct calls; reflexivity. }
  split; [exact F |]. split.
  - rewrite F, map_app. change 0 with (Z.of_nat 0).
    rewrite numbered_entries. reflexivity.
  - exists (numbered B model_name 0 calls). split; [exact F |].
    split; [apply numbered_no_finish_reason | reflexivity].
Qed.

Lemma no_reasoning_in_tool_call_chunk (now : Z) (model tool_calls content finish_reason : value) :
  has_reasoning
    (SseData (create_openai_tool_call_chunk now model tool_calls content finish_reason))
  = false.
Proof.
  unfold create_openai_tool_call_chunk. destruct (truthy tool_calls), (truthy content);
    reflexivity.
Qed.

Lemma reasoning_chunk_has_reasoning (now : Z) (model thinking : value) :
  has_reasoning (SseData (reasoning_chunk now model thinking)) = true /\
  has_content (SseData (reasoning_chunk now model thinking)) = false.
Proof. split; reflexivity. Qed.

Local Arguments has_reasoning : simpl never.

(** The chunks with a [reasoning_content] that a run yields are those of
    its thinking deltas. *)
Lemma reasoning_run (model_name : value) (xs : list arrival) :
  forall (s s' : stream_state) (out : list sse_item) (logs : list log_record),
    consume B model_name s xs = (Exhausted s', out, logs) ->
    filter has_reasoning out =
    map (fun p => SseData (reasoning_chunk (fst p) model_name (snd p))) (thoughts B xs).
Proof.
  induction xs as [| a rest IH]; intros s s' out logs Hc.
  - simpl in Hc. inversion Hc; subst. reflexivity.
  - apply consume_cons_exhausted in Hc.
    destruct Hc as (now & line & s1 & out1 & logs1 & out2 & logs2
                    & -> & Hr & Hc & -> & ->).
    rewrite filter_app, (IH _ _ _ _ Hc). cbn [thoughts].
    destruct (decode B line) as [ | | e | ev]; cbn [react] in Hr; unfold ok, raise in Hr.
    + inversion Hr; subst. reflexivity.
    + inversion Hr; subst. reflexivity.
    + discriminate.
    + destruct ev as [bt cb | bt | txt | pj | th | ix ti | | | |]; cbn [act] in Hr;
        unfold ok, raise in Hr.
      * inversion Hr; subst. cbn [filter]. unfold initial_tool_chunk.
        rewrite no_reasoning_in_tool_call_chunk. reflexivity.
      * inversion Hr; subst. reflexivity.
      * inversion Hr; subst. destruct (truthy txt); [| reflexivity].
        cbn [filter]. unfold content_chunk.
        rewrite no_reasoning_in_tool_call_chunk. reflexivity.
      * destruct (truthy pj), (current_tool_use s) as [t |]; try destruct pj;
          try discriminate; inversion Hr; subst; reflexivity.
      * inversion Hr; subst. destruct (truthy th); [| reflexivity].
        cbn [filter map fst snd app].
        rewrite (proj1 (reasoning_chunk_has_reasoning _ _ _)). reflexivity.
      * inversion Hr; subst. cbn [filter]. unfold content_chunk.
        rewrite no_reasoning_in_tool_call_chunk. reflexivity.
      * inversion Hr; subst. reflexivity.
      * unfold on_content_block_stop in Hr.
        destruct (current_tool_use s); inversion Hr; subst; reflexivity.
      * unfold on_message_stop in Hr. discriminate.
      * inversion Hr; subst. reflexivity.
Qed.

(** X6.  The thinking of the model never reaches the answer text: in a
    stream that ends with [message_stop], the chunks whose delta has a
    [reasoning_content] are those of the thinking deltas that are not empty,
    one for each, in their order and with their text, and none of them has a
    [content]. *)
Theorem thinking_goes_to_reasoning_content
    (request_id : option string) (payload : dict) (r : response)
    (before after : list arrival) (now : Z) (line : string) (d : dict) :
  status r = 200 ->
  content r = before ++ Line now line :: after ->
  forallb (passable B) before = true ->
  is_data_line line = true ->
  json_loads B (drop 6 line) = inr (VDict d) ->
  lookup "type" d = Some (VStr "message_stop") ->
  let items := yielded (stream_with_ui B request_id payload (Responded r)) in
  filter has_reasoning items =
    map (fun p => SseData (reasoning_chunk (fst p) (model_name_of payload) (snd p)))
        (thoughts B before) /\
  Forall (fun i => has_content i = false) (filter has_reasoning items).
Proof.
  intros Hst Hcontent Hpass Hline Hjson Htype items. subst items.
  destruct (passable_run B (model_name_of payload) before Hpass initial_state)
    as (s' & out & logs & Hc).
  rewrite (stream_to_message_stop B request_id payload r _ after now line s' out logs
             Hst Hcontent Hc (decode_message_stop B line d Hline Hjson Htype)).
  assert (Hf : filter has_reasoning
                 (out ++ [SseData (finish_chunk now (model_name_of payload)
                                     (if existsb (starts_tool_use B) before
                                      then "tool_calls" else "stop")); SseDone])
               = map (fun p => SseData (reasoning_chunk (fst p) (model_name_of payload) (snd p)))
                     (thoughts B before)).
  { rewrite filter_app, (reasoning_run _ _ _ _ _ _ Hc). cbn [filter].
    unfold finish_chunk. rewrite no_reasoning_in_tool_call_chunk.
    change (has_reasoning SseDone) with false. cbn [filter]. apply app_nil_r. }
  split; [exact Hf |]. rewrite Hf.
  apply Forall_forall. intros i Hin. apply in_map_iff in Hin.
  destruct Hin as (p & <- & _). reflexivity.
Qed.

End StreamFacts.

Section PipeFacts.

Context (B : Builtins).

Lemma lookup_filter (keep : value -> bool) (k : string) (d : dict) :
  NoDup (map fst d) ->
  lookup k (filter (fun kv => keep (snd kv)) d) =
  match lookup k d with
  | Some v => if keep v then Some v else None
  | None => None
  end.
Proof.
  induction d as [| [k' v'] d IH]; intros Hnd; [reflexivity |].
  inversion Hnd as [| ? ? Hnotin Hnd']; subst. specialize (IH Hnd').
  cbn [filter snd lookup].
  destruct (k' =? k)%string eqn:Ek.
  - apply String.eqb_eq in Ek. subst k'.
    assert (Hnone : lookup k d = None).
    { clear - Hnotin. induction d as [| [k0 v0] d IH]; [reflexivity |].
      cbn [lookup]. destruct (k0 =? k)%string eqn:E.
      - apply String.eqb_eq in E. subst k0. exfalso. apply Hnotin. left. reflexivity.
      - apply IH. intros Hin. apply Hnotin. right. exact Hin. }
    destruct (keep v').
    + cbn [lookup]. rewrite String.eqb_refl. reflexivity.
    + rewrite IH, Hnone. reflexivity.
  - destruct (keep v'); [cbn [lookup]; rewrite Ek |]; exact IH.
Qed.

(** The fields of lines 345-364 that survive line 366. *)
Lemma initial_payload_lookup (body : dict) (messages : value) (model_name : string)
    (payload : dict) :
  initial_payload B body messages model_name = inr payload ->
  Forall (fun kv => is_none (snd kv) = false) payload /\
  exists processed max_tokens temperature top_k top_p,
    process_messages B messages = inr processed /\
    optional (py_float B) body "temperature" = inr temperature /\
    optional (py_int B) body "top_k" = inr top_k /\
    optional (py_float B) body "top_p" = inr top_p /\
    forall k,
      lookup k payload =
      match lookup k [("model", VStr model_name);
                      ("messages", processed);
                      ("max_tokens", max_tokens);
                      ("temperature", temperature);
                      ("top_k", top_k);
                      ("top_p", top_p);
                      ("stream", get_or body "stream" (VBool true));
                      ("metadata", get_or body "metadata" (VDict []))] with
      | Some v => if is_none v then None else Some v
      | None => None
      end.
Proof.
  unfold initial_payload.
  destruct (process_messages B messages) as [e | processed] eqn:Ep; [discriminate |].
  rewrite bind_ok.
  destruct (min_with_limit _ _) as [e | max_tokens]; [discriminate |].
  rewrite bind_ok.
  destruct (optional (py_float B) body "temperature") as [e | t]; [discriminate |].
  rewrite bind_ok.
  destruct (optional (py_int B) body "top_k") as [e | tk]; [discriminate |].
  rewrite bind_ok.
  destruct (optional (py_float B) body "top_p") as [e | tp]; [discriminate |].
  rewrite bind_ok.
  match goal with |- ok (filter _ ?l) = _ -> _ => remember l as fields eqn:Ef end.
  unfold ok. intros H. injection H as <-. split.
  - apply Forall_forall. intros kv Hin. apply filter_In in Hin.
    destruct Hin as [_ Hk]. apply negb_true_iff in Hk. exact Hk.
  - exists processed, max_tokens, t, tk, tp. repeat split. intros k.
    rewrite (lookup_filter (fun v => negb (is_none v))).
    + rewrite <- Ef. destruct (lookup k fields) as [v |]; [destruct (is_none v) |];
        reflexivity.
    + subst fields. cbn [map fst]. repeat constructor; cbn [In]; intros Hin;
        decompose [or] Hin; try discriminate; assumption.
Qed.

Lemma dict_set_all (P : value -> Prop) (k : string) (v : value) (d : dict) :
  P v -> Forall (fun kv => P (snd kv)) d -> Forall (fun kv => P (snd kv)) (dict_set k v d).
Proof.
  intros Hv Hd. induction Hd as [| [k' v'] d Hkv Hd IH]; cbn [dict_set].
  - constructor; [exact Hv | constructor].
  - destruct (k' =? k)%string; constructor; assumption.
Qed.

Lemma convert_tool_choice_not_none (tool_choice c : value) :
  convert_tool_choice tool_choice = inr (Some c) -> is_none c = false.
Proof.
  unfold convert_tool_choice.
  destruct (eq_str tool_choice "none"); [intros H; injection H as <-; reflexivity |].
  destruct (eq_str tool_choice "auto"); [intros H; injection H as <-; reflexivity |].
  destruct tool_choice; try discriminate.
  destruct (get (VDict kvs) "function" VNone) as [e | f]; [discriminate |].
  rewrite bind_ok. destruct (truthy f); [| discriminate].
  destruct (getitem f "name") as [e | name]; [discriminate |].
  rewrite bind_ok. intros H. injection H as <-. reflexivity.
Qed.

(** What [build_payload] adds to the first fields. *)
Lemma build_payload_stages
    (valves : Valves) (body : dict) (system_message messages : value)
    (model_name : string) (is_thinking_mode : bool) (payload : dict) :
  build_payload B valves body system_message messages model_name is_thinking_mode
    = inr payload ->
  exists p0,
    initial_payload B body messages model_name = inr p0 /\
    (forall k, settled k -> lookup k payload = lookup k p0) /\
    (Forall (fun kv => is_none (snd kv) = false) p0 ->
     Forall (fun kv => is_none (snd kv) = false) payload).
Proof.
  unfold build_payload. intros H.
  destruct (initial_payload B body messages model_name) as [e | p0] eqn:E0;
    [discriminate |].
  rewrite bind_ok in H.
  destruct (add_tools body (add_system B system_message p0)) as [e | p2] eqn:E2;
    [discriminate |].
  rewrite bind_ok in H.
  destruct (add_response_format body p2) as [e | p3] eqn:E3; [discriminate |].
  rewrite bind_ok in H. injection H as <-.
  exists p0. split; [reflexivity |]. split.
  - intros k Hk.
    rewrite add_thinking_keeps, (add_response_format_keeps _ _ _ _ Hk E3),
      (add_tools_keeps _ _ _ _ Hk E2), add_system_keeps by exact Hk.
    reflexivity.
  - intros H0.
    assert (H1 : Forall (fun kv => is_none (snd kv) = false) (add_system B system_message p0)).
    { unfold add_system. destruct (truthy system_message); [| exact H0].
      apply (dict_set_all (fun v => is_none v = false)); [reflexivity | exact H0]. }
    assert (H2 : Forall (fun kv => is_none (snd kv) = false) p2).
    { revert E2. unfold add_tools. destruct (lookup "tools" body) as [tools |].
      - destruct (convert_openai_tools_to_anthropic tools) as [e | ts]; [discriminate |].
        rewrite bind_ok.
        destruct (convert_tool_choice _) as [e | choice] eqn:Ec; [discriminate |].
        rewrite bind_ok. intros H. injection H as <-.
        assert (Ht : Forall (fun kv => is_none (snd kv) = false)
                       (dict_set "tools" (VList ts) (add_system B system_message p0))).
        { apply (dict_set_all (fun v => is_none v = false)); [reflexivity | exact H1]. }
        destruct choice as [c |]; [| exact Ht].
        apply (dict_set_all (fun v => is_none v = false)); [| exact Ht].
        exact (convert_tool_choice_not_none _ _ Ec).
      - intros H. injection H as <-. exact H1. }
    assert (H3 : Forall (fun kv => is_none (snd kv) = false) p3).
    { revert E3. unfold add_response_format.
      destruct (lookup "response_format" body) as [rf |].
      - destruct (get rf "type" VNone) as [e | ft]; [discriminate |].
        rewrite bind_ok. intros H. injection H as <-.
        apply (dict_set_all (fun v => is_none v = false)); [reflexivity | exact H2].
      - intros H. injection H as <-. exact H2. }
    unfold add_thinking. destruct is_thinking_mode; [| exact H3].
    apply (dict_set_all (fun v => is_none v = false)); [reflexivity | exact H3].
Qed.

Lemma settled_key (k : string) :
  In k ["temperature"; "top_k"; "top_p"; "stream"; "metadata"; "messages"] -> settled k.
Proof.
  intros Hin k' H. simpl in Hin, H.
  decompose [or] Hin; decompose [or] H; subst; try reflexivity; contradiction.
Qed.

(** X11.  No field of the payload is [None]: the optional fields the request
    leaves out, or gives as [null], are absent from the payload rather than
    sent as [null]. *)
Theorem payload_has_no_null_field (valves : Valves) (body : dict) (req : request) :
  prepare B valves body = inr req ->
  Forall (fun kv => snd kv <> VNone) (request_payload req) /\
  forall k, In k ["temperature"; "top_k"; "top_p"] ->
    lookup k body = None \/ lookup k body = Some VNone ->
    lookup k (request_payload req) = None.
Proof.
  intros H.
  destruct (prepare_steps B _ _ _ H) as (a & sm & ms & model & _ & _ & _ & _ & Hb).
  destruct (build_payload_stages _ _ _ _ _ _ _ Hb) as (p0 & H0 & Hkeep & Hall).
  destruct (initial_payload_lookup _ _ _ _ H0)
    as (Hnone & processed & mt & t & tk & tp & _ & Et & Etk & Etp & Hlook).
  split.
  - specialize (Hall Hnone). rewrite Forall_forall in *. intros kv Hin Hv.
    specialize (Hall kv Hin). rewrite Hv in Hall. discriminate.
  - intros k Hk Habsent.
    rewrite Hkeep by (apply settled_key; simpl in *; tauto).
    rewrite Hlook.
    assert (Hopt : forall conv, optional conv body k = inr VNone).
    { intros conv. unfold optional. destruct Habsent as [-> | ->]; reflexivity. }
    simpl in Hk. decompose [or] Hk; subst; try contradiction.
    + rewrite Hopt in Et. injection Et as <-. reflexivity.
    + rewrite Hopt in Etk. injection Etk as <-.
      cbn [lookup String.eqb Ascii.eqb Bool.eqb]. reflexivity.
    + rewrite Hopt in Etp. injection Etp as <-.
      cbn [lookup String.eqb Ascii.eqb Bool.eqb]. reflexivity.
Qed.

Lemma prepared_stream (valves : Valves) (body : dict) (req : request) :
  prepare B valves body = inr req ->
  lookup "stream" (request_payload req) =
  match lookup "stream" body with
  | None => Some (VBool true)
  | Some VNone => None
  | Some v => Some v
  end.
Proof.
  intros H.
  destruct (prepare_steps B _ _ _ H) as (a & sm & ms & model & _ & _ & _ & _ & Hb).
  destruct (build_payload_stages _ _ _ _ _ _ _ Hb) as (p0 & H0 & Hkeep & _).
  destruct (initial_payload_lookup _ _ _ _ H0)
    as (_ & processed & mt & t & tk & tp & _ & _ & _ & _ & Hlook).
  rewrite Hkeep by (apply settled_key; simpl; tauto).
  rewrite Hlook. cbn [lookup String.eqb Ascii.eqb Bool.eqb].
  unfold get_or. destruct (lookup "stream" body) as [v |]; [| reflexivity].
  destruct v; reflexivity.
Qed.

(** X12.  The request's [stream] field decides how [pipe] answers.  Left
    out, the answer is the stream; given, its truth decides between the
    stream and the one-shot request; given as [null], the payload has no
    such field and the answer is the error text of a [KeyError].  The
    network is not used before the stream is consumed. *)
Theorem stream_field_decides_mode
    (valves : Valves) (request_id : option string) (body : dict)
    (server : nat -> post_outcome) (req : request) :
  ANTHROPIC_API_KEY valves <> "" ->
  prepare B valves body = inr req ->
  let run := pipe B valves request_id body server in
  (lookup "stream" body = None -> pipe_returns run = Generator req) /\
  (forall v, lookup "stream" body = Some v -> truthy v = true ->
     pipe_returns run = Generator req /\ pipe_effects run = []) /\
  (lookup "stream" body = Some VNone ->
     pipe_returns run = Reply (ErrorOf (KeyError "stream")) (request_id_suffix request_id)
     /\ pipe_effects run = []) /\
  (forall v, lookup "stream" body = Some v -> v <> VNone -> truthy v = false ->
     pipe_effects run = effects (send_request B server request_id)).
Proof.
  intros Hkey Hprep run. subst run.
  pose proof (prepared_stream _ _ _ Hprep) as Hs.
  apply String.eqb_neq in Hkey.
  unfold pipe. rewrite Hkey, Hprep. cbn [getitem]. rewrite Hs.
  split; [intros ->; reflexivity |]. split; [| split].
  - intros v -> Hv. destruct v; try discriminate; cbn [ok]; rewrite Hv; auto.
  - intros ->. auto.
  - intros v -> Hv Hf. destruct v; try contradiction; cbn [ok]; rewrite Hf; reflexivity.
Qed.

Lemma pipe_sends
    (valves : Valves) (request_id : option string) (body : dict)
    (server : nat -> post_outcome) (req : request) (stream : value) :
  ANTHROPIC_API_KEY valves <> "" ->
  prepare B valves body = inr req ->
  lookup "stream" (request_payload req) = Some stream ->
  truthy stream = false ->
  let run := send_request B server request_id in
  pipe_effects (pipe B valves request_id body server) = effects run /\
  forall response, returned run = inr response ->
    pipe_returns (pipe B valves request_id body server) =
    match (if negb (status_code response =? 200) then
             ok (Reply (HttpError (status_code response) (wrapped_text response)) None)
           else
             res <- handle_response response ;;
             blocks <- getitem res "content" ;;
             block <- first_item blocks ;;
             response_text <- getitem block "text" ;;
             ok (ResponseText response_text)) with
    | inr r => r
    | inl (ClientError msg) =>
        Reply (RequestFailed (ClientError msg)) (request_id_suffix (send_request_id run))
    | inl e => Reply (ErrorOf e) (request_id_suffix (send_request_id run))
    end.
Proof.
  intros Hkey Hprep Hs Hf run. apply String.eqb_neq in Hkey.
  unfold pipe. rewrite Hkey, Hprep. cbn [getitem]. rewrite Hs. cbn [ok]. rewrite Hf.
  cbn [pipe_effects pipe_returns]. split; [reflexivity |].
  intros response Hr. fold run. rewrite Hr. rewrite bind_ok. reflexivity.
Qed.

Lemma send_request_after_backoff
    (server : nat -> post_outcome) (request_id : option string)
    (delays : nat -> Z) (n : nat) :
  rate_limited B server delays n ->
  (n <= 3)%nat ->
  exists request_id',
    returned (send_request B server request_id) =
      returned (attempts B server (3 - n) n request_id') /\
    effects (send_request B server request_id) =
      backoff delays 0 n ++ effects (attempts B server (3 - n) n request_id').
Proof.
  intros Hl Hn.
  destruct (attempts_backoff B server delays n (3 - n) 0 request_id Hl) as (rid' & E1 & E2).
  replace (n + (3 - n))%nat with 3%nat in * by lia.
  exists rid'. split; assumption.
Qed.

(** X13.  A one-shot request that is answered 429 fewer than three times and
    then 200 returns the text of the first content block of the answer; the
    effects are the back-offs and one last POST. *)
Theorem pipe_returns_text_after_retries
    (valves : Valves) (request_id : option string) (body : dict)
    (server : nat -> post_outcome) (req : request) (stream : value)
    (delays : nat -> Z) (n : nat) (r : response)
    (res : dict) (blocks block response_text : value) :
  ANTHROPIC_API_KEY valves <> "" ->
  prepare B valves body = inr req ->
  lookup "stream" (request_payload req) = Some stream ->
  truthy stream = false ->
  rate_limited B server delays n ->
  (n < 3)%nat ->
  server n = Responded r ->
  status r = 200 ->
  json_loads B (text r) = inr (VDict res) ->
  (forall usage, lookup "usage" res = Some usage -> exists u, usage = VDict u) ->
  lookup "content" res = Some blocks ->
  first_item blocks = ok block ->
  getitem block "text" = ok response_text ->
  let run := pipe B valves request_id body server in
  pipe_returns run = ResponseText response_text /\
  pipe_effects run = backoff delays 0 n ++ [Posted] /\
  posts (pipe_effects run) = S n.
Proof.
  intros Hkey Hprep Hs Hf Hl Hn Hserver Hst Hjson Husage Hcontent Hfirst Htext run.
  subst run.
  destruct (pipe_sends valves request_id body server req stream Hkey Hprep Hs Hf)
    as [He Hr].
  destruct (send_request_after_backoff server request_id delays n Hl) as (rid' & E1 & E2);
    [lia |].
  destruct (3 - n)%nat as [| left] eqn:El; [lia |].
  cbn [attempts] in E1, E2. rewrite Hserver, Hst in E1, E2.
  cbn [Z.eqb Pos.eqb returned effects] in E1, E2.
  rewrite (Hr _ E1), He, E2. cbn [wrap status_code]. rewrite Hst.
  cbn [Z.eqb Pos.eqb negb]. unfold handle_response. cbn [wrap wrapped_json]. rewrite Hjson.
  rewrite bind_ok. rewrite get_dict, bind_ok.
  assert (Hu : exists u, get_or res "usage" (VDict []) = VDict u).
  { unfold get_or. destruct (lookup "usage" res) as [usage |]; eauto. }
  destruct Hu as [u ->]. rewrite get_dict, !bind_ok.
  cbn [getitem]. rewrite Hcontent. rewrite bind_ok, Hfirst, bind_ok, Htext, bind_ok.
  split; [reflexivity |]. split; [reflexivity |].
  clear. unfold posts.
  assert (Hb : forall k m, List.length (filter is_post (backoff delays k m)) = m).
  { intros k m. revert k. induction m as [| m IH]; intros k; [reflexivity |].
    unfold backoff in *. cbn [seq flat_map]. rewrite filter_app, length_app.
    cbn [filter is_post app List.length]. rewrite IH. reflexivity. }
  rewrite filter_app, length_app, Hb. cbn. lia.
Qed.

(** X14.  A one-shot request that is answered 429 three times is not sent a
    fourth time: [pipe] returns the error text of status 429 with the text
    [Max retries exceeded]; and any other status than 200 that ends the
    retries is returned as the error text of that status with the upstream
    body. *)
Theorem pipe_reports_upstream_errors
    (valves : Valves) (request_id : option string) (body : dict)
    (server : nat -> post_outcome) (req : request) (stream : value)
    (delays : nat -> Z) (n : nat) :
  ANTHROPIC_API_KEY valves <> "" ->
  prepare B valves body = inr req ->
  lookup "stream" (request_payload req) = Some stream ->
  truthy stream = false ->
  rate_limited B server delays n ->
  let run := pipe B valves request_id body server in
  (n = 3%nat ->
     pipe_returns run = Reply (HttpError 429 "Max retries exceeded") None /\
     pipe_effects run = backoff delays 0 3 ++ [Logged LogMaxRetries]) /\
  (forall r, (n < 3)%nat -> server n = Responded r -> status r <> 429 -> status r <> 200 ->
     pipe_returns run = Reply (HttpError (status r) (text r)) None /\
     pipe_effects run = backoff delays 0 n ++ [Posted]).
Proof.
  intros Hkey Hprep Hs Hf Hl run. subst run.
  destruct (pipe_sends valves request_id body server req stream Hkey Hprep Hs Hf)
    as [He Hr].
  split.
  - intros ->.
    destruct (send_request_after_backoff server request_id delays 3 Hl) as (rid' & E1 & E2);
      [lia |].
    cbn [Nat.sub attempts returned effects] in E1, E2.
    rewrite (Hr _ E1), He, E2. split; reflexivity.
  - intros r Hn Hserver H429 H200.
    destruct (send_request_after_backoff server request_id delays n Hl) as (rid' & E1 & E2);
      [lia |].
    destruct (3 - n)%nat as [| left] eqn:El; [lia |].
    cbn [attempts] in E1, E2. rewrite Hserver in E1, E2.
    apply Z.eqb_neq in H429, H200. rewrite H429 in E1, E2.
    cbn [returned effects] in E1, E2.
    rewrite (Hr _ E1), He, E2. cbn [wrap status_code wrapped_text]. rewrite H200.
    split; reflexivity.
Qed.

(** X4.  [pipe] uses the network only for a one-shot request: with a key,
    after the request has been built without an exception, and with a
    [stream] field that is false; and then it posts at most three times. *)
Theorem pipe_posts_only_one_shot_requests
    (valves : Valves) (request_id : option string) (body : dict)
    (server : nat -> post_outcome) :
  let run := pipe B valves request_id body server in
  (posts (pipe_effects run) <= 3)%nat /\
  (pipe_effects run <> [] ->
     ANTHROPIC_API_KEY valves <> "" /\
     exists req stream,
       prepare B valves body = inr req /\
       lookup "stream" (request_payload req) = Some stream /\
       truthy stream = false).
Proof.
  intros run. subst run. unfold pipe.
  destruct (ANTHROPIC_API_KEY valves =? "")%string eqn:Hkey;
    [cbn; split; [lia | congruence] |].
  apply String.eqb_neq in Hkey.
  destruct (prepare B valves body) as [e | req] eqn:Hprep;
    [cbn; split; [lia | congruence] |].
  cbn [getitem].
  destruct (lookup "stream" (request_payload req)) as [stream |] eqn:Hs;
    [| cbn; split; [lia | congruence]].
  cbn [ok]. destruct (truthy stream) eqn:Hf; [cbn; split; [lia | congruence] |].
  cbn [pipe_effects]. split.
  - unfold send_request, max_retries. apply attempts_posts.
  - intros _. split; [exact Hkey |]. exists req, stream.
    split; [reflexivity | split; [exact Hs | exact Hf]].
Qed.

End PipeFacts.

Section RequestFacts.

Lemma either_assoc (f g h : beta_flags) : either (either f g) h = either f (either g h).
Proof. unfold either. cbn. rewrite !orb_assoc. reflexivity. Qed.

Lemma either_swap (f g h : beta_flags) : either (either f g) h = either (either f h) g.
Proof.
  unfold either. cbn. f_equal; rewrite <- !orb_assoc; f_equal; apply orb_comm.
Qed.

Lemma flag_item_either (f : beta_flags) (item : value) :
  flag_item f item = (g <- flag_item no_flags item ;; ok (either f g)).
Proof.
  unfold flag_item.
  destruct (get item "type" VNone) as [e | item_type]; [reflexivity |].
  rewrite !bind_ok.
  destruct (get item "cache_control" VNone) as [e | cache_control]; [reflexivity |].
  rewrite !bind_ok.
  destruct (if truthy cache_control then get cache_control "ttl" VNone else ok VNone)
    as [e | ttl]; [reflexivity |].
  rewrite !bind_ok. reflexivity.
Qed.

Lemma for_each_either (f0 : beta_flags -> value -> result beta_flags) :
  (forall f x, f0 f x = (g <- f0 no_flags x ;; ok (either f g))) ->
  forall xs f,
    for_each f0 f xs = (g <- for_each f0 no_flags xs ;; ok (either f g)).
Proof.
  intros Hf0. induction xs as [| x rest IH]; intros f.
  - cbn [for_each]. rewrite bind_ok. unfold ok, either. destruct f; cbn.
    rewrite !orb_false_r. reflexivity.
  - cbn [for_each]. rewrite (Hf0 f x).
    destruct (f0 no_flags x) as [e | g1]; [reflexivity |].
    rewrite !bind_ok. rewrite (IH (either f g1)), (IH g1).
    destruct (for_each f0 no_flags rest) as [e | g2]; [reflexivity |].
    rewrite !bind_ok. rewrite either_assoc. reflexivity.
Qed.

Lemma flag_message_either (f : beta_flags) (msg : value) :
  flag_message f msg = (g <- flag_message no_flags msg ;; ok (either f g)).
Proof.
  unfold flag_message.
  destruct (getitem msg "content") as [e | c]; [reflexivity |].
  rewrite !bind_ok.
  destruct c; try (rewrite bind_ok; unfold ok, either; destruct f; cbn;
                   rewrite !orb_false_r; reflexivity).
  apply for_each_either. apply flag_item_either.
Qed.

Lemma flags_ignore_order (msgs msgs' : list value) :
  Permutation msgs msgs' ->
  forall f r, for_each flag_message f msgs = inr r -> for_each flag_message f msgs' = inr r.
Proof.
  induction 1 as [| x l l' Hp IH | x y l | l l' l'' Hp1 IH1 Hp2 IH2]; intros f r H.
  - exact H.
  - cbn [for_each] in *. destruct (flag_message f x) as [e | f']; [discriminate |].
    rewrite bind_ok in *. apply IH. exact H.
  - cbn [for_each] in *.
    destruct (flag_message no_flags y) as [ey | gy] eqn:Ey;
      rewrite (flag_message_either f y), Ey in H; [discriminate |].
    rewrite !bind_ok in H.
    destruct (flag_message no_flags x) as [ex | gx] eqn:Ex;
      rewrite (flag_message_either _ x), Ex in H; [discriminate |].
    rewrite !bind_ok in H.
    rewrite (flag_message_either f x), Ex, !bind_ok.
    rewrite (flag_message_either _ y), Ey, !bind_ok.
    rewrite either_swap. exact H.
  - apply IH2, IH1, H.
Qed.

Lemma build_headers_flags
    (valves : Valves) (body : dict) (model_name : string) (is_thinking_mode : bool)
    (hs : list (string * string)) :
  build_headers valves body model_name is_thinking_mode = inr hs ->
  exists msgs f,
    py_iter (get_or body "messages" (VList [])) = inr msgs /\
    for_each flag_message no_flags msgs = inr f /\
    let beta_headers :=
      (if has_128k_output model_name then [OUTPUT128K_HEADER] else []) ++
      (if has_pdf f then [PDF_HEADER] else []) ++
      (if has_cache f then [PROMPT_CACHE_HEADER] else []) ++
      (if has_1h_cache f then [EXTENDED_CACHE_HEADER] else []) ++
      (if has_files f then [FILES_API_HEADER] else []) ++
      (if is_thinking_mode && truthy (get_or body "interleaved_thinking" (VBool false))
       then [INTERLEAVED_THINKING_HEADER] else []) in
    hs = base_headers valves ++
         match beta_headers with
         | [] => []
         | _ :: _ => [("anthropic-beta", join "," beta_headers)]
         end.
Proof.
  unfold build_headers. intros H.
  destruct (py_iter (get_or body "messages" (VList []))) as [e | msgs]; [discriminate |].
  rewrite bind_ok in H. fold no_flags in H.
  destruct (for_each flag_message no_flags msgs) as [e | f] eqn:Ef; [discriminate |].
  rewrite bind_ok in H. unfold ok in H. injection H as <-.
  exists msgs, f. split; [reflexivity | split; [exact Ef | reflexivity]].
Qed.

(** X15.  The headers do not depend on the order of the messages: a request
    whose messages are those of another in another order gets the same
    headers. *)
Theorem headers_ignore_message_order
    (valves : Valves) (body body' : dict) (msgs msgs' : list value)
    (model_name : string) (is_thinking_mode : bool) (hs : list (string * string)) :
  lookup "messages" body = Some (VList msgs) ->
  lookup "messages" body' = Some (VList msgs') ->
  Permutation msgs msgs' ->
  lookup "interleaved_thinking" body = lookup "interleaved_thinking" body' ->
  build_headers valves body model_name is_thinking_mode = inr hs ->
  build_headers valves body' model_name is_thinking_mode = inr hs.
Proof.
  intros Hm Hm' Hp Hi. unfold build_headers, get_or. rewrite Hm, Hm', Hi.
  cbn [py_iter]. rewrite !bind_ok.
  destruct (for_each flag_message _ msgs) as [e | f] eqn:Ef; [discriminate |].
  rewrite (flags_ignore_order _ _ Hp _ _ Ef). intros H. exact H.
Qed.




Lemma convert_tools_from (tools : list value) :
  Forall tool_object tools ->
  forall acc,
    for_each convert_tool acc tools =
    ok (acc ++ map anthropic_tool (filter is_function_tool tools)).
Proof.
  induction 1 as [| tool rest Htool Hrest IH]; intros acc.
  - cbn. rewrite app_nil_r. reflexivity.
  - destruct Htool as (d & -> & Hfun). cbn [for_each filter].
    unfold convert_tool at 1. rewrite get_dict, bind_ok.
    unfold is_function_tool in *.
    destruct (eq_str (get_or d "type" VNone) "function").
    + destruct (Hfun eq_refl) as [function Hf].
      rewrite get_dict, bind_ok, Hf, !get_dict, !bind_ok. rewrite IH.
      cbn [map anthropic_tool]. rewrite Hf, <- app_assoc. reflexivity.
    + rewrite bind_ok. apply IH.
Qed.

(** X7.  The conversion keeps the tools whose [type] is [function], in
    their order, each as its name, description and [input_schema]; a
    tool of any other type is left out without a word. *)
Theorem function_tools_are_converted_in_order (tools : list value) :
  Forall tool_object tools ->
  convert_openai_tools_to_anthropic (VList tools) =
    ok (map anthropic_tool (filter is_function_tool tools))
  /\ (List.length (filter is_function_tool tools) <= List.length tools)%nat.
Proof.
  intros H. split.
  - unfold convert_openai_tools_to_anthropic. cbn [py_iter]. rewrite bind_ok.
    apply (convert_tools_from tools H []).
  - apply filter_length_le.
Qed.

(** X17.  Every model the pipe advertises resolves to a vendor model that
    has its own ceiling in [MODEL_MAX_TOKENS], so that none of them falls
    back to 4096; it is requested in thinking mode exactly when its name
    ends in [-thinking], and otherwise under its own name. *)
Theorem advertised_models_have_ceilings (name : string) :
  In (model_entry name) pipes ->
  let model_name := fst (resolve_model ("api/" ++ name)) in
  let is_thinking_mode := snd (resolve_model ("api/" ++ name)) in
  (exists ceiling, table_get model_name MODEL_MAX_TOKENS = Some ceiling) /\
  is_thinking_mode = endswith "-thinking" name /\
  (if is_thinking_mode
   then (model_name ++ "-thinking")%string = name
   else model_name = name).
Proof.
  unfold pipes, get_anthropic_models. cbn [map app In]. intros H.
  decompose [or] H; try contradiction;
    match goal with E : model_entry _ = model_entry _ |- _ =>
      unfold model_entry in E; injection E as _ E; subst name
    end;
    vm_compute; (split; [eexists; reflexivity | split; reflexivity]).
Qed.

Lemma split_not_nil (sep : ascii) (s : string) : split sep s <> [].
Proof.
  destruct s as [| c rest]; cbn [split]; [discriminate |].
  destruct (c =? sep)%char; [discriminate |].
  destruct (split sep rest); discriminate.
Qed.

Lemma last_cons {A : Type} (x : A) (l : list A) (d : A) :
  l <> [] -> last (x :: l) d = last l d.
Proof. destruct l; [contradiction | reflexivity]. Qed.

Lemma split_two (sep : ascii) (a b : string) :
  exists piece pieces, split sep (a ++ String sep b) = piece :: pieces /\ pieces <> [].
Proof.
  induction a as [| c a IH]; cbn [append split].
  - rewrite Ascii.eqb_refl. exists EmptyString, (split sep b).
    split; [reflexivity | apply split_not_nil].
  - destruct (c =? sep)%char.
    + eexists _, _. split; [reflexivity | apply split_not_nil].
    + destruct IH as (piece & pieces & -> & Hne). eexists _, _. split; [reflexivity | exact Hne].
Qed.

(** What follows the last separator is the last piece. *)
Lemma last_split_app (sep : ascii) (a b : string) :
  last (split sep (a ++ String sep b)) EmptyString = last (split sep b) EmptyString.
Proof.
  induction a as [| c a IH]; cbn [append split].
  - rewrite Ascii.eqb_refl. apply last_cons, split_not_nil.
  - destruct (c =? sep)%char.
    + rewrite last_cons; [exact IH |].
      destruct (split_two sep a b) as (piece & pieces & -> & _). discriminate.
    + destruct (split_two sep a b) as (piece & pieces & E & Hne).
      rewrite E in *. rewrite last_cons by exact Hne.
      rewrite <- IH. rewrite last_cons by exact Hne. reflexivity.
Qed.

Lemma split_without_separator (sep : ascii) (s : string) :
  existsb (Ascii.eqb sep) (list_ascii_of_string s) = false ->
  split sep s = [s].
Proof.
  induction s as [| c s IH]; cbn [list_ascii_of_string existsb split]; [reflexivity |].
  intros H. apply orb_false_iff in H. destruct H as [Hc Hs].
  rewrite Ascii.eqb_sym, Hc, (IH Hs). reflexivity.
Qed.

Lemma contains_app (needle s t : string) :
  contains needle s = true -> contains needle (s ++ t) = true.
Proof.
  induction s as [| c s IH]; cbn [contains append]; intros H.
  - rewrite orb_false_r in H.
    pose proof (startswith_app needle EmptyString t H) as H'. cbn [append] in H'.
    destruct t; cbn [contains]; rewrite H'; reflexivity.
  - apply orb_true_iff in H. destruct H as [H | H].
    + pose proof (startswith_app needle (String c s) t H) as H'. cbn [append] in H'.
      rewrite H'. reflexivity.
    + rewrite (IH H). apply orb_true_r.
Qed.

(** X18.  Whatever precedes the last slash of the model identifier is
    dropped from the model name, yet it is searched for [-thinking]: an
    identifier with [-thinking] before the slash is resolved in thinking mode
    although the model name has no such suffix. *)
Theorem model_prefix_is_dropped_but_read (prefix name : string) :
  existsb (Ascii.eqb "/") (list_ascii_of_string name) = false ->
  let model := (prefix ++ "/" ++ name)%string in
  fst (resolve_model model) =
    (if snd (resolve_model model) then replace "-thinking" "" name else name) /\
  (contains "-thinking" prefix = true -> snd (resolve_model model) = true) /\
  (contains "-thinking" model = false -> resolve_model model = (name, false)).
Proof.
  intros Hname model. subst model. unfold resolve_model. cbn [fst snd].
  assert (Hlast : last (split "/" (prefix ++ "/" ++ name)) EmptyString = name).
  { change ("/" ++ name)%string with (String "/" name).
    rewrite last_split_app, (split_without_separator _ _ Hname). reflexivity. }
  rewrite Hlast. split; [reflexivity |]. split.
  - intros H. apply contains_app. exact H.
  - intros ->. reflexivity.
Qed.

Lemma count_remote (items : list value) :
  Forall remote_or_no_image items ->
  forall acc, for_each count_image acc items = ok acc.
Proof.
  induction 1 as [| item rest Hitem Hrest IH]; intros acc; [reflexivity |].
  destruct Hitem as (d & -> & Himage). cbn [for_each].
  assert (H1 : count_image acc (VDict d) = ok acc).
  { unfold count_image. rewrite get_dict, bind_ok.
    destruct (eq_str (get_or d "type" VNone) "image_url"); [| reflexivity].
    destruct (Himage eq_refl) as (image_url & u & Hi & Hu & Hs).
    cbn [getitem]. rewrite Hi, bind_ok. cbn [getitem]. rewrite Hu, bind_ok, Hs.
    reflexivity. }
  rewrite H1, bind_ok. apply IH.
Qed.

(** X19.  The image limits concern inline images only: a conversation whose
    images are all given by URL passes the validation, however many and
    however large they are. *)
Theorem remote_images_are_not_counted (messages : list value) :
  Forall without_inline_image messages ->
  image_totals (VList messages) = ok (0%Q, 0) /\
  validate_total_image_size (VList messages) = ok tt.
Proof.
  intros H.
  assert (Ht : forall acc, for_each count_images_of acc messages = ok acc).
  { induction H as [| message rest Hm Hrest IH]; intros acc; [reflexivity |].
    destruct Hm as (d & -> & Hitems). cbn [for_each].
    assert (H1 : count_images_of acc (VDict d) = ok acc).
    { unfold count_images_of. rewrite get_dict, bind_ok. unfold get_or.
      destruct (lookup "content" d) as [c |] eqn:Ec; [| reflexivity].
      destruct c; try reflexivity. apply count_remote, Hitems. reflexivity. }
    rewrite H1, bind_ok. apply IH. }
  assert (Hi : image_totals (VList messages) = ok (0%Q, 0)).
  { unfold image_totals. cbn [py_iter]. rewrite bind_ok. apply Ht. }
  split; [exact Hi |].
  unfold validate_total_image_size. rewrite Hi, bind_ok. reflexivity.
Qed.

End RequestFacts.

Section ScanFacts.

Context (B : Builtins).

Lemma prepare_headers (valves : Valves) (body : dict) (req : request) :
  prepare B valves body = inr req ->
  exists model,
    build_headers valves (scanned_body body)
      (fst (resolve_model model)) (snd (resolve_model model)) = inr (request_headers req).
Proof.
  unfold prepare. intros H.
  destruct (getitem (VDict body) "messages") as [e | all_messages]; [discriminate |].
  rewrite bind_ok in H.
  destruct (pop_system_message B all_messages) as [e | [system_message messages]];
    [discriminate |].
  rewrite bind_ok in H.
  destruct (validate_total_image_size messages) as [e | []]; [discriminate |].
  rewrite bind_ok in H.
  destruct (getitem (VDict body) "model") as [e | model]; [discriminate |].
  rewrite bind_ok in H.
  destruct model as [| | | | model | |]; try discriminate.
  exists model.
  destruct (resolve_model model) as [model_name is_thinking_mode].
  destruct (build_payload B valves body system_message messages model_name
              is_thinking_mode) as [e | payload]; [discriminate |].
  rewrite bind_ok in H. cbn [fst snd].
  destruct (build_headers valves (scanned_body body) model_name is_thinking_mode)
    as [e | hs]; [discriminate |].
  rewrite bind_ok in H. injection H as <-. reflexivity.
Qed.

Lemma flag_item_keeps_cache (f f' : beta_flags) (item : value) :
  flag_item f item = inr f' -> has_cache f = true -> has_cache f' = true.
Proof.
  unfold flag_item. intros H Hf.
  destruct (get item "type" VNone) as [e | item_type]; [discriminate |].
  rewrite bind_ok in H.
  destruct (get item "cache_control" VNone) as [e | cache_control]; [discriminate |].
  rewrite bind_ok in H.
  destruct (if truthy cache_control then get cache_control "ttl" VNone else ok VNone)
    as [e | ttl]; [discriminate |].
  rewrite bind_ok in H. injection H as <-. cbn [has_cache]. rewrite Hf. reflexivity.
Qed.

Lemma flag_item_finds_cache (f f' : beta_flags) (item : dict) (cache_control : value) :
  flag_item f (VDict item) = inr f' ->
  lookup "cache_control" item = Some cache_control ->
  truthy cache_control = true ->
  has_cache f' = true.
Proof.
  unfold flag_item. intros H Hc Ht.
  assert (Hg : get_or item "cache_control" VNone = cache_control)
    by (unfold get_or; rewrite Hc; reflexivity).
  rewrite get_dict, bind_ok, get_dict, bind_ok, Hg, Ht in H.
  destruct (get cache_control "ttl" VNone) as [e | ttl]; [discriminate |].
  rewrite bind_ok in H. injection H as <-. cbn [has_cache]. apply orb_true_r.
Qed.

Lemma flag_items_keep_cache (items : list value) :
  forall f f', for_each flag_item f items = inr f' ->
               has_cache f = true -> has_cache f' = true.
Proof.
  induction items as [| item rest IH]; intros f f' H Hf.
  - cbn in H. injection H as <-. exact Hf.
  - cbn [for_each] in H. destruct (flag_item f item) as [e | f1] eqn:E1; [discriminate |].
    rewrite bind_ok in H. apply (IH _ _ H). apply (flag_item_keeps_cache _ _ _ E1 Hf).
Qed.

Lemma flag_items_find_cache (items : list value) (item : dict) (cache_control : value) :
  In (VDict item) items ->
  lookup "cache_control" item = Some cache_control ->
  truthy cache_control = true ->
  forall f f', for_each flag_item f items = inr f' -> has_cache f' = true.
Proof.
  intros Hin Hc Ht. induction items as [| first rest IH]; [contradiction |].
  intros f f' H. cbn [for_each] in H.
  destruct (flag_item f first) as [e | f1] eqn:E1; [discriminate |].
  rewrite bind_ok in H. destruct Hin as [-> | Hin].
  - apply (flag_items_keep_cache _ _ _ H).
    apply (flag_item_finds_cache _ _ _ _ E1 Hc Ht).
  - apply (IH Hin _ _ H).
Qed.

Lemma flag_messages_keep_cache (msgs : list value) :
  forall f f', for_each flag_message f msgs = inr f' ->
               has_cache f = true -> has_cache f' = true.
Proof.
  induction msgs as [| msg rest IH]; intros f f' H Hf.
  - cbn in H. injection H as <-. exact Hf.
  - cbn [for_each] in H. destruct (flag_message f msg) as [e | f1] eqn:E1; [discriminate |].
    rewrite bind_ok in H. apply (IH _ _ H).
    unfold flag_message in E1.
    destruct (getitem msg "content") as [e | c]; [discriminate |].
    rewrite bind_ok in E1.
    destruct c; try (injection E1 as <-; exact Hf).
    apply (flag_items_keep_cache _ _ _ E1 Hf).
Qed.

Lemma flag_messages_find_cache
    (msgs : list value) (d item : dict) (items : list value) (cache_control : value) :
  In (VDict d) msgs ->
  lookup "content" d = Some (VList items) ->
  In (VDict item) items ->
  lookup "cache_control" item = Some cache_control ->
  truthy cache_control = true ->
  forall f f', for_each flag_message f msgs = inr f' -> has_cache f' = true.
Proof.
  intros Hin Hcontent Hitem Hc Ht. induction msgs as [| msg rest IH]; [contradiction |].
  intros f f' H. cbn [for_each] in H.
  destruct (flag_message f msg) as [e | f1] eqn:E1; [discriminate |].
  rewrite bind_ok in H. destruct Hin as [-> | Hin].
  - apply (flag_messages_keep_cache _ _ _ H).
    unfold flag_message in E1. cbn [getitem] in E1. rewrite Hcontent, bind_ok in E1.
    apply (flag_items_find_cache _ _ _ Hitem Hc Ht _ _ E1).
  - apply (IH Hin _ _ H).
Qed.

Lemma eq_str_is (v : value) (lit : string) : eq_str v lit = true -> v = VStr lit.
Proof.
  destruct v; try discriminate. cbn [eq_str]. intros H.
  apply String.eqb_eq in H. congruence.
Qed.

(** X29.  Prompt caching is announced for tool items the client has not
    marked.  [_process_messages] writes [cache_control = {"type":
    "ephemeral"}] into every [tool_results] item of a user message and every
    [tool_calls] item of an assistant message without [tool_calls] of its
    own; these items are the objects of the request body, which the header
    scan reads afterwards.  So a body with such an item is sent with an
    [anthropic-beta] header that lists [prompt-caching-2024-07-31], whatever
    [cache_control] the client gave the item. *)
Theorem tool_items_announce_caching
    (valves : Valves) (body : dict) (req : request)
    (messages : list value) (d item : dict) (items : list value) :
  prepare B valves body = inr req ->
  lookup "messages" body = Some (VList messages) ->
  In (VDict d) messages ->
  lookup "content" d = Some (VList items) ->
  In (VDict item) items ->
  let role := get_or d "role" (VStr "user") in
  (eq_str role "user" = true /\ lookup "type" item = Some (VStr "tool_results")) \/
  (eq_str role "assistant" = true /\
   truthy (get_or d "tool_calls" (VList [])) = false /\
   lookup "type" item = Some (VStr "tool_calls")) ->
  exists beta_headers,
    request_headers req =
      base_headers valves ++ [("anthropic-beta", join "," beta_headers)] /\
    In PROMPT_CACHE_HEADER beta_headers.
Proof.
  intros Hreq Hm Hd Hcontent Hitem role Hkind.
  destruct (prepare_headers _ _ _ Hreq) as (model & Hh).
  destruct (build_headers_flags _ _ _ _ _ Hh) as (msgs & f & Hmsgs & Hf & Hhs).
  assert (Hscan : get_or (scanned_body body) "messages" (VList [])
                  = VList (map marked_message messages)).
  { unfold scanned_body, get_or. rewrite Hm, lookup_dict_set_same. reflexivity. }
  rewrite Hscan in Hmsgs. cbn [py_iter] in Hmsgs. injection Hmsgs as <-.
  set (mark := VDict [("type", VStr "ephemeral")]).
  assert (Hmarked : marked_message (VDict d) =
                    VDict (dict_set "content" (VList (map (marked_item role) items)) d)).
  { unfold marked_message. fold role. rewrite Hcontent.
    destruct Hkind as [[Hr _] | [Hr [Ht _]]].
    - rewrite (eq_str_is _ _ Hr). reflexivity.
    - rewrite Ht, (eq_str_is _ _ Hr). reflexivity. }
  assert (Hmarked_item : marked_item role (VDict item) =
                         VDict (dict_set "cache_control" mark item)).
  { unfold marked_item, get_or.
    destruct Hkind as [[Hr Ht] | [Hr [_ Ht]]]; rewrite Ht, Hr; cbn [eq_str String.eqb];
      rewrite ?orb_true_r; reflexivity. }
  assert (Hcache : has_cache f = true).
  { refine (flag_messages_find_cache (map marked_message messages)
              (dict_set "content" (VList (map (marked_item role) items)) d)
              (dict_set "cache_control" mark item)
              (map (marked_item role) items) mark _ _ _ _ eq_refl no_flags f Hf).
    - rewrite <- Hmarked. apply in_map, Hd.
    - apply lookup_dict_set_same.
    - rewrite <- Hmarked_item. apply in_map, Hitem.
    - apply lookup_dict_set_same. }
  rewrite Hcache in Hhs. cbv zeta in Hhs.
  exists ((if has_128k_output (fst (resolve_model model)) then [OUTPUT128K_HEADER] else []) ++
          (if has_pdf f then [PDF_HEADER] else []) ++
          [PROMPT_CACHE_HEADER] ++
          (if has_1h_cache f then [EXTENDED_CACHE_HEADER] else []) ++
          (if has_files f then [FILES_API_HEADER] else []) ++
          (if snd (resolve_model model)
              && truthy (get_or (scanned_body body) "interleaved_thinking" (VBool false))
           then [INTERLEAVED_THINKING_HEADER] else [])).
  split.
  - rewrite Hhs. f_equal.
    destruct (has_128k_output (fst (resolve_model model))), (has_pdf f); reflexivity.
  - apply in_or_app. right. apply in_or_app. right. left. reflexivity.
Qed.

End ScanFacts.

Section ContentFacts.

Lemma and_then_done {A C : Type} (a : A) (k : A -> attempt C) : and_then (done a) k = k a.
Proof. reflexivity. Qed.

Lemma lift_done {A : Type} (r : result A) (a : A) : lift r = inr a -> r = inr a.
Proof. destruct r; [discriminate |]. intros H. injection H as <-. reflexivity. Qed.

Lemma and_then_inr {A C : Type} (m : attempt A) (k : A -> attempt C) (c : C) :
  and_then m k = inr c -> exists a, m = inr a /\ k a = inr c.
Proof. destruct m as [e | a]; [discriminate |]. intros H. exists a. auto. Qed.

Lemma bind_inr {A C : Type} (m : result A) (k : A -> result C) (c : C) :
  bind m k = inr c -> exists a, m = inr a /\ k a = inr c.
Proof. destruct m as [e | a]; [discriminate |]. intros H. exists a. auto. Qed.

Lemma eq_str_true (v : value) (lit : string) : eq_str v lit = true -> v = VStr lit.
Proof.
  destruct v; try discriminate. cbn [eq_str]. intros H.
  apply String.eqb_eq in H. subst. reflexivity.
Qed.

Lemma copy_if_set_type (data : value) (k : string) (document document' : dict) :
  (k =? "type")%string = false ->
  copy_if_set data k document = inr document' ->
  lookup "type" document' = lookup "type" document.
Proof.
  intros Hk. unfold copy_if_set. intros H.
  apply bind_inr in H. destruct H as (field & _ & H).
  destruct (truthy field).
  - apply bind_inr in H. destruct H as (x & _ & H). injection H as <-.
    apply lookup_dict_set_other. exact Hk.
  - injection H as <-. reflexivity.
Qed.

Lemma process_image_block (image_data image : value) :
  process_image image_data = inr image ->
  exists d, image = VDict d /\ lookup "type" d = Some (VStr "image").
Proof.
  unfold process_image. intros H.
  apply bind_inr in H. destruct H as (image_url & _ & H).
  apply bind_inr in H. destruct H as (url & _ & H).
  destruct url; try discriminate.
  destruct (startswith "data:image" s).
  - apply bind_inr in H. destruct H as ([mime_type base64_data] & _ & H).
    apply bind_inr in H. destruct H as (after_colon & _ & H).
    apply bind_inr in H. destruct H as (media_type & _ & H).
    destruct (negb (existsb (String.eqb media_type) SUPPORTED_IMAGE_TYPES)); [discriminate |].
    destruct (negb (Qle_bool _ _)); [discriminate |].
    injection H as <-. eexists. split; reflexivity.
  - injection H as <-. eexists. split; reflexivity.
Qed.

Lemma process_pdf_block (pdf_data document : value) :
  process_pdf pdf_data = inr document ->
  exists d, document = VDict d /\ lookup "type" d = Some (VStr "document").
Proof.
  unfold process_pdf. intros H.
  apply and_then_inr in H. destruct H as (pdf_url & _ & H).
  apply and_then_inr in H. destruct H as (url & _ & H).
  destruct url; try discriminate.
  destruct (startswith "data:application/pdf" s).
  - apply and_then_inr in H. destruct H as ([mime_type base64_data] & _ & H).
    destruct (negb (Qle_bool _ _)); [discriminate |].
    apply and_then_inr in H. destruct H as (d & Hd & H). injection H as <-.
    apply lift_done in Hd. exists d. split; [reflexivity |].
    rewrite (copy_if_set_type _ "cache_control" _ _ eq_refl Hd). reflexivity.
  - apply and_then_inr in H. destruct H as (d & Hd & H). injection H as <-.
    apply lift_done in Hd. exists d. split; [reflexivity |].
    rewrite (copy_if_set_type _ "cache_control" _ _ eq_refl Hd). reflexivity.
Qed.

Lemma process_document_block (doc_data document : value) :
  process_document doc_data = inr document ->
  exists d, document = VDict d /\ lookup "type" d = Some (VStr "document").
Proof.
  unfold process_document. intros H.
  apply bind_inr in H. destruct H as (source & _ & H).
  apply bind_inr in H. destruct H as (d1 & H1 & H).
  apply bind_inr in H. destruct H as (d2 & H2 & H).
  apply bind_inr in H. destruct H as (citations & _ & H).
  apply bind_inr in H. destruct H as (enabled & _ & H).
  apply bind_inr in H. destruct H as (d3 & H3 & H).
  injection H as <-. exists d3. split; [reflexivity |].
  rewrite (copy_if_set_type _ "cache_control" _ _ eq_refl H3).
  assert (H12 : lookup "type" d2 = Some (VStr "document")).
  { rewrite (copy_if_set_type _ "context" _ _ eq_refl H2),
      (copy_if_set_type _ "title" _ _ eq_refl H1).
    reflexivity. }
  destruct (truthy enabled); [| exact H12].
  rewrite lookup_dict_set_other by reflexivity. exact H12.
Qed.

Lemma process_file_reference_block (file_data file_ref : value) :
  process_file_reference file_data = inr file_ref ->
  truthy file_ref = true ->
  exists d, file_ref = VDict d /\ lookup "type" d = Some (VStr "document").
Proof.
  unfold process_file_reference. intros H.
  apply bind_inr in H. destruct H as (file_id & _ & H).
  destruct (truthy file_id).
  - apply bind_inr in H. destruct H as (x & _ & H). injection H as <-.
    intros _. eexists. split; reflexivity.
  - injection H as <-. discriminate.
Qed.

Lemma content_block_of_type (d : dict) (t : string) :
  lookup "type" d = Some (VStr t) ->
  In t ["image"; "document"; "tool_calls"; "tool_results"] ->
  content_block (VDict d).
Proof.
  intros Hd Hin. exists d, t. split; [reflexivity |]. split; [exact Hd |]. split.
  - unfold block_types. right. exact Hin.
  - intros ->. simpl in Hin. decompose [or] Hin; try discriminate; contradiction.
Qed.

(** One item gives at most one block, of one of the five types. *)
Lemma process_item_blocks (processed processed' : list value) (item : value) :
  process_item processed item = inr processed' ->
  processed' = processed \/
  exists block, processed' = processed ++ [block] /\ content_block block.
Proof.
  unfold process_item. intros H.
  apply and_then_inr in H. destruct H as (item_type & Ht & H). apply lift_done in Ht.
  destruct (eq_str item_type "text").
  { apply and_then_inr in H. destruct H as (text & _ & H). injection H as <-.
    right. eexists. split; [reflexivity |].
    eexists _, "text". split; [reflexivity |]. split; [reflexivity |].
    split; [left; reflexivity | intros _; eexists; reflexivity]. }
  destruct (eq_str item_type "image_url").
  { apply and_then_inr in H. destruct H as (image & Hi & H). injection H as <-.
    apply lift_done, process_image_block in Hi. destruct Hi as (d & -> & Hd).
    right. eexists. split; [reflexivity |].
    apply (content_block_of_type _ _ Hd). simpl. tauto. }
  destruct (eq_str item_type "pdf_url").
  { apply and_then_inr in H. destruct H as (document & Hi & H). injection H as <-.
    apply process_pdf_block in Hi. destruct Hi as (d & -> & Hd).
    right. eexists. split; [reflexivity |].
    apply (content_block_of_type _ _ Hd). simpl. tauto. }
  destruct (eq_str item_type "document").
  { apply and_then_inr in H. destruct H as (document & Hi & H). injection H as <-.
    apply lift_done, process_document_block in Hi. destruct Hi as (d & -> & Hd).
    right. eexists. split; [reflexivity |].
    apply (content_block_of_type _ _ Hd). simpl. tauto. }
  destruct (eq_str item_type "file_reference").
  { apply and_then_inr in H. destruct H as (file_ref & Hi & H). injection H as <-.
    apply lift_done in Hi. destruct (truthy file_ref) eqn:Hf; [| left; reflexivity].
    destruct (process_file_reference_block _ _ Hi Hf) as (d & -> & Hd).
    right. eexists. split; [reflexivity |].
    apply (content_block_of_type _ _ Hd). simpl. tauto. }
  destruct (eq_str item_type "tool_calls") eqn:E1.
  { injection H as <-. apply eq_str_true in E1. subst item_type.
    apply getitem_is_dict in Ht. destruct Ht as (d & -> & Hd).
    right. eexists. split; [reflexivity |].
    apply (content_block_of_type _ _ Hd). simpl. tauto. }
  destruct (eq_str item_type "tool_results") eqn:E2.
  { injection H as <-. apply eq_str_true in E2. subst item_type.
    apply getitem_is_dict in Ht. destruct Ht as (d & -> & Hd).
    right. eexists. split; [reflexivity |].
    apply (content_block_of_type _ _ Hd). simpl. tauto. }
  injection H as <-. left. reflexivity.
Qed.

Lemma process_items_blocks (items : list value) :
  forall processed processed',
    for_every process_item processed items = inr processed' ->
    exists blocks,
      processed' = processed ++ blocks /\
      Forall content_block blocks /\
      (List.length blocks <= List.length items)%nat.
Proof.
  induction items as [| item rest IH]; intros processed processed' H.
  - injection H as <-. exists []. rewrite app_nil_r.
    split; [reflexivity | split; [constructor | simpl; lia]].
  - cbn [for_every] in H. apply and_then_inr in H. destruct H as (p1 & H1 & H).
    destruct (IH _ _ H) as (blocks & -> & Hb & Hl).
    destruct (process_item_blocks _ _ _ H1) as [-> | (block & -> & Hblock)].
    + exists blocks. split; [reflexivity | split; [exact Hb | simpl; lia]].
    + exists (block :: blocks). rewrite <- app_assoc.
      split; [reflexivity | split; [constructor; assumption | simpl; lia]].
Qed.


Lemma process_items_app (before after : list value) :
  forall processed processed',
    for_every process_item processed before = inr processed' ->
    for_every process_item processed (before ++ after) =
    for_every process_item processed' after.
Proof.
  induction before as [| item rest IH]; intros processed processed' H.
  - injection H as <-. reflexivity.
  - cbn [for_every app] in *. destruct (process_item processed item) as [e | p1];
      [discriminate |].
    rewrite and_then_done in *. apply IH. exact H.
Qed.

(** X21.  An inline PDF of more than 32 MB (three quarters of the length of
    its base64 text) rejects the whole content with the size error, whatever
    follows it; a PDF at the limit or below becomes a base64 document
    block. *)
Theorem inline_pdf_size_limit
    (before after processed : list value) (item pdf_url : dict)
    (url mime_type base64_data : string) :
  for_every process_item [] before = inr processed ->
  lookup "type" item = Some (VStr "pdf_url") ->
  lookup "pdf_url" item = Some (VDict pdf_url) ->
  lookup "url" pdf_url = Some (VStr url) ->
  startswith "data:application/pdf" url = true ->
  split1 "," url = [mime_type; base64_data] ->
  let pdf_size := (inject_Z (len base64_data * 3) / inject_Z 4)%Q in
  ((inject_Z MAX_PDF_SIZE < pdf_size)%Q ->
   process_content (VList (before ++ VDict item :: after)) = inl (PdfSizeExceeded pdf_size)) /\
  ((pdf_size <= inject_Z MAX_PDF_SIZE)%Q ->
   lookup "cache_control" item = None ->
   process_content (VList (before ++ [VDict item])) =
     done (processed ++
           [VDict [("type", VStr "document");
                   ("source", VDict [("type", VStr "base64");
                                     ("media_type", VStr "application/pdf");
                                     ("data", VStr base64_data)])]])).
Proof.
  intros Hbefore Htype Hpdf Hurl Hstart Hsplit pdf_size.
  assert (Hitem : forall acc,
             process_item acc (VDict item) =
             (document <~ process_pdf (VDict item) ;; done (acc ++ [document]))).
  { intros acc. unfold process_item. cbn [getitem]. rewrite Htype. reflexivity. }
  assert (Hp : process_pdf (VDict item) =
               if negb (Qle_bool pdf_size (inject_Z MAX_PDF_SIZE))
               then inl (PdfSizeExceeded pdf_size)
               else document <~ lift (copy_if_set (VDict item) "cache_control"
                                        [("type", VStr "document");
                                         ("source", VDict [("type", VStr "base64");
                                                           ("media_type", VStr "application/pdf");
                                                           ("data", VStr base64_data)])]) ;;
                    done (VDict document)).
  { unfold process_pdf. cbn [getitem]. rewrite Hpdf. cbn [lift ok and_then getitem].
    rewrite Hurl. cbn [lift ok and_then]. rewrite Hstart, Hsplit. reflexivity. }
  unfold process_content. cbn [py_iter lift ok]. rewrite !and_then_done.
  split.
  - intros Hbig. rewrite (process_items_app _ _ _ _ Hbefore). cbn [for_every].
    rewrite Hitem, Hp.
    destruct (Qle_bool pdf_size (inject_Z MAX_PDF_SIZE)) eqn:Hq; [| reflexivity].
    apply Qle_bool_iff in Hq. exfalso. exact (Qlt_not_le _ _ Hbig Hq).
  - intros Hsmall Hcc. rewrite (process_items_app _ _ _ _ Hbefore). cbn [for_every].
    rewrite Hitem, Hp. apply Qle_bool_iff in Hsmall. rewrite Hsmall. cbn [negb].
    unfold copy_if_set. cbn [get]. rewrite Hcc. reflexivity.
Qed.

End ContentFacts.

Section MessageFacts.

Context (B : Builtins) (T : TextLib).

Lemma and_then_ok {A C : Type} (a : A) (k : A -> attempt C) : and_then (inr a) k = k a.
Proof. reflexivity. Qed.

Lemma for_every_app {A : Type} (f : A -> value -> attempt A) (xs ys : list value) :
  forall acc acc',
    for_every f acc xs = inr acc' ->
    for_every f acc (xs ++ ys) = for_every f acc' ys.
Proof.
  induction xs as [| x rest IH]; intros acc acc' H.
  - injection H as <-. reflexivity.
  - cbn [for_every app] in *. destruct (f acc x) as [e | a1]; [discriminate |].
    cbn [and_then] in *. apply IH. exact H.
Qed.

Lemma for_every_app_inv {A : Type} (f : A -> value -> attempt A) (xs ys : list value) :
  forall acc acc',
    for_every f acc (xs ++ ys) = inr acc' ->
    exists acc1, for_every f acc xs = inr acc1 /\ for_every f acc1 ys = inr acc'.
Proof.
  induction xs as [| x rest IH]; intros acc acc' H.
  - exists acc. split; [reflexivity | exact H].
  - cbn [for_every app] in *. destruct (f acc x) as [e | a1]; [discriminate |].
    cbn [and_then] in *. apply IH. exact H.
Qed.

Lemma emit_pending_empty (b : batches) : pending_tool_results (emit_pending b) = [].
Proof. unfold emit_pending. destruct (pending_tool_results b) eqn:E; [exact E | reflexivity]. Qed.

Lemma truthy_iter (v : value) (xs : list value) :
  truthy v = true -> py_iter v = inr xs -> xs <> [].
Proof.
  destruct v; cbn [py_iter truthy]; try discriminate; intros Ht H; injection H as <-.
  - destruct s; [discriminate | cbn; discriminate].
  - destruct xs0; discriminate.
  - destruct kvs; [discriminate | cbn; discriminate].
Qed.

Lemma tool_use_blocks (tcs : list value) :
  forall acc r,
    for_each (tool_use_of B) acc tcs = inr r ->
    exists uses,
      r = acc ++ uses /\ List.length uses = List.length tcs /\
      Forall (fun block => is_tool_result block = false) uses.
Proof.
  induction tcs as [| tc rest IH]; intros acc r H.
  - injection H as <-. exists []. rewrite app_nil_r. repeat split. constructor.
  - cbn [for_each] in H. apply bind_inr in H. destruct H as (acc1 & H1 & H).
    destruct (IH _ _ H) as (uses & -> & Hl & Hu).
    unfold tool_use_of in H1.
    apply bind_inr in H1. destruct H1 as (id & _ & H1).
    apply bind_inr in H1. destruct H1 as (f1 & _ & H1).
    apply bind_inr in H1. destruct H1 as (name & _ & H1).
    apply bind_inr in H1. destruct H1 as (f2 & _ & H1).
    apply bind_inr in H1. destruct H1 as (args & _ & H1).
    apply bind_inr in H1. destruct H1 as (input & _ & H1).
    injection H1 as <-. eexists (_ :: uses). rewrite <- app_assoc.
    split; [reflexivity |]. split; [cbn; rewrite Hl; reflexivity |].
    constructor; [reflexivity | exact Hu].
Qed.

Lemma text_items_blocks (content : value) :
  Forall (fun block => is_tool_result block = false) (text_items content).
Proof.
  unfold text_items. destruct (truthy content); [| constructor].
  destruct content as [| | | | s | items |]; try (apply Forall_nil).
  { repeat constructor. }
  apply Forall_forall. intros item Hin. apply filter_In in Hin. destruct Hin as [_ Hitem].
  destruct item; try discriminate. cbn [is_tool_result].
  apply eq_str_true in Hitem. rewrite Hitem. reflexivity.
Qed.

Lemma content_block_no_tool_result (block : value) :
  content_block block -> is_tool_result block = false.
Proof.
  intros (d & t & -> & Hd & Hin & _). cbn [is_tool_result]. unfold get_or. rewrite Hd.
  unfold block_types in Hin. simpl in Hin.
  decompose [or] Hin; subst; try reflexivity; contradiction.
Qed.

Lemma marked_blocks (role : value) (items : list value) :
  Forall content_block items ->
  forall acc r,
    for_each (mark_ephemeral role) acc items = inr r ->
    exists blocks,
      r = acc ++ blocks /\ List.length blocks = List.length items /\
      Forall (fun block => is_tool_result block = false) blocks.
Proof.
  induction 1 as [| item rest Hitem Hrest IH]; intros acc r H.
  - injection H as <-. exists []. rewrite app_nil_r. repeat split. constructor.
  - cbn [for_each] in H. apply bind_inr in H. destruct H as (acc1 & H1 & H).
    destruct (IH _ _ H) as (blocks & -> & Hl & Hb).
    pose proof (content_block_no_tool_result _ Hitem) as Hno.
    destruct Hitem as (d & t & -> & Hd & Hin & _).
    unfold mark_ephemeral in H1.
    apply bind_inr in H1. destruct H1 as (fa & _ & H1).
    apply bind_inr in H1. destruct H1 as (fu & _ & H1).
    apply bind_inr in H1. destruct H1 as (item' & Hi & H1).
    injection H1 as <-. exists (item' :: blocks). rewrite <- app_assoc.
    split; [reflexivity |]. split; [cbn; rewrite Hl; reflexivity |].
    constructor; [| exact Hb].
    destruct (fa || fu); [| injection Hi as <-; exact Hno].
    cbn [setitem] in Hi. injection Hi as <-. cbn [is_tool_result] in *.
    unfold get_or in *. rewrite lookup_dict_set_other by reflexivity. exact Hno.
Qed.

Lemma regular_content_blocks (role content : value) (blocks : list value) :
  regular_content role content = inr blocks ->
  Forall (fun block => is_tool_result block = false) blocks.
Proof.
  unfold regular_content. destruct content; try (intros H; injection H as <-; constructor).
  - intros H. injection H as <-.
    destruct (negb (s =? "")%string); [constructor; [reflexivity | constructor] | constructor].
  - intros H. apply and_then_inr in H. destruct H as (items & Hi & H).
    apply lift_done in H.
    unfold process_content in Hi. cbn [py_iter lift ok] in Hi.
    rewrite and_then_ok in Hi.
    destruct (process_items_blocks _ _ _ Hi) as (items' & -> & Hblocks & _).
    cbn [app] in *.
    destruct (marked_blocks role items' Hblocks _ _ H) as (bs & -> & _ & Hb). exact Hb.
Qed.

(** What one turn of the loop does to the two lists. *)
Lemma process_message_effect (b b' : batches) (message : value) :
  process_message B T b message = inr b' ->
  (has_tool_role message = true /\
   exists content tool_result,
     get message "content" (VStr "") = ok content /\
     tool_result_of B T message content = ok tool_result /\
     b' = {| processed_messages := processed_messages b;
             pending_tool_results := pending_tool_results b ++ [tool_result] |})
  \/
  (has_tool_role message = false /\
   pending_tool_results b' = [] /\
   exists added,
     processed_messages b' = processed_messages (emit_pending b) ++ added /\
     Forall anthropic_message added /\
     Forall (fun block => is_tool_result block = false) (flat_map blocks_of added)).
Proof.
  unfold process_message. intros H.
  apply and_then_inr in H. destruct H as (role & Hrole & H). apply lift_done in Hrole.
  apply and_then_inr in H. destruct H as (content & Hcontent & H).
  apply lift_done in Hcontent.
  destruct (get_is_dict _ _ _ _ Hrole) as [d ->].
  rewrite get_dict in Hrole. injection Hrole as <-.
  cbn [has_tool_role].
  destruct (eq_str (get_or d "role" (VStr "user")) "tool") eqn:Erole.
  - left. split; [reflexivity |].
    apply and_then_inr in H. destruct H as (tool_result & Ht & H). apply lift_done in Ht.
    injection H as <-. exists content, tool_result. auto.
  - right. split; [reflexivity |].
    assert (Hrole : get_or d "role" (VStr "user") <> VStr "tool").
    { intros E. rewrite E in Erole. discriminate. }
    apply and_then_inr in H. destruct H as (tool_calls & _ & H).
    destruct (eq_str (get_or d "role" (VStr "user")) "assistant" && truthy tool_calls)
      eqn:Ecalls.
    + apply andb_true_iff in Ecalls. destruct Ecalls as [_ Htruthy].
      apply and_then_inr in H. destruct H as (tcs & Htcs & H). apply lift_done in Htcs.
      apply and_then_inr in H. destruct H as (assistant_content & Hac & H).
      apply lift_done in Hac. injection H as <-.
      cbn [pending_tool_results processed_messages].
      split; [apply emit_pending_empty |].
      destruct (tool_use_blocks _ _ _ Hac) as (uses & -> & Hl & Hu).
      pose proof (truthy_iter _ _ Htruthy Htcs) as Hne.
      eexists [_]. split; [reflexivity |]. split.
      * constructor; [| constructor]. eexists _, _. split; [reflexivity |]. split.
        -- intros E. apply app_eq_nil in E. destruct E as [_ E]. subst uses.
           destruct tcs; [contradiction | discriminate].
        -- discriminate.
      * cbn [flat_map blocks_of lookup String.eqb Ascii.eqb Bool.eqb].
        rewrite app_nil_r. apply Forall_app. split; [apply text_items_blocks | exact Hu].
    + apply and_then_inr in H. destruct H as (processed_content & Hpc & H).
      apply regular_content_blocks in Hpc.
      destruct (truthy (VList processed_content) || eq_str _ "assistant");
        injection H as <-.
      * cbn [pending_tool_results processed_messages].
        split; [apply emit_pending_empty |].
        eexists [_]. split; [reflexivity |]. split.
        -- constructor; [| constructor]. eexists _, _. split; [reflexivity |].
           split; [| exact Hrole].
           destruct processed_content; cbn [truthy]; discriminate.
        -- cbn [flat_map blocks_of lookup String.eqb Ascii.eqb Bool.eqb].
           rewrite app_nil_r.
           destruct processed_content; cbn [truthy]; [repeat constructor | exact Hpc].
      * split; [apply emit_pending_empty |].
        exists []. rewrite app_nil_r. split; [reflexivity |]. split; constructor.
Qed.

Lemma emit_pending_messages (b : batches) :
  Forall anthropic_message (processed_messages b) ->
  Forall anthropic_message (processed_messages (emit_pending b)).
Proof.
  intros H. unfold emit_pending. destruct (pending_tool_results b) eqn:E; [exact H |].
  cbn [processed_messages]. apply Forall_app. split; [exact H |].
  constructor; [| constructor]. eexists _, _. split; [reflexivity |].
  split; discriminate.
Qed.

Lemma run_messages (messages : list value) :
  forall b b',
    for_every (process_message B T) b messages = inr b' ->
    Forall anthropic_message (processed_messages b) ->
    Forall anthropic_message (processed_messages b').
Proof.
  induction messages as [| message rest IH]; intros b b' H Hb.
  - injection H as <-. exact Hb.
  - cbn [for_every] in H. apply and_then_inr in H. destruct H as (b1 & H1 & H).
    apply (IH _ _ H).
    destruct (process_message_effect _ _ _ H1)
      as [(_ & content & r & _ & _ & ->) | (_ & _ & added & -> & Ha & _)].
    + exact Hb.
    + apply Forall_app. split; [apply emit_pending_messages, Hb | exact Ha].
Qed.

(** X22.  Every message [_process_messages] returns has a role and a
    content that is a list of blocks and is not empty; no message keeps the
    role [tool]. *)
Theorem processed_messages_are_block_lists (messages : value) (processed : list value) :
  process_messages_of B T messages = inr processed ->
  Forall anthropic_message processed.
Proof.
  unfold process_messages_of. intros H.
  apply and_then_inr in H. destruct H as (ms & _ & H).
  apply and_then_inr in H. destruct H as (b & Hb & H). injection H as <-.
  apply emit_pending_messages. apply (run_messages _ _ _ Hb). constructor.
Qed.

Lemma filter_all {A : Type} (f : A -> bool) (l : list A) :
  Forall (fun x => f x = true) l -> filter f l = l.
Proof.
  induction 1 as [| x l Hx Hl IH]; [reflexivity |]. cbn [filter]. rewrite Hx, IH. reflexivity.
Qed.

Lemma filter_none {A : Type} (f : A -> bool) (l : list A) :
  Forall (fun x => f x = false) l -> filter f l = [].
Proof.
  induction 1 as [| x l Hx Hl IH]; [reflexivity |]. cbn [filter]. rewrite Hx, IH. reflexivity.
Qed.

Lemma gathered_emit_pending (b : batches) :
  Forall (fun block => is_tool_result block = true) (pending_tool_results b) ->
  gathered (emit_pending b) = gathered b.
Proof.
  intros H. unfold gathered, emit_pending.
  destruct (pending_tool_results b) as [| r rest] eqn:E; [rewrite E; reflexivity |].
  cbn [processed_messages pending_tool_results].
  rewrite flat_map_app, filter_app.
  cbn [flat_map blocks_of lookup String.eqb Ascii.eqb Bool.eqb].
  rewrite !app_nil_r, (filter_all _ _ H). reflexivity.
Qed.

Lemma tool_result_of_block (message content block : value) :
  tool_result_of B T message content = ok block -> is_tool_result block = true.
Proof.
  unfold tool_result_of. intros H.
  apply bind_inr in H. destruct H as (id & _ & H).
  apply bind_inr in H. destruct H as (text & _ & H).
  injection H as <-. reflexivity.
Qed.

Lemma run_tool_results (messages : list value) :
  forall b b',
    for_every (process_message B T) b messages = inr b' ->
    Forall (fun block => is_tool_result block = true) (pending_tool_results b) ->
    Forall (fun block => is_tool_result block = true) (pending_tool_results b') /\
    exists results,
      Forall2 (gives_tool_result B T) (filter has_tool_role messages) results /\
      gathered b' = gathered b ++ results.
Proof.
  induction messages as [| message rest IH]; intros b b' H Hb.
  - injection H as <-. split; [exact Hb |]. exists []. rewrite app_nil_r.
    split; [constructor | reflexivity].
  - cbn [for_every] in H. apply and_then_inr in H. destruct H as (b1 & H1 & H).
    cbn [filter].
    destruct (process_message_effect _ _ _ H1)
      as [(Hrole & content & r & Hc & Hr & ->) | (Hrole & Hp & added & Ha & _ & Hnone)];
      rewrite Hrole.
    + destruct (IH _ _ H) as (Hb' & results & Hres & Hg).
      { cbn [pending_tool_results]. apply Forall_app. split; [exact Hb |].
        constructor; [exact (tool_result_of_block _ _ _ Hr) | constructor]. }
      split; [exact Hb' |]. exists (r :: results). split.
      * constructor; [| exact Hres]. split; [exact Hrole |]. exists content. auto.
      * rewrite Hg. unfold gathered. cbn [processed_messages pending_tool_results].
        rewrite <- !app_assoc. reflexivity.
    + destruct (IH _ _ H) as (Hb' & results & Hres & Hg).
      { rewrite Hp. constructor. }
      split; [exact Hb' |]. exists results. split; [exact Hres |].
      rewrite Hg. f_equal. unfold gathered at 1. rewrite Hp, Ha, app_nil_r.
      rewrite flat_map_app, filter_app, (filter_none _ _ Hnone), app_nil_r.
      rewrite <- (gathered_emit_pending b Hb). unfold gathered.
      rewrite emit_pending_empty, app_nil_r. reflexivity.
Qed.

(** X23.  No tool result is lost, doubled or moved: the [tool_result]
    blocks of the messages returned, read in order, are the blocks of the
    [tool] messages given, in their order; no other message gives such a
    block. *)
Theorem tool_results_are_kept_in_order (messages processed : list value) :
  process_messages_of B T (VList messages) = inr processed ->
  Forall2 (gives_tool_result B T)
    (filter has_tool_role messages)
    (filter is_tool_result (flat_map blocks_of processed)).
Proof.
  unfold process_messages_of. cbn [py_iter lift ok]. rewrite and_then_ok. intros H.
  apply and_then_inr in H. destruct H as (b & Hb & H). injection H as <-.
  destruct (run_tool_results _ _ _ Hb) as (Hp & results & Hres & Hg); [constructor |].
  rewrite <- (gathered_emit_pending b Hp) in Hg. unfold gathered in Hg.
  rewrite emit_pending_empty, app_nil_r in Hg. cbn in Hg. rewrite Hg. exact Hres.
Qed.

Lemma normalize_unquoted (s : string) :
  unquoted T s = true ->
  normalize_tool_result_content B T (VStr s) = ok (unescaped_if_escaped s).
Proof.
  unfold unquoted, normalize_tool_result_content, unescaped_if_escaped. intros H.
  apply negb_true_iff in H.
  destruct (s =? "")%string eqn:Es.
  - apply String.eqb_eq in Es. subst s. reflexivity.
  - rewrite H. cbn [andb]. rewrite bind_ok.
    destruct (contains (backslash ++ "n") s); reflexivity.
Qed.

Lemma tool_message_step (b : batches) (message : value) (result : value * string) :
  tool_message T message result ->
  process_message B T b message =
    inr {| processed_messages := processed_messages b;
           pending_tool_results :=
             pending_tool_results b ++
             [tool_result_block (fst result, unescaped_if_escaped (snd result))] |}.
Proof.
  intros (d & -> & Hrole & Hid & Hcontent & Hplain).
  unfold process_message. rewrite !get_dict. cbn [lift ok and_then].
  unfold get_or at 1. rewrite Hrole. cbn [eq_str String.eqb Ascii.eqb Bool.eqb].
  unfold get_or at 1. rewrite Hcontent.
  unfold tool_result_of. rewrite get_dict, bind_ok, Hid, (normalize_unquoted _ Hplain).
  reflexivity.
Qed.

Lemma tool_messages_run (tools : list value) (results : list (value * string)) :
  Forall2 (tool_message T) tools results ->
  forall b,
    for_every (process_message B T) b tools =
      inr {| processed_messages := processed_messages b;
             pending_tool_results :=
               pending_tool_results b ++
               map (fun r => tool_result_block (fst r, unescaped_if_escaped (snd r)))
                   results |}.
Proof.
  induction 1 as [| message result tools results Hm Hrest IH]; intros b.
  - cbn. rewrite app_nil_r. destruct b; reflexivity.
  - cbn [for_every]. rewrite (tool_message_step b _ _ Hm), and_then_ok, IH.
    cbn [processed_messages pending_tool_results map]. rewrite <- app_assoc. reflexivity.
Qed.

Lemma ends_with_tool_last (init : list value) (message : value) :
  ends_with_tool (init ++ [message]) = has_tool_role message.
Proof. unfold ends_with_tool. rewrite rev_app_distr. reflexivity. Qed.

(** After a message of another role than [tool] no tool result waits. *)
Lemma nothing_pending (messages : list value) (b b' : batches) :
  for_every (process_message B T) b messages = inr b' ->
  pending_tool_results b = [] ->
  ends_with_tool messages = false ->
  pending_tool_results b' = [].
Proof.
  destruct messages as [| m0 rest].
  - intros H Hb _. injection H as <-. exact Hb.
  - destruct (@exists_last _ (m0 :: rest)) as (init & message & E); [discriminate |].
    rewrite E. clear E m0 rest.
    intros H _ Hend. rewrite ends_with_tool_last in Hend.
    apply for_every_app_inv in H. destruct H as (b1 & _ & H).
    cbn [for_every] in H. apply and_then_inr in H. destruct H as (b2 & H2 & H).
    injection H as <-.
    destruct (process_message_effect _ _ _ H2) as [(Hrole & _) | (_ & Hp & _)];
      [congruence | exact Hp].
Qed.

(** X24.  Tool messages that follow one another are answered in one user
    message: its blocks are their results, in their order, each with the id
    of its call and with its text, in which the escapes of lines 727-731 are
    replaced when the text has a backslash followed by [n]; the messages
    before them are processed as they are without them. *)
Theorem tool_results_share_one_message
    (before tools processed : list value) (results : list (value * string)) :
  process_messages_of B T (VList before) = inr processed ->
  ends_with_tool before = false ->
  tools <> [] ->
  Forall2 (tool_message T) tools results ->
  process_messages_of B T (VList (before ++ tools)) =
    inr (processed ++
         [VDict [("role", VStr "user");
                 ("content",
                  VList (map (fun r => tool_result_block
                                         (fst r, unescaped_if_escaped (snd r)))
                             results))]]).
Proof.
  unfold process_messages_of. cbn [py_iter lift ok]. rewrite !and_then_ok.
  intros H Hend Hne Htools.
  apply and_then_inr in H. destruct H as (b & Hb & H). injection H as <-.
  pose proof (nothing_pending _ _ _ Hb eq_refl Hend) as Hp.
  rewrite (for_every_app _ _ _ _ _ Hb), (tool_messages_run _ _ Htools), and_then_ok.
  unfold emit_pending. cbn [pending_tool_results processed_messages].
  rewrite Hp. cbn [app].
  destruct results as [| result results]; [inversion Htools; subst; contradiction |].
  reflexivity.
Qed.

Lemma tool_uses_run (tcs uses : list value) :
  Forall2 (gives_tool_use B) tcs uses ->
  forall acc, for_each (tool_use_of B) acc tcs = ok (acc ++ uses).
Proof.
  induction 1 as [| tc use tcs uses Htc Hrest IH]; intros acc.
  - cbn. rewrite app_nil_r. reflexivity.
  - cbn [for_each].
    destruct Htc as (c & function & input & -> & Hf & Hargs & ->).
    unfold tool_use_of at 1.
    repeat first [rewrite get_dict | rewrite bind_ok | rewrite Hf].
    unfold parsed_arguments in Hargs.
    destruct (get_or function "arguments" (VStr "{}")) as [| | | | a | |] eqn:Ea;
      cbv beta iota in Hargs;
      try (subst input; rewrite !bind_ok, IH, <- app_assoc; reflexivity).
    destruct Hargs as [Hj | [Hj ->]]; rewrite Hj;
      cbn [bind ok]; rewrite IH, <- app_assoc; reflexivity.
Qed.

(** X25.  An assistant message that calls tools becomes one assistant
    message: its text blocks, then one [tool_use] block for each call, in
    their order, with the id and the name of the call and with its arguments
    decoded, or kept under [raw] when they are no JSON; the messages before
    it are processed as they are without it. *)
Theorem assistant_tool_calls_become_tool_use
    (before processed : list value) (d : dict) (tcs uses : list value) :
  process_messages_of B T (VList before) = inr processed ->
  lookup "role" d = Some (VStr "assistant") ->
  lookup "tool_calls" d = Some (VList tcs) ->
  tcs <> [] ->
  Forall2 (gives_tool_use B) tcs uses ->
  process_messages_of B T (VList (before ++ [VDict d])) =
    inr (processed ++
         [VDict [("role", VStr "assistant");
                 ("content",
                  VList (text_items (get_or d "content" (VStr "")) ++ uses))]]).
Proof.
  unfold process_messages_of. cbn [py_iter lift ok]. rewrite !and_then_ok.
  intros H Hrole Hcalls Hne Huses.
  apply and_then_inr in H. destruct H as (b & Hb & H). injection H as <-.
  rewrite (for_every_app _ _ _ _ _ Hb). cbn [for_every].
  assert (Er : get_or d "role" (VStr "user") = VStr "assistant")
    by (unfold get_or; rewrite Hrole; reflexivity).
  assert (Ec : get_or d "tool_calls" (VList []) = VList tcs)
    by (unfold get_or; rewrite Hcalls; reflexivity).
  assert (Ht : truthy (VList tcs) = true) by (destruct tcs; [contradiction | reflexivity]).
  unfold process_message. rewrite !get_dict. cbn [lift ok and_then].
  rewrite !Er. cbn [eq_str String.eqb Ascii.eqb Bool.eqb lift ok and_then].
  rewrite Ec, Ht. cbn [andb py_iter lift ok and_then].
  rewrite (tool_uses_run _ _ Huses). cbn [lift ok and_then].
  unfold done. f_equal.
  unfold emit_pending at 1. cbn [pending_tool_results processed_messages].
  rewrite emit_pending_empty. reflexivity.
Qed.

(** X26.  When the messages of the payload are made by [_process_messages],
    every message of every payload [pipe] builds has a role other than
    [tool] and a content that is a list of blocks and is not empty: no
    message goes out with a content that is a string. *)
Theorem payload_messages_are_block_lists (valves : Valves) (body : dict) (req : request) :
  holds_process_messages B T ->
  prepare B valves body = inr req ->
  exists messages,
    lookup "messages" (request_payload req) = Some (VList messages) /\
    Forall anthropic_message messages.
Proof.
  intros Hholds H.
  destruct (prepare_steps B _ _ _ H) as (a & sm & ms & model & _ & _ & _ & _ & Hb).
  destruct (build_payload_stages _ _ _ _ _ _ _ _ Hb) as (p0 & H0 & Hkeep & _).
  destruct (initial_payload_lookup _ _ _ _ _ H0)
    as (_ & processed & mt & t & tk & tp & Hp & _ & _ & _ & Hlook).
  destruct (Hholds _ _ Hp) as (messages & Hm & ->).
  exists messages. split.
  - rewrite Hkeep by (apply settled_key; simpl; tauto). rewrite Hlook. reflexivity.
  - unfold process_messages_of in Hm.
    apply and_then_inr in Hm. destruct Hm as (items & _ & Hm).
    apply and_then_inr in Hm. destruct Hm as (b & Hrun & Hm). injection Hm as <-.
    apply emit_pending_messages. apply (run_messages _ _ _ Hrun). constructor.
Qed.

End MessageFacts.

(** * The properties on the concrete environment *)

Lemma finish_reason_reports_tool_use_witness :
  exists out,
    yielded (stream_with_ui example_builtins None example_payload
               (Responded example_response)) =
      out ++ [SseData (finish_chunk 1700000004 (VStr "claude-3-5-sonnet-latest")
                         "tool_calls"); SseDone] /\
    finish_reason_of (finish_chunk 1700000004 (VStr "claude-3-5-sonnet-latest")
                        "tool_calls") = VStr "tool_calls".
Proof.
  eexists.
  eapply (finish_reason_reports_tool_use example_builtins None example_payload
            example_response
            (example_before ++ Line 1700000002 (sse_line tool_start_event) :: example_middle)
            example_after 1700000004 (sse_line message_stop_event)).
  all: vm_compute; reflexivity.
Defined.

Lemma done_sentinel_once_and_last_witness :
  (exists earlier,
      yielded (stream_with_ui example_builtins None example_payload
                 (Responded example_response)) = earlier ++ [SseDone]) /\
  filter is_done
    (yielded (stream_with_ui example_builtins None example_payload
                (Responded example_response))) = [SseDone].
Proof.
  eapply (done_sentinel_once_and_last example_builtins None example_payload
            example_response
            (example_before ++ Line 1700000002 (sse_line tool_start_event) :: example_middle)
            example_after 1700000004 (sse_line message_stop_event)).
  all: vm_compute; reflexivity.
Defined.

Lemma single_tool_call_chunks_witness :
  let model_name := VStr "claude-3-5-sonnet-latest" in
  let t := {| tu_id := VStr "toolu_01"; tu_name := VStr "get_weather"; tu_index := 0 |} in
  let finish := SseData (finish_chunk 1700000004 model_name "tool_calls") in
  let items := yielded (stream_with_ui example_builtins None example_payload
                          (Responded example_response)) in
  filter about_tool_call items =
    [SseData (initial_tool_chunk 1700000002 model_name t);
     SseData (argument_chunk 1700000002 model_name 0 (VStr first_fragment));
     SseData (argument_chunk 1700000003 model_name 0 (VStr second_fragment));
     finish]
  /\ (exists earlier, items = earlier ++ [finish; SseDone])
  /\ map tool_calls_of (filter about_tool_call items) =
       [Some (VList [VDict [("index", VInt 0);
                            ("id", VStr "toolu_01");
                            ("type", VStr "function");
                            ("function", VDict [("name", VStr "get_weather");
                                                ("arguments", VStr "")])]]);
        Some (VList [VDict [("index", VInt 0);
                            ("function", VDict [("arguments", VStr first_fragment)])]]);
        Some (VList [VDict [("index", VInt 0);
                            ("function", VDict [("arguments", VStr second_fragment)])]]);
        None]
  /\ map finish_reason_in (filter about_tool_call items) =
       [VNone; VNone; VNone; VStr "tool_calls"].
Proof.
  eapply (single_tool_call_chunks example_builtins None example_payload example_response
            example_before example_middle example_after
            1700000002 1700000004
            (sse_line tool_start_event) (sse_line message_stop_event)
            _ tool_use_block).
  all: vm_compute; reflexivity.
Defined.

Lemma malformed_line_is_skipped_witness :
  handle_line example_builtins (VStr "claude-3-5-sonnet-latest") initial_state
    1700000002 ("data: {oops" ++ nl)
  = ok (Continue initial_state, [], [LogParseFailure]) /\
  forall (request_id : option string) (payload : dict) (st : Z)
         (hs : string -> option string) (tx : string) (before after : list arrival),
    yielded (stream_with_ui example_builtins request_id payload
               (Responded {| status := st; headers := hs; text := tx;
                             content := before
                                        ++ Line 1700000002 ("data: {oops" ++ nl)
                                        :: after |})) =
    yielded (stream_with_ui example_builtins request_id payload
               (Responded {| status := st; headers := hs; text := tx;
                             content := before ++ after |})).
Proof.
  apply (malformed_line_is_skipped example_builtins (VStr "claude-3-5-sonnet-latest")
           initial_state 1700000002 ("data: {oops" ++ nl)).
  all: vm_compute; reflexivity.
Defined.

Lemma undecodable_line_ends_stream_witness :
  let model_name := VStr "claude-3-5-sonnet-latest" in
  let run := stream_with_ui strict_builtins None example_payload
               (Responded undecodable_response) in
  handle_line strict_builtins model_name initial_state 1700000002
    ("data: " ++ undecodable_payload) = raise undecodable /\
  yielded run =
    [SseData (content_chunk 1700000001 model_name (VStr "Checking."));
     SseData (content_chunk 1700000001 model_name (VStr " [2: Report]"))]
    ++ [SseError (StreamError undecodable) None] /\
  logged run = [].
Proof.
  eapply (undecodable_line_ends_stream strict_builtins None example_payload
            undecodable_response example_before
            [Line 1700000003 (sse_line text_delta_event);
             Line 1700000004 (sse_line message_stop_event)]
            1700000002 ("data: " ++ undecodable_payload) undecodable initial_state).
  all: try (vm_compute; reflexivity).
  discriminate.
Defined.

Lemma citation_marker_chunk_witness :
  let chunk := content_chunk 1700000001 (VStr "claude-3-5-sonnet-latest")
                 (VStr " [2: Report]") in
  handle_line example_builtins (VStr "claude-3-5-sonnet-latest") initial_state
    1700000001 (sse_line citation_event)
  = ok (Continue initial_state, [SseData chunk], []) /\
  delta_of chunk = [("content", VStr " [2: Report]")].
Proof.
  eapply (citation_marker_chunk example_builtins (VStr "claude-3-5-sonnet-latest")
            initial_state 1700000001 (sse_line citation_event) _ _ example_citation).
  all: try (vm_compute; reflexivity).
  discriminate.
Defined.

Lemma stray_json_delta_is_dropped_witness :
  handle_line example_builtins (VStr "claude-3-5-sonnet-latest") initial_state
    1700000003 (sse_line (json_delta_event first_fragment))
  = ok (Continue initial_state, [], []).
Proof.
  eapply (stray_json_delta_is_dropped example_builtins (VStr "claude-3-5-sonnet-latest")
            initial_state 1700000003 (sse_line (json_delta_event first_fragment))).
  all: try (vm_compute; reflexivity).
  left. reflexivity.
Defined.

Lemma send_request_retry_contract_witness :
  returned (send_request example_builtins example_server None)
    = ok (wrap example_builtins
            {| status := 200; headers := no_headers; text := "{}"; content := [] |}) /\
  effects (send_request example_builtins example_server None)
    = [Posted; Logged (LogRateLimit 2 1); Slept 2; Posted].
Proof.
  refine (proj1 (proj1 (proj2 (proj2
            (send_request_retry_contract example_builtins example_server None))
            (fun _ => 2) 1%nat _) _) _ eq_refl _).
  - intros i Hi. assert (i = 0%nat) as -> by lia.
    eexists. repeat split; reflexivity.
  - lia.
  - discriminate.
Defined.

Lemma unreadable_retry_after_raises_witness :
  let run := send_request example_builtins dated_server None in
  returned run = raise (ValueError (InvalidLiteral "Wed, 21 Oct 2015 07:28:00 GMT")) /\
  effects run = [Posted].
Proof.
  eapply (unreadable_retry_after_raises example_builtins dated_server None
            (fun _ => 0) 0%nat _ "Wed, 21 Oct 2015 07:28:00 GMT").
  - intros i Hi. lia.
  - lia.
  - reflexivity.
  - reflexivity.
  - reflexivity.
  - vm_compute. reflexivity.
Defined.

Lemma thinking_suffix_resolves_witness :
  exists req,
    prepare example_builtins example_valves example_body = inr req /\
    resolve_model "api/claude-3-5-sonnet-latest-thinking"
      = ("claude-3-5-sonnet-latest", true) /\
    lookup "model" (request_payload req) = Some (VStr "claude-3-5-sonnet-latest") /\
    lookup "thinking" (request_payload req) =
      Some (VDict [("type", VStr "enabled"); ("budget_tokens", VInt 16000)]).
Proof.
  eexists. split; [vm_compute; reflexivity |].
  apply (thinking_suffix_resolves example_builtins example_valves example_body).
  all: vm_compute; reflexivity.
Defined.

Lemma max_tokens_clamped_to_ceiling_witness :
  exists req,
    prepare example_builtins example_valves example_body = inr req /\
    lookup "max_tokens" (request_payload req) = Some (VInt 8192).
Proof.
  eexists. split; [vm_compute; reflexivity |].
  refine (proj1 (max_tokens_clamped_to_ceiling example_builtins example_valves example_body _
                   "api/claude-3-5-sonnet-latest-thinking" 20000 _ _ _)).
  all: vm_compute; reflexivity.
Defined.

Lemma len_app (s t : string) : len (s ++ t) = len s + len t.
Proof.
  unfold len. induction s as [| c s IH]; simpl String.length; [reflexivity |].
  simpl in IH. lia.
Qed.

Lemma len_times (p : positive) (s : string) : len (times p s) = Z.pos p * len s.
Proof.
  induction p as [p IH | p IH |]; simpl times; rewrite ?len_app, ?IH; lia.
Qed.

Lemma len_five_megabytes : len five_megabytes = 6990506.
Proof. unfold five_megabytes. rewrite len_times. reflexivity. Qed.

Lemma image_item_is_inline (base64_data : string) :
  inline_image (image_item base64_data) base64_data.
Proof.
  exists [("type", VStr "image_url");
          ("image_url", VDict [("url", VStr ("data:image/png;base64," ++ base64_data))])],
         [("url", VStr ("data:image/png;base64," ++ base64_data))],
         "data:image/png;base64"%string.
  repeat split.
Qed.

Lemma images_among_copies (base64_data : string) (n : nat) :
  images_among (repeat (image_item base64_data) n) (repeat base64_data n).
Proof.
  induction n as [| n IH]; cbn [repeat]; [constructor |].
  apply images_among_inline; [apply image_item_is_inline | exact IH].
Qed.

Lemma images_across_two_galleries (base64_data : string) :
  images_across (two_galleries base64_data) (repeat base64_data 21).
Proof.
  unfold two_galleries.
  change (repeat base64_data 21)
    with (repeat base64_data 10 ++ (repeat base64_data 11 ++ [])).
  eapply images_across_listed; [reflexivity | |].
  - apply images_among_other.
    { eexists. split; [reflexivity | intros H; discriminate H]. }
    apply images_among_other.
    { eexists. split; [reflexivity |]. intros _.
      exists [("url", VStr "https://example.com/a.png")], "https://example.com/a.png"%string.
      repeat split. }
    apply images_among_copies.
  - apply images_across_plain; [intros items H; discriminate H |].
    eapply images_across_listed; [reflexivity | |].
    + apply images_among_copies.
    + constructor.
Qed.

Lemma images_across_crowded_gallery :
  images_across crowded_gallery (repeat "QUJD"%string 101).
Proof.
  unfold crowded_gallery.
  rewrite <- (app_nil_r (repeat "QUJD"%string 101)).
  eapply images_across_listed; [reflexivity | |].
  - apply images_among_copies.
  - constructor.
Qed.

Lemma combined_size_of_galleries :
  (combined_size (repeat five_megabytes 21) == 220200939 # 2)%Q.
Proof.
  unfold combined_size. cbn [repeat fold_left]. unfold image_size_of.
  rewrite len_five_megabytes. vm_compute. reflexivity.
Qed.

Lemma oversized_images_rejected_before_network_witness :
  let total_size := combined_size (repeat five_megabytes 21) in
  let too_large := ValueError (TotalImageSizeExceeded total_size) in
  let too_many := ValueError (TooManyImages 101) in
  ((image_size_of five_megabytes <= inject_Z MAX_IMAGE_SIZE)%Q /\
   (total_size == 220200939 # 2)%Q /\
   validate_total_image_size (VList (two_galleries five_megabytes)) = raise too_large /\
   pipe example_builtins example_valves None two_galleries_body busy_server =
     {| pipe_returns := Reply (ErrorOf too_large) None;
        pipe_request_id := None;
        pipe_effects := [] |}) /\
  ((combined_size (repeat "QUJD"%string 101) <= inject_Z TOTAL_MAX_IMAGE_SIZE)%Q /\
   validate_total_image_size (VList crowded_gallery) = raise too_many /\
   pipe example_builtins example_valves None crowded_body busy_server =
     {| pipe_returns := Reply (ErrorOf too_many) None;
        pipe_request_id := None;
        pipe_effects := [] |}).
Proof.
  intros total_size too_large too_many. split.
  - assert (Hover : (inject_Z TOTAL_MAX_IMAGE_SIZE < total_size)%Q).
    { subst total_size. rewrite combined_size_of_galleries. vm_compute. reflexivity. }
    split.
    { unfold image_size_of. rewrite len_five_megabytes. vm_compute. discriminate. }
    split; [exact combined_size_of_galleries |].
    destruct (oversized_images_rejected_before_network example_builtins example_valves None
                two_galleries_body busy_server (VList (two_galleries five_megabytes)) VNone
                (two_galleries five_megabytes) (repeat five_megabytes 21)
                ltac:(discriminate) eq_refl eq_refl
                (images_across_two_galleries five_megabytes) (or_introl Hover))
      as (why & Hv & H1 & _ & Hp).
    rewrite (H1 Hover) in Hv, Hp. split; [exact Hv | exact Hp].
  - assert (Hwithin : (combined_size (repeat "QUJD"%string 101)
                       <= inject_Z TOTAL_MAX_IMAGE_SIZE)%Q).
    { vm_compute. discriminate. }
    assert (Hmany : MAX_IMAGES_PER_REQUEST < Z.of_nat (List.length (repeat "QUJD"%string 101))).
    { vm_compute. reflexivity. }
    split; [exact Hwithin |].
    destruct (oversized_images_rejected_before_network example_builtins example_valves None
                crowded_body busy_server (VList crowded_gallery) VNone
                crowded_gallery (repeat "QUJD"%string 101)
                ltac:(discriminate) eq_refl eq_refl
                images_across_crowded_gallery (or_intror Hmany))
      as (why & Hv & _ & H2 & Hp).
    rewrite (H2 (Qle_not_lt _ _ Hwithin)) in Hv, Hp. split; [exact Hv | exact Hp].
Defined.

Lemma tool_items_announce_caching_witness :
  exists req,
    prepare full_builtins example_valves tool_results_body = inr req /\
    request_headers req =
      base_headers example_valves ++ [("anthropic-beta", PROMPT_CACHE_HEADER)] /\
    exists beta_headers,
      request_headers req =
        base_headers example_valves ++ [("anthropic-beta", join "," beta_headers)] /\
      In PROMPT_CACHE_HEADER beta_headers.
Proof.
  eexists. split; [vm_compute; reflexivity |]. split; [vm_compute; reflexivity |].
  eapply (tool_items_announce_caching full_builtins example_valves tool_results_body _
            [tool_results_message]
            [("role", VStr "user");
             ("content",
              VList [VDict [("type", VStr "tool_results");
                            ("cache_control",
                             VDict [("type", VStr "ephemeral"); ("ttl", VStr "1h")])]])]
            [("type", VStr "tool_results");
             ("cache_control", VDict [("type", VStr "ephemeral"); ("ttl", VStr "1h")])]).
  - vm_compute. reflexivity.
  - reflexivity.
  - left. reflexivity.
  - reflexivity.
  - left. reflexivity.
  - left. split; reflexivity.
Defined.

Lemma passable_stream_ends_with_done_witness :
  (exists earlier,
      yielded (stream_with_ui example_builtins None example_payload
                 (Responded example_response)) = earlier ++ [SseDone]) /\
  filter is_done
    (yielded (stream_with_ui example_builtins None example_payload
                (Responded example_response))) = [SseDone].
Proof.
  eapply (passable_stream_ends_with_done example_builtins None example_payload
            example_response
            (example_before ++ Line 1700000002 (sse_line tool_start_event) :: example_middle)
            example_after 1700000004 (sse_line message_stop_event)).
  all: vm_compute; reflexivity.
Defined.

Lemma non_200_yields_one_error_witness :
  yielded (stream_with_ui example_builtins None example_payload (busy_server 0)) =
    [SseError (HttpError 429 "") None] /\
  logged (stream_with_ui example_builtins None example_payload (busy_server 0)) = [].
Proof.
  apply (non_200_yields_one_error example_builtins None example_payload
           {| status := 429; headers := no_headers; text := ""; content := [] |}).
  discriminate.
Defined.

Lemma no_message_stop_no_done_witness :
  filter is_done
    (yielded (stream_with_ui example_builtins None example_payload
                (Responded {| status := 200; headers := no_headers; text := "";
                              content := example_before |}))) = [].
Proof.
  apply (no_message_stop_no_done example_builtins None example_payload
           {| status := 200; headers := no_headers; text := "";
              content := example_before |}).
  vm_compute. reflexivity.
Defined.

Lemma missing_api_key_short_circuits_witness :
  pipe example_builtins {| ANTHROPIC_API_KEY := ""; THINKING_BUDGET_TOKENS := 16000 |}
    None example_body busy_server =
    {| pipe_returns := Reply MissingApiKey None;
       pipe_request_id := None;
       pipe_effects := [] |}.
Proof.
  apply (missing_api_key_short_circuits example_builtins
           {| ANTHROPIC_API_KEY := ""; THINKING_BUDGET_TOKENS := 16000 |}
           None example_body busy_server).
  reflexivity.
Defined.

Lemma block_stop_closes_tool_call_witness :
  let t := {| tu_id := VStr "toolu_01"; tu_name := VStr "get_weather"; tu_index := 0 |} in
  let open := {| current_tool_use := Some t;
                 tool_use_input_json := first_fragment;
                 tool_call_index := 0;
                 has_tool_calls := true |} in
  handle_line example_builtins (VStr "claude-3-5-sonnet-latest") open 1700000003
    (sse_line block_stop_event)
  = ok (Continue {| current_tool_use := None;
                    tool_use_input_json := "";
                    tool_call_index := 1;
                    has_tool_calls := true |}, [], []).
Proof.
  intros t open.
  eapply (block_stop_closes_tool_call example_builtins (VStr "claude-3-5-sonnet-latest")
            open 1700000003 (sse_line block_stop_event)).
  all: vm_compute; reflexivity.
Defined.

Lemma thinking_delta_is_reasoning_content_witness :
  let chunk := reasoning_chunk 1700000001 (VStr "claude-3-5-sonnet-latest")
                 (VStr "The user asks about Paris.") in
  handle_line example_builtins (VStr "claude-3-5-sonnet-latest") initial_state 1700000001
    (sse_line thinking_event)
  = ok (Continue initial_state, [SseData chunk], []) /\
  delta_of chunk = [("reasoning_content", VStr "The user asks about Paris.")].
Proof.
  eapply (thinking_delta_is_reasoning_content example_builtins
            (VStr "claude-3-5-sonnet-latest") initial_state 1700000001
            (sse_line thinking_event)).
  all: vm_compute; reflexivity.
Defined.

Lemma process_image_steps (base64_data : string) :
  let url := ("data:image/png;base64," ++ base64_data)%string in
  startswith "data:image" url = true /\
  split1 "," url = ["data:image/png;base64"; base64_data] /\
  nth_error (split ":" "data:image/png;base64") 1 = Some "image/png;base64" /\
  nth_error (split ";" "image/png;base64") 0 = Some "image/png".
Proof. repeat split; reflexivity. Qed.

Lemma oversized_image_is_rejected_witness :
  process_image (image_item over_five_megabytes)
    = raise (ValueError (ImageSizeExceeded (image_size_of over_five_megabytes))).
Proof.
  destruct (process_image_steps over_five_megabytes) as (H1 & H2 & H3 & H4).
  refine (oversized_image_is_rejected
            [("url", VStr ("data:image/png;base64," ++ over_five_megabytes))]
            _ _ _ _ _ eq_refl H1 H2 H3 H4 _ _).
  - simpl. auto.
  - unfold image_size_of, over_five_megabytes. rewrite len_times.
    vm_compute. reflexivity.
Defined.

Lemma event_without_type_ends_stream_witness :
  exists out,
    yielded (stream_with_ui wide_builtins None example_payload (Responded untyped_response))
    = out ++ [SseError (StreamError (KeyError "type")) None].
Proof.
  eexists.
  refine (proj2 (event_without_type_ends_stream wide_builtins None example_payload
                   untyped_response example_before example_after 1700000002
                   (sse_line untyped_event) untyped_event (KeyError "type")
                   _ _ _ _ _ _ _ _ _)).
  all: vm_compute; reflexivity.
Defined.

Lemma sequential_tool_calls_are_numbered_witness :
  let model_name := VStr "claude-3-5-sonnet-latest" in
  let t0 := {| tu_id := VStr "toolu_01"; tu_name := VStr "get_weather"; tu_index := 0 |} in
  let t1 := {| tu_id := VStr "toolu_01"; tu_name := VStr "get_weather"; tu_index := 1 |} in
  let finish := SseData (finish_chunk 1700000007 model_name "tool_calls") in
  let opening k :=
    Some (VList [VDict [("index", VInt k); ("id", VStr "toolu_01");
                        ("type", VStr "function");
                        ("function", VDict [("name", VStr "get_weather");
                                            ("arguments", VStr "")])]]) in
  let fragment k text :=
    Some (VList [VDict [("index", VInt k);
                        ("function", VDict [("arguments", VStr text)])]]) in
  let chunks :=
    filter about_tool_call
      (yielded (stream_with_ui example_builtins None example_payload
                  (Responded two_calls_response))) in
  chunks =
    [SseData (initial_tool_chunk 1700000002 model_name t0);
     SseData (argument_chunk 1700000002 model_name 0 (VStr first_fragment));
     SseData (argument_chunk 1700000003 model_name 0 (VStr second_fragment));
     SseData (initial_tool_chunk 1700000004 model_name t1);
     SseData (argument_chunk 1700000005 model_name 1 (VStr first_fragment));
     finish]
  /\ map tool_calls_of chunks =
       [opening 0; fragment 0 first_fragment; fragment 0 second_fragment;
        opening 1; fragment 1 first_fragment; None]
  /\ (exists before, chunks = before ++ [finish]
                     /\ Forall (fun i => finish_reason_in i = VNone) before
                     /\ finish_reason_in finish = VStr "tool_calls").
Proof.
  eapply (sequential_tool_calls_are_numbered example_builtins None example_payload
            two_calls_response [first_call; second_call]
            [Line 1700000006 (sse_line text_delta_event)] example_after
            1700000007 (sse_line message_stop_event)).
  all: vm_compute; reflexivity.
Defined.

Lemma payload_has_no_null_field_witness :
  exists req,
    prepare wide_builtins example_valves one_shot_body = inr req /\
    Forall (fun kv => snd kv <> VNone) (request_payload req) /\
    lookup "temperature" (request_payload req) = None.
Proof.
  eexists. split; [vm_compute; reflexivity |].
  destruct (payload_has_no_null_field wide_builtins example_valves one_shot_body _ eq_refl)
    as [H1 H2].
  split; [exact H1 |]. apply H2; [simpl; tauto | right; reflexivity].
Defined.

Lemma stream_field_decides_mode_witness :
  exists req,
    prepare example_builtins example_valves example_body = inr req /\
    pipe_returns (pipe example_builtins example_valves None example_body busy_server)
    = Generator req.
Proof.
  eexists. split; [vm_compute; reflexivity |].
  refine (proj1 (stream_field_decides_mode example_builtins example_valves None
                   example_body busy_server _ _ eq_refl) eq_refl).
  vm_compute. discriminate.
Defined.

Lemma pipe_returns_text_after_retries_witness :
  let run := pipe wide_builtins example_valves None one_shot_body answering_server in
  pipe_returns run = ResponseText (VStr "Hello!") /\
  pipe_effects run = [Posted; Logged (LogRateLimit 2 1); Slept 2; Posted] /\
  posts (pipe_effects run) = 2%nat.
Proof.
  eapply (pipe_returns_text_after_retries wide_builtins example_valves None one_shot_body
            answering_server _ (VBool false) (fun _ => 2) 1).
  - vm_compute. discriminate.
  - vm_compute. reflexivity.
  - reflexivity.
  - reflexivity.
  - intros i Hi. destruct i as [| i]; [| lia].
    eexists. split; [reflexivity | split; reflexivity].
  - lia.
  - reflexivity.
  - reflexivity.
  - vm_compute. reflexivity.
  - intros usage H. vm_compute in H. injection H as <-. eexists. reflexivity.
  - reflexivity.
  - reflexivity.
  - reflexivity.
Defined.

Lemma pipe_reports_upstream_errors_witness :
  let run := pipe wide_builtins example_valves None one_shot_body busy_server in
  pipe_returns run = Reply (HttpError 429 "Max retries exceeded") None /\
  pipe_effects run =
    [Posted; Logged (LogRateLimit 1 1); Slept 1;
     Posted; Logged (LogRateLimit 2 2); Slept 2;
     Posted; Logged (LogRateLimit 4 3); Slept 4;
     Logged LogMaxRetries].
Proof.
  assert (Hkey : ANTHROPIC_API_KEY example_valves <> "") by (vm_compute; discriminate).
  assert (Hlimited : rate_limited wide_builtins busy_server (fun i => base_delay * 2 ^ Z.of_nat i) 3).
  { intros i Hi. eexists. split; [reflexivity | split; reflexivity]. }
  destruct (pipe_reports_upstream_errors wide_builtins example_valves None one_shot_body
              busy_server _ (VBool false) (fun i => base_delay * 2 ^ Z.of_nat i) 3
              Hkey eq_refl eq_refl eq_refl Hlimited) as [H _].
  exact (H eq_refl).
Defined.

Lemma headers_ignore_message_order_witness :
  exists hs,
    build_headers example_valves (beta_body [cached_message; pdf_message])
      "claude-sonnet-4-0" true = inr hs /\
    build_headers example_valves (beta_body [pdf_message; cached_message])
      "claude-sonnet-4-0" true = inr hs.
Proof.
  eexists. split; [vm_compute; reflexivity |].
  eapply (headers_ignore_message_order example_valves
            (beta_body [cached_message; pdf_message])
            (beta_body [pdf_message; cached_message])
            [cached_message; pdf_message] [pdf_message; cached_message]).
  - reflexivity.
  - reflexivity.
  - apply perm_swap.
  - reflexivity.
  - vm_compute. reflexivity.
Defined.


Lemma function_tools_are_converted_in_order_witness :
  convert_openai_tools_to_anthropic (VList [weather_tool; retrieval_tool; bare_tool]) =
    ok [VDict [("name", VStr "get_weather");
               ("description", VStr "The weather of a city");
               ("input_schema", VDict [("type", VStr "object")])];
        VDict [("name", VNone); ("description", VNone); ("input_schema", VDict [])]]
  /\ (2 <= 3)%nat.
Proof.
  apply (function_tools_are_converted_in_order [weather_tool; retrieval_tool; bare_tool]).
  repeat constructor;
    (eexists; split; [reflexivity |]; vm_compute; intros H;
     first [discriminate H | eexists; reflexivity]).
Defined.

Lemma advertised_models_have_ceilings_witness :
  (exists ceiling, table_get "claude-opus-4-0" MODEL_MAX_TOKENS = Some ceiling) /\
  true = endswith "-thinking" "claude-opus-4-0-thinking" /\
  ("claude-opus-4-0" ++ "-thinking")%string = "claude-opus-4-0-thinking".
Proof.
  apply (advertised_models_have_ceilings "claude-opus-4-0-thinking").
  unfold pipes, get_anthropic_models. cbn [map app In].
  do 5 right. left. reflexivity.
Defined.

Lemma model_prefix_is_dropped_but_read_witness :
  fst (resolve_model "my-thinking/claude-3-5-sonnet-latest") = "claude-3-5-sonnet-latest" /\
  (contains "-thinking" "my-thinking" = true ->
   snd (resolve_model "my-thinking/claude-3-5-sonnet-latest") = true) /\
  (contains "-thinking" "my-thinking/claude-3-5-sonnet-latest" = false ->
   resolve_model "my-thinking/claude-3-5-sonnet-latest" = ("claude-3-5-sonnet-latest", false)).
Proof.
  apply (model_prefix_is_dropped_but_read "my-thinking" "claude-3-5-sonnet-latest").
  reflexivity.
Defined.

Lemma remote_images_are_not_counted_witness :
  image_totals (VList remote_gallery) = ok (0%Q, 0) /\
  validate_total_image_size (VList remote_gallery) = ok tt.
Proof.
  apply (remote_images_are_not_counted remote_gallery).
  constructor; [| constructor; [| constructor]].
  - eexists. split; [reflexivity |]. intros items H.
    change (Some (VList (repeat remote_image 200)) = Some (VList items)) in H.
    apply (f_equal (fun o => match o with Some (VList l) => l | _ => [] end)) in H.
    cbv beta iota in H. subst items. apply Forall_forall. intros item Hin. apply repeat_spec in Hin. subst item.
    eexists. split; [reflexivity |]. intros _. eexists _, _.
    split; [reflexivity | split; reflexivity].
  - eexists. split; [reflexivity |]. intros items H. cbn in H. discriminate.
Defined.


Lemma process_pdf_steps (base64_data : string) :
  let url := ("data:application/pdf;base64," ++ base64_data)%string in
  startswith "data:application/pdf" url = true /\
  split1 "," url = ["data:application/pdf;base64"; base64_data].
Proof. split; reflexivity. Qed.

Lemma inline_pdf_size_limit_witness :
  process_content
    (VList ([cached_text_item] ++ VDict (pdf_item over_thirty_two_megabytes)
                               :: [remote_image]))
  = inl (PdfSizeExceeded (inject_Z (len over_thirty_two_megabytes * 3) / inject_Z 4)%Q).
Proof.
  destruct (process_pdf_steps over_thirty_two_megabytes) as [H1 H2].
  refine (proj1 (inline_pdf_size_limit [cached_text_item] [remote_image]
                   [text_block "Hello"] (pdf_item over_thirty_two_megabytes)
                   _ _ _ _ eq_refl eq_refl eq_refl eq_refl H1 H2) _).
  unfold over_thirty_two_megabytes. rewrite len_times. vm_compute. reflexivity.
Defined.

Lemma processed_messages_are_block_lists_witness :
  Forall anthropic_message [processed_question; processed_calls; processed_answers].
Proof.
  apply (processed_messages_are_block_lists wide_builtins example_text
           (VList [user_question; VDict assistant_calls; weather_answer; time_answer])).
  vm_compute. reflexivity.
Defined.

Lemma tool_results_are_kept_in_order_witness :
  Forall2 (gives_tool_result wide_builtins example_text)
    [weather_answer; time_answer]
    [tool_result_block (VStr "call_1", ("Sunny" ++ nl ++ "18 C")%string);
     tool_result_block (VStr "call_2", "No such tool")].
Proof.
  apply (tool_results_are_kept_in_order wide_builtins example_text
           [user_question; VDict assistant_calls; weather_answer; time_answer]
           [processed_question; processed_calls; processed_answers]).
  vm_compute. reflexivity.
Defined.

Lemma tool_results_share_one_message_witness :
  process_messages_of wide_builtins example_text
    (VList ([user_question; VDict assistant_calls] ++ [weather_answer; time_answer]))
  = inr ([processed_question; processed_calls] ++ [processed_answers]).
Proof.
  apply (tool_results_share_one_message wide_builtins example_text
           [user_question; VDict assistant_calls] [weather_answer; time_answer]
           [processed_question; processed_calls]
           [(VStr "call_1", ("Sunny" ++ backslash ++ "n18 C")%string);
            (VStr "call_2", "No such tool")]).
  - vm_compute. reflexivity.
  - reflexivity.
  - discriminate.
  - repeat constructor;
      (eexists; split; [reflexivity |]; repeat split; vm_compute; reflexivity).
Defined.

Lemma assistant_tool_calls_become_tool_use_witness :
  process_messages_of wide_builtins example_text
    (VList ([user_question] ++ [VDict assistant_calls]))
  = inr ([processed_question] ++ [processed_calls]).
Proof.
  apply (assistant_tool_calls_become_tool_use wide_builtins example_text
           [user_question] [processed_question] assistant_calls
           [weather_call; broken_call] [weather_use; broken_use]).
  - vm_compute. reflexivity.
  - reflexivity.
  - reflexivity.
  - discriminate.
  - constructor; [| constructor; [| constructor]].
    + eexists _, _, _. split; [reflexivity |]. split; [reflexivity |].
      split; [left; vm_compute; reflexivity | reflexivity].
    + eexists _, _, _. split; [reflexivity |]. split; [reflexivity |].
      split; [right; split; vm_compute; reflexivity | reflexivity].
Defined.

Lemma full_builtins_hold : holds_process_messages full_builtins example_text.
Proof.
  intros messages v H. cbn [process_messages full_builtins] in H.
  change (process_messages_of full_builtins example_text messages)
    with (process_messages_of wide_builtins example_text messages).
  destruct (process_messages_of wide_builtins example_text messages) as [[e | q] | processed].
  - discriminate.
  - discriminate.
  - injection H as <-. exists processed. split; reflexivity.
Qed.

Lemma payload_messages_are_block_lists_witness :
  exists req messages,
    prepare full_builtins example_valves one_shot_body = inr req /\
    lookup "messages" (request_payload req) = Some (VList messages) /\
    Forall anthropic_message messages.
Proof.
  eexists.
  destruct (payload_messages_are_block_lists full_builtins example_text example_valves
              one_shot_body _ full_builtins_hold eq_refl) as (messages & H1 & H2).
  exists messages. split; [vm_compute; reflexivity | split; assumption].
Defined.

Lemma thinking_goes_to_reasoning_content_witness :
  let items := yielded (stream_with_ui example_builtins None example_payload
                          (Responded thinking_response)) in
  filter has_reasoning items =
    [SseData (reasoning_chunk 1700000001 (VStr "claude-3-5-sonnet-latest")
                (VStr "The user asks about Paris."))] /\
  Forall (fun i => has_content i = false) (filter has_reasoning items).
Proof.
  eapply (thinking_goes_to_reasoning_content example_builtins None example_payload
            thinking_response
            [Line 1700000000 (sse_line message_start_event);
             Line 1700000001 (sse_line thinking_event);
             Line 1700000002 (sse_line text_delta_event)]
            [] 1700000003 (sse_line message_stop_event)).
  all: vm_compute; reflexivity.
Defined.
